(** * eBPF edge-node telemetry: kernel-side tables and the userspace aggregator

    A shallow embedding of [ebpf-agent/telemetry.bpf.c] (the instrumentation
    callbacks and their hash maps) and of [ebpf-agent/agent.c] (percentile,
    rate and CPU computations, the tick and the collection loop), with the
    properties of the design document stated against it.

    Conventions.  Unsigned C integers are [Z] values with the wrap-around
    written out ([u32], [u64]).  BPF hash maps are [gmap Z _].  A C [double]
    that the program only ever fills with an integer or with one quotient of
    two integers is represented by that exact number ([Z], resp. [Q]); the
    places where the C arithmetic would round are pointed out where they
    occur. *)

From Stdlib Require Import ZArith Lia List Bool QArith String.
From stdpp Require Import base option list gmap fin_maps.

Local Open Scope Z_scope.

(** ** Machine integers *)

Definition u32 (z : Z) : Z := z mod 2 ^ 32.
Definition u64 (z : Z) : Z := z mod 2 ^ 64.

(** ** telemetry.bpf.c *)

Module telemetry_bpf.

Definition MAX_SLOTS : Z := 64.
Definition MAX_NODES : Z := 256.

(** [while (value > 1 && slot < MAX_SLOTS - 1) { value >>= 1; slot++; }]
    The loop test comes first; [None] means the fuel ran out with the test
    still true. *)
Fixpoint value_to_slot_loop (fuel : nat) (value slot : Z) : option Z :=
  if (1 <? value) && (slot <? MAX_SLOTS - 1) then
    match fuel with
    | O => None
    | S fuel' => value_to_slot_loop fuel' (Z.shiftr value 1) (slot + 1)
    end
  else Some slot.

(** [static __always_inline int value_to_slot(__u64 value)] *)
Definition value_to_slot (value : Z) : option Z :=
  if value =? 0 then Some 0
  else value_to_slot_loop (Z.to_nat MAX_SLOTS) value 0.

(** [struct hist { __u32 slots[MAX_SLOTS]; }] *)
Record hist := { slots : list Z }.

(** [struct node_metrics] *)
Record node_metrics := {
  rtt_sum : Z;
  rtt_count : Z;
  retrans_count : Z;
  drop_count : Z;
  runqlat_sum : Z;
  runqlat_count : Z;
  cpu_util : Z;
  timestamp : Z
}.

(** [struct telemetry_event]; the fields carry the prefix [ev_] because
    [timestamp] is already a field of [node_metrics]. *)
Record telemetry_event := {
  ev_node_id : Z;
  ev_event_type : Z;
  ev_value : Z;
  ev_timestamp : Z;
  ev_extra_data : Z
}.

(** The four maps of the object file.  [events] is the ring buffer, kept as
    the list of submitted records, oldest first. *)
Record bpf_maps := {
  node_metrics_map : gmap Z node_metrics;
  rtt_hist_map : gmap Z hist;
  drop_reason_map : gmap Z Z;
  events : list telemetry_event
}.

Definition set_node_metrics_map (s : bpf_maps) (m : gmap Z node_metrics) :=
  {| node_metrics_map := m; rtt_hist_map := rtt_hist_map s;
     drop_reason_map := drop_reason_map s; events := events s |}.
Definition set_rtt_hist_map (s : bpf_maps) (m : gmap Z hist) :=
  {| node_metrics_map := node_metrics_map s; rtt_hist_map := m;
     drop_reason_map := drop_reason_map s; events := events s |}.
Definition set_drop_reason_map (s : bpf_maps) (m : gmap Z Z) :=
  {| node_metrics_map := node_metrics_map s; rtt_hist_map := rtt_hist_map s;
     drop_reason_map := m; events := events s |}.
Definition set_events (s : bpf_maps) (l : list telemetry_event) :=
  {| node_metrics_map := node_metrics_map s; rtt_hist_map := rtt_hist_map s;
     drop_reason_map := drop_reason_map s; events := l |}.

Definition empty_maps : bpf_maps :=
  {| node_metrics_map := ∅; rtt_hist_map := ∅; drop_reason_map := ∅;
     events := [] |}.

(** [struct hist new_hist = {};] and [struct node_metrics new_metrics = {};] *)
Definition new_hist : hist := {| slots := replicate (Z.to_nat MAX_SLOTS) 0 |}.
Definition new_metrics : node_metrics :=
  {| rtt_sum := 0; rtt_count := 0; retrans_count := 0; drop_count := 0;
     runqlat_sum := 0; runqlat_count := 0; cpu_util := 0; timestamp := 0 |}.

(** [bpf_map_update_elem(map, &k, &v, BPF_ANY)] on a [BPF_MAP_TYPE_HASH] of
    [max_entries] elements: an existing key is overwritten, a new key is
    inserted while there is room, otherwise the call fails and the map is
    left as it was (no caller looks at the return value). *)
Definition bpf_map_update_elem {V} (max_entries : Z) (m : gmap Z V) (k : Z) (v : V)
  : gmap Z V :=
  match m !! k with
  | Some _ => <[k := v]> m
  | None => if Z.of_nat (size m) <? max_entries then <[k := v]> m else m
  end.

(** The create-on-miss sequence every callback repeats:
    [p = lookup(k); if (!p) { update(k, zero); p = lookup(k); if (!p) return 0; }]
    [None] is the early [return 0]. *)
Definition lookup_or_create {V} (max_entries : Z) (zero : V) (m : gmap Z V) (k : Z)
  : option (V * gmap Z V) :=
  match m !! k with
  | Some v => Some (v, m)
  | None =>
      let m' := bpf_map_update_elem max_entries m k zero in
      match m' !! k with
      | Some v => Some (v, m')
      | None => None
      end
  end.

(** What the kernel helpers return during one callback invocation. *)
Record helpers := {
  smp_processor_id : Z;   (* bpf_get_smp_processor_id() *)
  ktime_get_ns : Z;       (* first bpf_ktime_get_ns() of the invocation *)
  ktime_get_ns2 : Z;      (* the one stored in the published event *)
  prandom_u32 : Z;        (* bpf_get_prandom_u32() *)
  ringbuf_room : bool     (* bpf_ringbuf_reserve() returned a record *)
}.

(** [get_node_id()] *)
Definition get_node_id (h : helpers) : Z := smp_processor_id h mod 8.

(** [bpf_ringbuf_reserve] / fill / [bpf_ringbuf_submit] *)
Definition publish (h : helpers) (e : telemetry_event) (s : bpf_maps) : bpf_maps :=
  if ringbuf_room h then set_events s (events s ++ [e]) else s.

(** [__sync_fetch_and_add(&hist->slots[slot], 1)] *)
Definition hist_add (hs : hist) (slot : Z) : hist :=
  {| slots := alter (fun c => u32 (c + 1)) (Z.to_nat slot) (slots hs) |}.

(** [trace_tcp_ack].  [sk] is [None] for a null [ctx->sk], [Some None] when
    [bpf_core_read] of [srtt_us] fails, [Some (Some srtt_us)] otherwise.
    The outer [option] is the fuel of [value_to_slot]. *)
Definition trace_tcp_ack (sk : option (option Z)) (h : helpers) (s : bpf_maps)
  : option bpf_maps :=
  match sk with
  | None | Some None => Some s
  | Some (Some srtt_us) =>
      let rtt_ms := u32 (Z.shiftr srtt_us 3) / 1000 in
      let node_id := get_node_id h in
      match lookup_or_create MAX_NODES new_hist (rtt_hist_map s) node_id with
      | None => Some s
      | Some (hs, hm) =>
          slot ← value_to_slot rtt_ms;
          let hm :=
            if (0 <=? slot) && (slot <? MAX_SLOTS)
            then <[node_id := hist_add hs slot]> hm else hm in
          let s := set_rtt_hist_map s hm in
          match lookup_or_create MAX_NODES new_metrics (node_metrics_map s) node_id with
          | None => Some s
          | Some (metrics, nm) =>
              let metrics :=
                {| rtt_sum := u64 (rtt_sum metrics + rtt_ms);
                   rtt_count := u64 (rtt_count metrics + 1);
                   retrans_count := retrans_count metrics;
                   drop_count := drop_count metrics;
                   runqlat_sum := runqlat_sum metrics;
                   runqlat_count := runqlat_count metrics;
                   cpu_util := cpu_util metrics;
                   timestamp := ktime_get_ns h |} in
              let s := set_node_metrics_map s (<[node_id := metrics]> nm) in
              Some (if prandom_u32 h mod 100 =? 0
                    then publish h {| ev_node_id := node_id; ev_event_type := 1;
                                      ev_value := rtt_ms;
                                      ev_timestamp := ktime_get_ns2 h;
                                      ev_extra_data := 0 |} s
                    else s)
          end
      end
  end.

(** [trace_tcp_retrans] *)
Definition trace_tcp_retrans (h : helpers) (s : bpf_maps) : bpf_maps :=
  let node_id := get_node_id h in
  match lookup_or_create MAX_NODES new_metrics (node_metrics_map s) node_id with
  | None => s
  | Some (metrics, nm) =>
      let metrics :=
        {| rtt_sum := rtt_sum metrics;
           rtt_count := rtt_count metrics;
           retrans_count := u64 (retrans_count metrics + 1);
           drop_count := drop_count metrics;
           runqlat_sum := runqlat_sum metrics;
           runqlat_count := runqlat_count metrics;
           cpu_util := cpu_util metrics;
           timestamp := ktime_get_ns h |} in
      let s := set_node_metrics_map s (<[node_id := metrics]> nm) in
      publish h {| ev_node_id := node_id; ev_event_type := 2; ev_value := 1;
                   ev_timestamp := ktime_get_ns2 h; ev_extra_data := 0 |} s
  end.

(** [trace_skb_drop].  [reason] is what ends up in the local [reason]
    ([0] when the field does not exist). *)
Definition trace_skb_drop (reason : Z) (h : helpers) (s : bpf_maps) : bpf_maps :=
  let node_id := get_node_id h in
  let dm :=
    match drop_reason_map s !! reason with
    | None => bpf_map_update_elem 64 (drop_reason_map s) reason 1
    | Some count => <[reason := u64 (count + 1)]> (drop_reason_map s)
    end in
  let s := set_drop_reason_map s dm in
  match lookup_or_create MAX_NODES new_metrics (node_metrics_map s) node_id with
  | None => s
  | Some (metrics, nm) =>
      let metrics :=
        {| rtt_sum := rtt_sum metrics;
           rtt_count := rtt_count metrics;
           retrans_count := retrans_count metrics;
           drop_count := u64 (drop_count metrics + 1);
           runqlat_sum := runqlat_sum metrics;
           runqlat_count := runqlat_count metrics;
           cpu_util := cpu_util metrics;
           timestamp := ktime_get_ns h |} in
      let s := set_node_metrics_map s (<[node_id := metrics]> nm) in
      if prandom_u32 h mod 10 =? 0
      then publish h {| ev_node_id := node_id; ev_event_type := 3; ev_value := 1;
                        ev_timestamp := ktime_get_ns2 h;
                        ev_extra_data := reason |} s
      else s
  end.

(** [trace_sched_wakeup]:
    [bpf_map_update_elem(&node_metrics_map, &pid, &ts, BPF_ANY)].
    The map's values are [struct node_metrics], so the helper copies a whole
    record starting at [&ts]: its first field receives [ts], the others the
    memory that follows [ts], given here as [adjacent]. *)
Definition trace_sched_wakeup (pid : Z) (adjacent : node_metrics) (h : helpers)
    (s : bpf_maps) : bpf_maps :=
  let ts := ktime_get_ns h in
  let written :=
    {| rtt_sum := ts;
       rtt_count := rtt_count adjacent;
       retrans_count := retrans_count adjacent;
       drop_count := drop_count adjacent;
       runqlat_sum := runqlat_sum adjacent;
       runqlat_count := runqlat_count adjacent;
       cpu_util := cpu_util adjacent;
       timestamp := timestamp adjacent |} in
  set_node_metrics_map s
    (bpf_map_update_elem MAX_NODES (node_metrics_map s) pid written).

(** [trace_sched_switch].  [*wakeup_ts] reads the first eight bytes of the
    value found under [next_pid], i.e. its [rtt_sum] field. *)
Definition trace_sched_switch (next_pid : Z) (h : helpers) (s : bpf_maps)
  : bpf_maps :=
  let ts := ktime_get_ns h in
  match node_metrics_map s !! next_pid with
  | None => s
  | Some w =>
      let wakeup_ts := rtt_sum w in
      let latency_ns := u64 (ts - wakeup_ts) in
      let latency_ms := u32 (latency_ns / 1000000) in
      let node_id := get_node_id h in
      match lookup_or_create MAX_NODES new_metrics (node_metrics_map s) node_id with
      | None => s
      | Some (metrics, nm) =>
          let metrics :=
            {| rtt_sum := rtt_sum metrics;
               rtt_count := rtt_count metrics;
               retrans_count := retrans_count metrics;
               drop_count := drop_count metrics;
               runqlat_sum := u64 (runqlat_sum metrics + latency_ms);
               runqlat_count := u64 (runqlat_count metrics + 1);
               cpu_util := cpu_util metrics;
               timestamp := ts |} in
          set_node_metrics_map s (delete next_pid (<[node_id := metrics]> nm))
      end
  end.

(** One invocation of an instrumentation callback, with its inputs. *)
Inductive callback :=
| tcp_ack (sk : option (option Z)) (h : helpers)
| tcp_retransmit_skb (h : helpers)
| kfree_skb (reason : Z) (h : helpers)
| sched_wakeup (pid : Z) (adjacent : node_metrics) (h : helpers)
| sched_switch (next_pid : Z) (h : helpers).

Definition invoke (c : callback) (s : bpf_maps) : option bpf_maps :=
  match c with
  | tcp_ack sk h => trace_tcp_ack sk h s
  | tcp_retransmit_skb h => Some (trace_tcp_retrans h s)
  | kfree_skb reason h => Some (trace_skb_drop reason h s)
  | sched_wakeup pid adjacent h => Some (trace_sched_wakeup pid adjacent h s)
  | sched_switch next_pid h => Some (trace_sched_switch next_pid h s)
  end.

(** The callbacks of a trace, run one after the other. *)
Fixpoint run (cs : list callback) (s : bpf_maps) : option bpf_maps :=
  match cs with
  | [] => Some s
  | c :: cs' => s' ← invoke c s; run cs' s'
  end.

(** Helper results of an invocation on processor [cpu] at time [now] that
    publishes no sampled event by chance ([prandom_u32] = 1). *)
Definition helpers_on (cpu now : Z) : helpers :=
  {| smp_processor_id := cpu; ktime_get_ns := now; ktime_get_ns2 := now;
     prandom_u32 := 1; ringbuf_room := true |}.

End telemetry_bpf.

Import telemetry_bpf.

(** ** C evaluation outcomes and doubles *)

(** The result of evaluating C code that may run into undefined behaviour. *)
Inductive c_result (A : Type) : Type :=
| Defined (a : A)
| UB.
Arguments Defined {A} a.
Arguments UB {A}.

#[global] Instance c_result_ret : MRet c_result := fun A a => Defined a.
#[global] Instance c_result_bind : MBind c_result := fun A B f m =>
  match m with
  | Defined a => f a
  | UB => UB
  end.

Definition INT_MAX : Z := 2 ^ 31 - 1.

(** [x << i] on [int] operands with [x >= 0] (C11 6.5.7): the value
    [x * 2^i] when the shift count is below the width and the value is
    representable in [int], undefined otherwise. *)
Definition shl_int (x i : Z) : c_result Z :=
  if (0 <=? i) && (i <? 32) && (0 <=? x) && (x * 2 ^ i <=? INT_MAX)
  then Defined (x * 2 ^ i) else UB.

(** Conversion of a [double] with exact value [num / den] to [__u32]
    (C11 6.3.1.4): the fraction is discarded; undefined when the integral
    part does not fit. *)
Definition double_to_u32 (num den : Z) : c_result Z :=
  let z := Z.quot num den in
  if (0 <=? z) && (z <? 2 ^ 32) then Defined z else UB.

(** A [double] as far as the agent can produce one: an exact rational (the
    C value is its rounding to binary64), or the outcome of a division by
    zero. *)
Inductive double :=
| Fin (q : Q)
| Inf
| NaN.

(** [d] is a finite double of value [q]. *)
Definition double_is (d : double) (q : Q) : Prop :=
  match d with
  | Fin x => (x == q)%Q
  | _ => False
  end.

(** [d] is a negative number. *)
Definition double_neg (d : double) : Prop :=
  match d with
  | Fin x => (x < 0)%Q
  | _ => False
  end.

(** ** agent.c *)

Module agent.

(** [struct prometheus_metrics] *)
Record prometheus_metrics := {
  rtt_p50_ms : double;
  rtt_p99_ms : double;
  tcp_retrans_rate : double;
  drop_rate : double;
  runqlat_p95_ms : double;
  cpu_utilization : double;
  node_name : string;
  last_update : Z
}.

(** [hist->slots[i]] *)
Definition slot_at (h : hist) (i : Z) : Z := slots h !!! Z.to_nat i.

(** [for (int i = 0; i < MAX_SLOTS; i++) total += hist->slots[i];]
    [n] counts the iterations that remain. *)
Fixpoint sum_slots (n : nat) (h : hist) (i total : Z) : Z :=
  match n with
  | O => total
  | S n' => sum_slots n' h (i + 1) (u32 (total + slot_at h i))
  end.

(** The second loop of [calculate_percentile]; falling out of it is the
    final [return 0.0]. *)
Fixpoint find_slot (n : nat) (h : hist) (i running_count target_count : Z)
  : c_result Z :=
  match n with
  | O => Defined 0
  | S n' =>
      let running_count := u32 (running_count + slot_at h i) in
      if target_count <=? running_count
      then shl_int 1 i
      else find_slot n' h (i + 1) running_count target_count
  end.

(** [static double calculate_percentile(struct hist *hist, double percentile)]
    for an integral [percentile] (the callers pass [50.0] and [99.0]).  The
    result is the integer held by the returned [double].  For
    [0 <= percentile <= 100] the product [total * percentile] is below
    [2^39] and exact in binary64, and the rounded quotient by [100.0] has
    the integral part of the exact quotient, so [target_count] is the
    truncated exact quotient. *)
Definition calculate_percentile (h : hist) (percentile : Z) : c_result Z :=
  let total := sum_slots (Z.to_nat MAX_SLOTS) h 0 0 in
  if total =? 0 then Defined 0
  else
    target_count ← double_to_u32 (total * percentile) 100;
    find_slot (Z.to_nat MAX_SLOTS) h 0 0 target_count.

(** The value of [i] at which the second loop returns, [None] when it runs
    to the end (auxiliary: used to state what [find_slot] computes). *)
Fixpoint find_index (n : nat) (h : hist) (i running_count target_count : Z)
  : option Z :=
  match n with
  | O => None
  | S n' =>
      let running_count := u32 (running_count + slot_at h i) in
      if target_count <=? running_count
      then Some i
      else find_index n' h (i + 1) running_count target_count
  end.

(** A histogram given by the counts of its non-empty slots. *)
Definition hist_of_counts (l : list (nat * Z)) : hist :=
  {| slots := foldr (fun '(i, c) acc => <[i := c]> acc) (slots new_hist) l |}.

(** What [fopen("/proc/stat")] and [fscanf] deliver. *)
Inductive stat_read :=
| fopen_failed
| fscanf_failed       (* fewer than seven fields converted *)
| fscanf_ok (user nice system idle iowait irq softirq : Z).

(** [static double get_cpu_utilization()] *)
Definition get_cpu_utilization (r : stat_read) : double :=
  match r with
  | fopen_failed => Fin 0
  | fscanf_failed => Fin 0
  | fscanf_ok user nice system idle iowait irq softirq =>
      let total :=
        u64 (u64 (u64 (u64 (u64 (u64 (user + nice) + system) + idle) + iowait)
                  + irq) + softirq) in
      let busy := u64 (u64 (total - idle) - iowait) in
      if total =? 0 then (if busy =? 0 then NaN else Inf)
      else Fin (inject_Z busy / inject_Z total * 100)
  end.

(** The function-local statics of [update_metrics]. *)
Record statics := {
  prev_retrans : Z;
  prev_drops : Z;
  prev_time : Z
}.

Definition statics_init : statics :=
  {| prev_retrans := 0; prev_drops := 0; prev_time := 0 |}.

(** What one call of [update_metrics] reads from outside the tables. *)
Record tick_env := {
  time_first : Z;         (* time(NULL) inside the node-metrics branch *)
  proc_stat : stat_read;  (* /proc/stat as seen by get_cpu_utilization *)
  time_last : Z           (* time(NULL) stored in last_update *)
}.

(** [struct prometheus_metrics metrics = {0};] followed by
    [get_node_name]. *)
Definition metrics_init (name : string) : prometheus_metrics :=
  {| rtt_p50_ms := Fin 0; rtt_p99_ms := Fin 0; tcp_retrans_rate := Fin 0;
     drop_rate := Fin 0; runqlat_p95_ms := Fin 0; cpu_utilization := Fin 0;
     node_name := name; last_update := 0 |}.

(** The first block of [update_metrics], entered with the result of
    [bpf_map_lookup_elem(node_metrics_map, &node_id, &node_data)]: the two
    rates against the statics, the statics' refresh, and the mean run-queue
    latency.  The unsigned difference of the two counters is converted to
    [double] and divided by [difftime], the integral number of seconds. *)
Definition read_node_metrics (metrics : prometheus_metrics) (st : statics)
    (lookup : option node_metrics) (current_time : Z)
  : prometheus_metrics * statics :=
  match lookup with
  | Some node_data =>
      let metrics :=
        if 0 <? prev_time st then
          let time_diff := current_time - prev_time st in
          if 0 <? time_diff then
            {| rtt_p50_ms := rtt_p50_ms metrics;
               rtt_p99_ms := rtt_p99_ms metrics;
               tcp_retrans_rate :=
                 Fin (inject_Z (u64 (retrans_count node_data - prev_retrans st))
                      / inject_Z time_diff);
               drop_rate :=
                 Fin (inject_Z (u64 (drop_count node_data - prev_drops st))
                      / inject_Z time_diff);
               runqlat_p95_ms := runqlat_p95_ms metrics;
               cpu_utilization := cpu_utilization metrics;
               node_name := node_name metrics;
               last_update := last_update metrics |}
          else metrics
        else metrics in
      let st :=
        {| prev_retrans := retrans_count node_data;
           prev_drops := drop_count node_data;
           prev_time := current_time |} in
      let metrics :=
        if 0 <? runqlat_count node_data then
          {| rtt_p50_ms := rtt_p50_ms metrics;
             rtt_p99_ms := rtt_p99_ms metrics;
             tcp_retrans_rate := tcp_retrans_rate metrics;
             drop_rate := drop_rate metrics;
             runqlat_p95_ms :=
               Fin (inject_Z (runqlat_sum node_data)
                    / inject_Z (runqlat_count node_data));
             cpu_utilization := cpu_utilization metrics;
             node_name := node_name metrics;
             last_update := last_update metrics |}
        else metrics in
      (metrics, st)
  | None => (metrics, st)
  end.

(** The second block, entered with the result of
    [bpf_map_lookup_elem(rtt_hist_map, &node_id, &rtt_hist)]. *)
Definition read_rtt_hist (metrics : prometheus_metrics) (lookup : option hist)
  : c_result prometheus_metrics :=
  match lookup with
  | Some rtt_hist =>
      p50 ← calculate_percentile rtt_hist 50;
      p99 ← calculate_percentile rtt_hist 99;
      mret {| rtt_p50_ms := Fin (inject_Z p50);
              rtt_p99_ms := Fin (inject_Z p99);
              tcp_retrans_rate := tcp_retrans_rate metrics;
              drop_rate := drop_rate metrics;
              runqlat_p95_ms := runqlat_p95_ms metrics;
              cpu_utilization := cpu_utilization metrics;
              node_name := node_name metrics;
              last_update := last_update metrics |}
  | None => mret metrics
  end.

(** [static void update_metrics(struct prometheus_metrics *metrics, __u32 node_id)] *)
Definition update_metrics (metrics : prometheus_metrics) (st : statics)
    (maps : bpf_maps) (node_id : Z) (env : tick_env)
  : c_result (prometheus_metrics * statics) :=
  let '(metrics, st) :=
    read_node_metrics metrics st (node_metrics_map maps !! node_id)
      (time_first env) in
  metrics ← read_rtt_hist metrics (rtt_hist_map maps !! node_id);
  mret ({| rtt_p50_ms := rtt_p50_ms metrics;
           rtt_p99_ms := rtt_p99_ms metrics;
           tcp_retrans_rate := tcp_retrans_rate metrics;
           drop_rate := drop_rate metrics;
           runqlat_p95_ms := runqlat_p95_ms metrics;
           cpu_utilization := get_cpu_utilization (proc_stat env);
           node_name := node_name metrics;
           last_update := time_last env |}, st).

(** One value line of the exposition text:
    [name{node="<node>"} <value>]. *)
Record gauge := {
  gauge_name : string;
  gauge_node : string;
  gauge_value : double
}.

(** [static void export_prometheus_metrics(struct prometheus_metrics *metrics)]:
    the six value lines in the order they are printed (the constant HELP
    and TYPE lines and the two-decimal rendering are not represented). *)
Definition export_prometheus_metrics (metrics : prometheus_metrics) : list gauge :=
  let line name v :=
    {| gauge_name := name; gauge_node := node_name metrics; gauge_value := v |} in
  [ line "ebpf_rtt_p50_milliseconds"%string (rtt_p50_ms metrics);
    line "ebpf_rtt_p99_milliseconds"%string (rtt_p99_ms metrics);
    line "ebpf_tcp_retrans_rate"%string (tcp_retrans_rate metrics);
    line "ebpf_drop_rate"%string (drop_rate metrics);
    line "ebpf_runqlat_p95_milliseconds"%string (runqlat_p95_ms metrics);
    line "ebpf_cpu_utilization"%string (cpu_utilization metrics) ].

(** *** The collection loop of [main] *)

Definition EINTR : Z := 4.

(** Signal delivery.  [signal] is the instant, in milliseconds, at which
    SIGINT or SIGTERM is delivered ([None]: never); [sig_handler] sets
    [exiting] at that instant, so the flag reads [true] from then on. *)
Definition exiting (signal : option Z) (clock : Z) : bool :=
  match signal with
  | Some t => t <=? clock
  | None => false
  end.

(** A blocking call ([ring_buffer__poll], [sleep]) entered at [clock] that
    would return by itself [d] ms later.  A signal delivered while the call
    is blocked makes it return at that instant; a signal delivered at or
    before [clock] has already been handled and does not shorten the call.
    The result is the instant of return and whether the call was
    interrupted. *)
Definition blocking (signal : option Z) (clock d : Z) : Z * bool :=
  match signal with
  | Some t =>
      if (clock <? t) && (t <? clock + d) then (t, true) else (clock + d, false)
  | None => (clock + d, false)
  end.

(** The locals of [main] that the loop uses, the statics of
    [update_metrics], the records handed to the exporter so far (one list of
    value lines per call of [export_prometheus_metrics]) and the clock. *)
Record main_state := {
  clock : Z;
  main_metrics : prometheus_metrics;
  main_statics : statics;
  last_metrics_update : Z;
  exported : list (list gauge);
  err : Z
}.

(** [main] before the loop: [metrics = {0}] with the node name, the statics
    at 0. *)
Definition main_init (name : string) : main_state :=
  {| clock := 0; main_metrics := metrics_init name;
     main_statics := statics_init; last_metrics_update := 0;
     exported := []; err := 0 |}.

(** What one iteration meets outside the program. *)
Record iteration := {
  poll_entry : Z;     (* ms from the loop test until ring_buffer__poll blocks *)
  poll_wait : Z;      (* ms until ring_buffer__poll returns by itself, <= 100 *)
  poll_result : Z;    (* what it returns then: records consumed or -errno *)
  work : Z;           (* ms spent between the poll's return and sleep's call *)
  now : Z;            (* time(NULL) *)
  tables : bpf_maps;  (* the maps as the tick finds them *)
  tick : tick_env
}.

Inductive outcome :=
| Running (s : main_state)   (* back at the loop test *)
| Exited (s : main_state).   (* left the loop *)

Definition state_of (o : outcome) : main_state :=
  match o with
  | Running s => s
  | Exited s => s
  end.

(** One evaluation of [while (!exiting) { ... }]: the test and, when it
    passes, the body.  Time passes between the test and the moment the poll
    blocks ([poll_entry] ms: a signal handled there is seen by neither),
    in the two blocking calls and, for [work] ms, in the code between them
    (the tick, when one is due). *)
Definition loop_body (signal : option Z) (it : iteration) (s : main_state)
  : c_result outcome :=
  if exiting signal (clock s) then mret (Exited s)
  else
    let '(clock1, interrupted) :=
      blocking signal (clock s + poll_entry it) (poll_wait it) in
    let err1 := if interrupted then - EINTR else poll_result it in
    if err1 =? - EINTR then
      mret (Exited {| clock := clock1; main_metrics := main_metrics s;
                      main_statics := main_statics s;
                      last_metrics_update := last_metrics_update s;
                      exported := exported s; err := 0 |})
    else if err1 <? 0 then
      mret (Exited {| clock := clock1; main_metrics := main_metrics s;
                      main_statics := main_statics s;
                      last_metrics_update := last_metrics_update s;
                      exported := exported s; err := err1 |})
    else
      '(metrics, st, last, out) ←
        (if 5 <=? now it - last_metrics_update s then
           '(metrics, st) ←
             update_metrics (main_metrics s) (main_statics s) (tables it) 0
               (tick it);
           mret (metrics, st, now it,
                 exported s ++ [export_prometheus_metrics metrics])
         else
           mret (main_metrics s, main_statics s, last_metrics_update s,
                 exported s));
      let '(clock2, _) := blocking signal (clock1 + work it) 1000 in
      mret (Running {| clock := clock2; main_metrics := metrics;
                       main_statics := st; last_metrics_update := last;
                       exported := out; err := err1 |}).

(** The loop over the iterations the environment provides; [Running] at the
    end of the list means the loop is still going. *)
Fixpoint main_loop (signal : option Z) (its : list iteration) (s : main_state)
  : c_result outcome :=
  match its with
  | [] => mret (Running s)
  | it :: its' =>
      o ← loop_body signal it s;
      match o with
      | Running s' => main_loop signal its' s'
      | Exited s' => mret (Exited s')
      end
  end.

End agent.

Import agent.

(** ** Counter order *)

(** Field-wise order on the six counters of a node record. *)
Definition counters_le (a b : node_metrics) : Prop :=
  rtt_sum a <= rtt_sum b /\ rtt_count a <= rtt_count b /\
  retrans_count a <= retrans_count b /\ drop_count a <= drop_count b /\
  runqlat_sum a <= runqlat_sum b /\ runqlat_count a <= runqlat_count b.

(** No counter of the record is within one update of the 64-bit limit. *)
Definition counters_below_limit (a : node_metrics) : Prop :=
  0 <= rtt_sum a < 2 ^ 64 - 2 ^ 32 /\ 0 <= rtt_count a < 2 ^ 64 - 1 /\
  0 <= retrans_count a < 2 ^ 64 - 1 /\ 0 <= drop_count a < 2 ^ 64 - 1.

(** The three network callbacks, as opposed to the two scheduler ones. *)
Definition network_callback (c : callback) : bool :=
  match c with
  | tcp_ack _ _ | tcp_retransmit_skb _ | kfree_skb _ _ => true
  | sched_wakeup _ _ _ | sched_switch _ _ => false
  end.

(** ** Scenarios *)

(** An iteration at [now] seconds whose poll blocks 1 ms after the loop
    test and times out, whose body takes 2 ms, and whose tick finds the
    tables [maps] and reads [/proc/stat] as [stat]. *)
Definition iteration_at (now : Z) (maps : bpf_maps) (stat : stat_read)
  : iteration :=
  {| poll_entry := 1; poll_wait := 100; poll_result := 0; work := 2; now := now;
     tables := maps;
     tick := {| time_first := now; proc_stat := stat; time_last := now |} |}.

(** Tables in which node 0 has three RTT samples in bucket 2 and no counter
    entry. *)
Definition tables_with_histogram : bpf_maps :=
  set_rtt_hist_map empty_maps {[ 0 := hist_of_counts [(2%nat, 3)] ]}.

(** An iteration at [now] seconds whose poll fails after 3 ms with
    [-errno]. *)
Definition iteration_failing (errno now : Z) : iteration :=
  {| poll_entry := 1; poll_wait := 3; poll_result := - errno; work := 0;
     now := now; tables := empty_maps;
     tick := {| time_first := now; proc_stat := fopen_failed;
                time_last := now |} |}.

(** The state of [main] after the loop has met [its] with no signal. *)
Definition state_after (its : list iteration) : main_state :=
  match main_loop None its (main_init "edge") with
  | Defined o => state_of o
  | UB => main_init "edge"
  end.

(** The tables a trace of callbacks leaves, starting from empty tables. *)
Definition tables_after (cs : list callback) : bpf_maps :=
  default empty_maps (run cs empty_maps).

(** Three moments of node 0 (processor 0): after one ACK with an RTT of
    10 ms and one retransmission; after five more retransmissions; and
    after three ACKs with an RTT of 1000 ms followed by a switch to pid 0,
    which removes the node's counter record and leaves its histogram. *)
Definition trace_first : list callback :=
  [tcp_ack (Some (Some 80000)) (helpers_on 0 1);
   tcp_retransmit_skb (helpers_on 0 2)].

Definition trace_second : list callback :=
  trace_first ++ replicate 5 (tcp_retransmit_skb (helpers_on 0 3)).

Definition trace_third : list callback :=
  trace_second ++ replicate 3 (tcp_ack (Some (Some 8000000)) (helpers_on 0 4))
  ++ [sched_switch 0 (helpers_on 0 5)].

(** ** Well-formed inputs and table shapes *)

(** [srtt_us] is read into a [__u32]. *)
Definition callback_wf (c : callback) : Prop :=
  match c with
  | tcp_ack (Some (Some srtt_us)) _ => 0 <= srtt_us < 2 ^ 32
  | _ => True
  end.

(** A [struct hist]: [MAX_SLOTS] slots, with every slot from [bound] on
    empty. *)
Definition hist_shape (bound : Z) (hs : hist) : Prop :=
  length (slots hs) = Z.to_nat MAX_SLOTS /\
  forall i, bound <= i < MAX_SLOTS -> slot_at hs i = 0.

(** A node record after one more RTT sample, retransmission, drop or
    run-queue latency sample, stamped [now]. *)
Definition with_rtt (m : node_metrics) (rtt_ms now : Z) : node_metrics :=
  {| rtt_sum := u64 (rtt_sum m + rtt_ms); rtt_count := u64 (rtt_count m + 1);
     retrans_count := retrans_count m; drop_count := drop_count m;
     runqlat_sum := runqlat_sum m; runqlat_count := runqlat_count m;
     cpu_util := cpu_util m; timestamp := now |}.
Definition with_retrans (m : node_metrics) (now : Z) : node_metrics :=
  {| rtt_sum := rtt_sum m; rtt_count := rtt_count m;
     retrans_count := u64 (retrans_count m + 1); drop_count := drop_count m;
     runqlat_sum := runqlat_sum m; runqlat_count := runqlat_count m;
     cpu_util := cpu_util m; timestamp := now |}.
Definition with_drop (m : node_metrics) (now : Z) : node_metrics :=
  {| rtt_sum := rtt_sum m; rtt_count := rtt_count m;
     retrans_count := retrans_count m; drop_count := u64 (drop_count m + 1);
     runqlat_sum := runqlat_sum m; runqlat_count := runqlat_count m;
     cpu_util := cpu_util m; timestamp := now |}.
Definition with_runqlat (m : node_metrics) (latency_ms now : Z) : node_metrics :=
  {| rtt_sum := rtt_sum m; rtt_count := rtt_count m;
     retrans_count := retrans_count m; drop_count := drop_count m;
     runqlat_sum := u64 (runqlat_sum m + latency_ms);
     runqlat_count := u64 (runqlat_count m + 1);
     cpu_util := cpu_util m; timestamp := now |}.

(** The histogram table as the callbacks leave it. *)
Definition hist_table_ok (s : bpf_maps) : Prop :=
  forall k hs, rtt_hist_map s !! k = Some hs -> 0 <= k < 8 /\ hist_shape 20 hs.

(** The tables within their [max_entries]. *)
Definition tables_bounded (s : bpf_maps) : Prop :=
  Z.of_nat (size (node_metrics_map s)) <= MAX_NODES /\
  Z.of_nat (size (rtt_hist_map s)) <= MAX_NODES /\
  Z.of_nat (size (drop_reason_map s)) <= 64.

(** A record as the callbacks publish them: type RTT, retransmission or
    drop, from one of the eight node ids. *)
Definition event_ok (e : telemetry_event) : Prop :=
  (ev_event_type e = 1 \/ ev_event_type e = 2 \/ ev_event_type e = 3) /\
  0 <= ev_node_id e < 8.

(** The line [handle_event] prints for a record, by its format. *)
Inductive debug_line :=
| debug_rtt (node value : Z)
| debug_retrans (node : Z)
| debug_drop (node reason : Z)
| debug_runqlat (node value : Z).

(** [static int handle_event(void *ctx, void *data, size_t data_sz)]: the
    line printed, if any, and the return value. *)
Definition handle_event (e : telemetry_event) : option debug_line * Z :=
  (match ev_event_type e with
   | 1 => Some (debug_rtt (ev_node_id e) (ev_value e))
   | 2 => Some (debug_retrans (ev_node_id e))
   | 3 => Some (debug_drop (ev_node_id e) (ev_extra_data e))
   | 4 => Some (debug_runqlat (ev_node_id e) (ev_value e))
   | _ => None
   end, 0).

(** What a trace holds for node [k]: the RTT samples (in ms) of its
    readable ACKs, and whether a callback is one of its retransmissions or
    drops. *)
Definition rtt_sample (k : Z) (c : callback) : list Z :=
  match c with
  | tcp_ack (Some (Some srtt_us)) h =>
      if get_node_id h =? k then [u32 (Z.shiftr srtt_us 3) / 1000] else []
  | _ => []
  end.

Definition rtt_samples (k : Z) (cs : list callback) : list Z :=
  flat_map (rtt_sample k) cs.

Definition is_retrans (k : Z) (c : callback) : bool :=
  match c with
  | tcp_retransmit_skb h => get_node_id h =? k
  | _ => false
  end.

Definition is_drop (k : Z) (c : callback) : bool :=
  match c with
  | kfree_skb _ h => get_node_id h =? k
  | _ => false
  end.

(** The number of elements of [l] that satisfy [p], and the sum of a
    list. *)
Fixpoint count_if {A} (p : A -> bool) (l : list A) : Z :=
  match l with
  | [] => 0
  | x :: l' => (if p x then 1 else 0) + count_if p l'
  end.

Definition total (l : list Z) : Z := fold_right Z.add 0 l.

(** The bucket of a sample: [floor (log2 v)], and 0 for 0. *)
Definition bucket (v : Z) : Z := if v =? 0 then 0 else Z.log2 v.

(** The record and the histogram of node [k] agree, modulo the width of
    each field, with the callbacks [pre] handled so far. *)
Definition node_tally (k : Z) (pre : list callback) (m : node_metrics) (hs : hist)
  : Prop :=
  rtt_count m = u64 (Z.of_nat (length (rtt_samples k pre))) /\
  rtt_sum m = u64 (total (rtt_samples k pre)) /\
  retrans_count m = u64 (count_if (is_retrans k) pre) /\
  drop_count m = u64 (count_if (is_drop k) pre) /\
  forall i, 0 <= i < MAX_SLOTS ->
    slot_at hs i = u32 (count_if (fun v => bucket v =? i) (rtt_samples k pre)).

Definition tally_ok (pre : list callback) (s : bpf_maps) : Prop :=
  (forall k, is_Some (node_metrics_map s !! k) -> 0 <= k < 8) /\
  (forall k, is_Some (rtt_hist_map s !! k) -> 0 <= k < 8) /\
  (forall k hs, rtt_hist_map s !! k = Some hs ->
                length (slots hs) = Z.to_nat MAX_SLOTS) /\
  forall k, node_tally k pre (default new_metrics (node_metrics_map s !! k))
              (default new_hist (rtt_hist_map s !! k)).

(** A record of six value lines, in the order of the exposition text, all
    labelled with the node [name]. *)
Definition record_of_node (name : string) (r : list gauge) : Prop :=
  map gauge_name r
  = [ "ebpf_rtt_p50_milliseconds"%string; "ebpf_rtt_p99_milliseconds"%string;
      "ebpf_tcp_retrans_rate"%string; "ebpf_drop_rate"%string;
      "ebpf_runqlat_p95_milliseconds"%string; "ebpf_cpu_utilization"%string ] /\
  Forall (fun g => gauge_node g = name) r.

(** [return err < 0 ? -err : 0;] at the end of [main]. *)
Definition exit_status (s : main_state) : Z :=
  if err s <? 0 then - err s else 0.

(** The library calls that create and release the skeleton and the ring
    buffer, in program order. *)
Inductive action :=
| skel_open
| skel_load
| skel_attach
| skel_destroy
| rb_new
| rb_free.

#[global] Instance action_eq_dec : EqDecision action.
Proof. solve_decision. Defined.

(** [static int setup_ebpf()]: [opened] tells whether
    [telemetry_bpf__open] returned a skeleton, [load_err] and [attach_err]
    are what [telemetry_bpf__load] and [telemetry_bpf__attach] return.
    The result is the return value and the calls made. *)
Definition setup_ebpf (opened : bool) (load_err attach_err : Z)
  : Z * list action :=
  if negb opened then (1, [skel_open])
  else if negb (load_err =? 0) then (1, [skel_open; skel_load; skel_destroy])
  else if negb (attach_err =? 0)
       then (1, [skel_open; skel_load; skel_attach; skel_destroy])
       else (0, [skel_open; skel_load; skel_attach]).

(** What the start of [main] meets. *)
Record startup := {
  setrlimit_ret : Z;   (* setrlimit(RLIMIT_MEMLOCK, ...) *)
  opened : bool;
  load_err : Z;
  attach_err : Z;
  rb_created : bool    (* ring_buffer__new returned a buffer *)
}.

(** [main] around the loop: start-up, and the [cleanup] label reached from
    the failed [ring_buffer__new] (with [err = -1]) or from the loop, whose
    last state is [final].  The result is the exit status and the calls
    made on the skeleton and the ring buffer. *)
Definition main (st : startup) (final : main_state) : Z * list action :=
  if negb (setrlimit_ret st =? 0) then (1, [])
  else
    let '(ret, calls) := setup_ebpf (opened st) (load_err st) (attach_err st) in
    if negb (ret =? 0) then (1, calls)
    else if negb (rb_created st)
         then ((if -1 <? 0 then - -1 else 0), calls ++ [rb_new; skel_destroy])
         else (exit_status final, calls ++ [rb_new; rb_free; skel_destroy]).

(** ** Wrap-around *)

Section machine_integers.

Lemma u32_range (z : Z) : 0 <= u32 z < 2 ^ 32.
Proof. unfold u32. apply Z.mod_pos_bound. lia. Qed.

Lemma u64_small (z : Z) : 0 <= z < 2 ^ 64 -> u64 z = z.
Proof. intros H. unfold u64. apply Z.mod_small. exact H. Qed.

Lemma u64_borrow (z : Z) : - 2 ^ 64 <= z < 0 -> u64 z = z + 2 ^ 64.
Proof.
  intros H. unfold u64.
  symmetry. apply (Z.mod_unique_pos _ _ (-1)); lia.
Qed.

End machine_integers.

(** ** The create-on-miss sequence *)

Section create_on_miss.

Lemma lookup_or_create_spec {V} (max_entries : Z) (zero : V) (m : gmap Z V) (k : Z) :
  lookup_or_create max_entries zero m k =
  match m !! k with
  | Some v => Some (v, m)
  | None => if Z.of_nat (size m) <? max_entries
            then Some (zero, <[k := zero]> m) else None
  end.
Proof.
  unfold lookup_or_create, bpf_map_update_elem.
  destruct (m !! k) eqn:Hk; [reflexivity|].
  destruct (Z.of_nat (size m) <? max_entries).
  - by rewrite lookup_insert_eq.
  - by rewrite Hk.
Qed.

Lemma lookup_or_create_empty {V} (max_entries : Z) (zero : V) (k : Z) :
  0 < max_entries ->
  lookup_or_create max_entries zero (∅ : gmap Z V) k = Some (zero, {[k := zero]}).
Proof.
  intros H. rewrite lookup_or_create_spec, lookup_empty, map_size_empty.
  destruct (Z.ltb_spec (Z.of_nat 0) max_entries); [|lia].
  by rewrite insert_empty.
Qed.

End create_on_miss.

(** ** Bucket assignment *)

Section value_to_slot_facts.

Lemma value_to_slot_loop_log2 (fuel : nat) :
  forall value slot,
    0 < value -> 0 <= slot <= 63 -> 63 - slot <= Z.of_nat fuel ->
    value_to_slot_loop fuel value slot = Some (Z.min 63 (slot + Z.log2 value)).
Proof.
  assert (Hstop : forall value slot, 0 < value -> 0 <= slot <= 63 ->
            (1 <? value) && (slot <? MAX_SLOTS - 1) = false ->
            slot = Z.min 63 (slot + Z.log2 value)).
  { intros value slot Hv Hs Hc. unfold MAX_SLOTS in Hc.
    pose proof (Z.log2_nonneg value).
    apply andb_false_iff in Hc as [Hc|Hc].
    - apply Z.ltb_ge in Hc. assert (value = 1) by lia. subst value.
      change (Z.log2 1) with 0. lia.
    - apply Z.ltb_ge in Hc. lia. }
  induction fuel as [|fuel IH]; intros value slot Hv Hs Hf; simpl;
    destruct ((1 <? value) && (slot <? MAX_SLOTS - 1)) eqn:Hc;
    try (f_equal; apply Hstop; assumption).
  - unfold MAX_SLOTS in Hc. apply andb_true_iff in Hc as [_ Hc].
    apply Z.ltb_lt in Hc. lia.
  - unfold MAX_SLOTS in Hc. apply andb_true_iff in Hc as [Hc1 Hc2].
    apply Z.ltb_lt in Hc1. apply Z.ltb_lt in Hc2.
    assert (1 <= Z.log2 value) by (apply Z.log2_le_pow2; simpl; lia).
    rewrite IH; try lia.
    + rewrite Z.log2_shiftr by lia. f_equal. lia.
    + rewrite Z.shiftr_div_pow2 by lia. change (2 ^ 1) with 2.
      apply Z.div_str_pos. lia.
Qed.

Lemma value_to_slot_log2 (value : Z) :
  0 < value -> value_to_slot value = Some (Z.min 63 (Z.log2 value)).
Proof.
  intros Hv. unfold value_to_slot.
  destruct (Z.eqb_spec value 0) as [->|_]; [lia|].
  rewrite value_to_slot_loop_log2; unfold MAX_SLOTS; try lia.
  reflexivity.
Qed.

Lemma log2_u64 (value : Z) : 0 < value < 2 ^ 64 -> 0 <= Z.log2 value <= 63.
Proof.
  intros Hv. split; [apply Z.log2_nonneg|].
  assert (Z.log2 value < 64) by (apply Z.log2_lt_pow2; lia). lia.
Qed.

Lemma log2_pow2_succ (k : Z) : 1 <= k -> Z.log2 (2 ^ k + 1) = k.
Proof.
  intros Hk. apply Z.log2_unique; [lia|].
  assert (2 <= 2 ^ k).
  { change 2 with (2 ^ 1) at 1. apply Z.pow_le_mono_r; lia. }
  rewrite Z.pow_succ_r by lia. lia.
Qed.

(** The kernel side only ever fills the lower buckets: [rtt_ms] is a 32-bit
    value divided by 8000, hence below [2^20]. *)
Lemma trace_tcp_ack_slot_bound (srtt_us : Z) :
  0 <= srtt_us < 2 ^ 32 ->
  exists slot,
    value_to_slot (u32 (Z.shiftr srtt_us 3) / 1000) = Some slot /\
    0 <= slot <= 19.
Proof.
  intros Hs.
  assert (Hsh : 0 <= Z.shiftr srtt_us 3 < 2 ^ 29).
  { rewrite Z.shiftr_div_pow2 by lia. split; [apply Z.div_pos; lia|].
    apply Z.div_lt_upper_bound; lia. }
  unfold u32. rewrite Z.mod_small by lia.
  set (rtt_ms := Z.shiftr srtt_us 3 / 1000).
  assert (Hms : 0 <= rtt_ms < 2 ^ 20).
  { unfold rtt_ms. split; [apply Z.div_pos; lia|].
    apply Z.div_lt_upper_bound; lia. }
  destruct (Z.eq_dec rtt_ms 0) as [->|Hne].
  - exists 0. split; [reflexivity | lia].
  - assert (Z.log2 rtt_ms < 20) by (apply Z.log2_lt_pow2; lia).
    pose proof (Z.log2_nonneg rtt_ms).
    exists (Z.log2 rtt_ms). split; [|lia].
    rewrite value_to_slot_log2 by lia. f_equal. lia.
Qed.

(** C10: a sample of value 0 is well defined and lands in bucket 0: the
    bucket-index function returns 0 without entering the halving loop, and
    [trace_tcp_ack] with a smoothed RTT below one millisecond counts it in
    slot 0 of the node's histogram. *)
Theorem value_to_slot_zero :
  value_to_slot 0 = Some 0 /\
  forall h,
    (s ← trace_tcp_ack (Some (Some 0)) h empty_maps;
     hs ← rtt_hist_map s !! get_node_id h;
     Some (slots hs))
    = Some (1 :: replicate 63 0).
Proof.
  split; [reflexivity|].
  intros h. unfold trace_tcp_ack.
  cbn [empty_maps rtt_hist_map node_metrics_map].
  rewrite (lookup_or_create_empty MAX_NODES new_hist (get_node_id h))
    by reflexivity.
  change (u32 (Z.shiftr 0 3) / 1000) with 0.
  change (value_to_slot 0) with (Some 0). cbn [mbind option_bind].
  change ((0 <=? 0) && (0 <? MAX_SLOTS)) with true. cbv iota.
  cbn [set_rtt_hist_map node_metrics_map rtt_hist_map empty_maps].
  rewrite (lookup_or_create_empty MAX_NODES new_metrics (get_node_id h))
    by reflexivity.
  destruct (prandom_u32 h mod 100 =? 0); unfold publish;
    try destruct (ringbuf_room h);
    cbn [mbind option_bind set_node_metrics_map set_events set_rtt_hist_map
         rtt_hist_map];
    rewrite lookup_insert_eq; reflexivity.
Qed.

(** C2, as stated, fails: 2^2 + 1 = 5 is halved twice, so it is assigned to
    bucket 2 and not to bucket 3. *)
Lemma value_to_slot_pow2_succ_counterexample :
  value_to_slot (2 ^ 2 + 1) = Some 2 /\
  value_to_slot (2 ^ 2 + 1) <> Some (2 + 1).
Proof. split; [reflexivity | discriminate]. Qed.

(** C2, amended: for every 64-bit sample [value >= 1] the bucket index is
    [floor (log2 value)], i.e. the bucket [i] with
    [2^i <= value < 2^(i+1)]; values of [2^63] and more land in the last
    bucket, 63.  For every [k <= 63] the value [2^k] is assigned to bucket
    [k], and for [1 <= k <= 63] the value [2^k + 1] is assigned to bucket
    [k] as well (for [k = 0] it is 2, in bucket 1). *)
Theorem value_to_slot_floor_log2 (value k : Z) :
  0 < value < 2 ^ 64 -> 1 <= k <= 63 ->
  (exists i, value_to_slot value = Some i /\ i = Z.log2 value /\
             0 <= i <= 63 /\ 2 ^ i <= value < 2 ^ (i + 1)) /\
  (2 ^ 63 <= value -> value_to_slot value = Some 63) /\
  value_to_slot (2 ^ 0) = Some 0 /\
  value_to_slot (2 ^ k) = Some k /\
  value_to_slot (2 ^ 0 + 1) = Some 1 /\
  value_to_slot (2 ^ k + 1) = Some k.
Proof.
  intros Hv Hk.
  pose proof (log2_u64 value Hv) as Hl.
  assert (Hval : value_to_slot value = Some (Z.log2 value)).
  { rewrite value_to_slot_log2 by lia. f_equal. lia. }
  split; [|split; [|split; [|split; [|split]]]].
  - exists (Z.log2 value).
    split; [exact Hval|]. split; [reflexivity|]. split; [lia|].
    replace (Z.log2 value + 1) with (Z.succ (Z.log2 value)) by lia.
    apply Z.log2_spec; lia.
  - intros Hbig. rewrite Hval. f_equal.
    assert (63 <= Z.log2 value) by (apply Z.log2_le_pow2; lia). lia.
  - reflexivity.
  - rewrite value_to_slot_log2 by lia. rewrite Z.log2_pow2 by lia.
    f_equal. lia.
  - reflexivity.
  - rewrite value_to_slot_log2 by lia. rewrite log2_pow2_succ by lia.
    f_equal. lia.
Qed.

Lemma value_to_slot_floor_log2_witness :
  value_to_slot (2 ^ 2 + 1) = Some 2.
Proof.
  refine (proj2 (proj2 (proj2 (proj2 (proj2
            (value_to_slot_floor_log2 5 2 _ _)))))); lia.
Defined.

End value_to_slot_facts.

(** ** Percentile estimation *)

Section percentile_facts.

Lemma sum_slots_range (n : nat) (h : hist) :
  forall i total, 0 <= total < 2 ^ 32 -> 0 <= sum_slots n h i total < 2 ^ 32.
Proof.
  induction n as [|n IH]; intros i total Ht; simpl; [exact Ht|].
  apply IH, u32_range.
Qed.

Lemma find_slot_index (n : nat) (h : hist) :
  forall i r t,
    find_slot n h i r t =
    match find_index n h i r t with
    | Some j => shl_int 1 j
    | None => Defined 0
    end.
Proof.
  induction n as [|n IH]; intros i r t; simpl; [reflexivity|].
  destruct (t <=? u32 (r + slot_at h i)); [reflexivity | apply IH].
Qed.

Lemma find_index_range (n : nat) (h : hist) :
  forall i r t j, find_index n h i r t = Some j -> i <= j < i + Z.of_nat n.
Proof.
  induction n as [|n IH]; intros i r t j; simpl; [discriminate|].
  destruct (t <=? u32 (r + slot_at h i)).
  - intros [= <-]. lia.
  - intros Hj. apply IH in Hj. lia.
Qed.

(** The loop cannot run to the end when the last running count reaches the
    target. *)
Lemma find_index_reaches (n : nat) (h : hist) :
  forall i r t,
    (0 < n)%nat -> t <= sum_slots n h i r ->
    exists j, find_index n h i r t = Some j.
Proof.
  induction n as [|n IH]; intros i r t Hn Ht; [lia|]. simpl in *.
  destruct (Z.leb_spec t (u32 (r + slot_at h i))) as [Hle|Hgt]; [eauto|].
  destruct n as [|n]; [simpl in Ht; lia|].
  apply IH; [lia | exact Ht].
Qed.

(** A larger target is reached no earlier. *)
Lemma find_index_mono (n : nat) (h : hist) :
  forall i r t1 t2 j2,
    t1 <= t2 -> find_index n h i r t2 = Some j2 ->
    exists j1, find_index n h i r t1 = Some j1 /\ j1 <= j2.
Proof.
  induction n as [|n IH]; intros i r t1 t2 j2 Ht; simpl; [discriminate|].
  destruct (Z.leb_spec t2 (u32 (r + slot_at h i))) as [H2|H2].
  - intros [= <-].
    destruct (Z.leb_spec t1 (u32 (r + slot_at h i))); [|lia].
    exists i. split; [reflexivity | lia].
  - intros Hj.
    destruct (Z.leb_spec t1 (u32 (r + slot_at h i))) as [H1|H1].
    + exists i. split; [reflexivity|]. apply find_index_range in Hj. lia.
    + eapply IH; eassumption.
Qed.

(** The exit index is the first one whose running count reaches the
    target. *)
Lemma find_index_first (n : nat) (h : hist) :
  forall i r t j,
    find_index n h i r t = Some j ->
    t <= sum_slots (S (Z.to_nat (j - i))) h i r /\
    forall j', i <= j' < j -> sum_slots (S (Z.to_nat (j' - i))) h i r < t.
Proof.
  induction n as [|n IH]; intros i r t j; [discriminate|].
  cbn [find_index].
  destruct (Z.leb_spec t (u32 (r + slot_at h i))) as [Hle|Hgt].
  - intros [= <-]. rewrite Z.sub_diag. simpl. split; [exact Hle | lia].
  - intros Hj. pose proof (find_index_range _ _ _ _ _ _ Hj) as Hr.
    destruct (IH _ _ _ _ Hj) as [Hreach Hbefore].
    replace (Z.to_nat (j - i)) with (S (Z.to_nat (j - (i + 1)))) by lia.
    split; [exact Hreach|].
    intros j' Hj'.
    destruct (Z.eq_dec j' i) as [->|Hne].
    + rewrite Z.sub_diag. simpl. exact Hgt.
    + replace (Z.to_nat (j' - i)) with (S (Z.to_nat (j' - (i + 1)))) by lia.
      apply Hbefore. lia.
Qed.

Lemma target_count_defined (total percentile : Z) :
  0 <= total < 2 ^ 32 -> 0 <= percentile <= 100 ->
  double_to_u32 (total * percentile) 100
  = Defined (Z.quot (total * percentile) 100) /\
  0 <= Z.quot (total * percentile) 100 <= total.
Proof.
  intros Ht Hp.
  assert (H0 : 0 <= Z.quot (total * percentile) 100)
    by (apply Z.quot_pos; nia).
  assert (H1 : Z.quot (total * percentile) 100 <= total).
  { rewrite <- (Z.quot_mul total 100) at 2 by lia.
    apply Z.quot_le_mono; nia. }
  split; [|lia]. unfold double_to_u32.
  destruct (Z.leb_spec 0 (Z.quot (total * percentile) 100)); [|lia].
  destruct (Z.ltb_spec (Z.quot (total * percentile) 100) (2 ^ 32)); [|lia].
  reflexivity.
Qed.

Lemma shl_int_1 (j : Z) :
  0 <= j ->
  shl_int 1 j = if j <? 31 then Defined (2 ^ j) else UB.
Proof.
  intros Hj. unfold shl_int, INT_MAX.
  destruct (Z.leb_spec 0 j); [|lia]. rewrite Z.mul_1_l.
  destruct (Z.ltb_spec j 31) as [Hlt|Hge].
  - destruct (Z.ltb_spec j 32); [|lia]. simpl.
    assert (2 ^ j < 2 ^ 31) by (apply Z.pow_lt_mono_r; lia).
    destruct (Z.leb_spec (2 ^ j) (2 ^ 31 - 1)); [reflexivity | lia].
  - destruct (Z.ltb_spec j 32); [|reflexivity]. simpl.
    assert (2 ^ 31 <= 2 ^ j) by (apply Z.pow_le_mono_r; lia).
    destruct (Z.leb_spec (2 ^ j) (2 ^ 31 - 1)); [lia | reflexivity].
Qed.

(** What [calculate_percentile] computes for a rank between 0 and 100: 0 for
    an empty histogram; otherwise the first bucket [j] whose running count
    reaches [total * percentile / 100] decides, and the result is [2^j] as
    long as [j <= 30].  From bucket 31 on, [1 << j] overflows [int]. *)
Lemma calculate_percentile_spec (h : hist) (percentile : Z) :
  0 <= percentile <= 100 ->
  let total := sum_slots 64 h 0 0 in
  let target := Z.quot (total * percentile) 100 in
  (total = 0 -> calculate_percentile h percentile = Defined 0) /\
  (total <> 0 ->
   exists j, 0 <= j <= 63 /\
     target <= sum_slots (S (Z.to_nat j)) h 0 0 /\
     (forall j', 0 <= j' < j -> sum_slots (S (Z.to_nat j')) h 0 0 < target) /\
     calculate_percentile h percentile
     = if j <? 31 then Defined (2 ^ j) else UB).
Proof.
  intros Hp total target. unfold calculate_percentile.
  change (Z.to_nat MAX_SLOTS) with 64%nat. fold total.
  assert (Hrange : 0 <= total < 2 ^ 32) by (apply sum_slots_range; lia).
  split.
  - intros ->. reflexivity.
  - intros Hne. destruct (Z.eqb_spec total 0) as [|_]; [contradiction|].
    destruct (target_count_defined total percentile Hrange Hp) as [-> Ht].
    fold target in Ht |- *. cbn [mbind c_result_bind].
    destruct (find_index_reaches 64 h 0 0 target) as [j Hj];
      [lia | fold total; lia |].
    pose proof (find_index_range _ _ _ _ _ _ Hj) as Hr.
    destruct (find_index_first _ _ _ _ _ _ Hj) as [Hreach Hbefore].
    rewrite Z.sub_0_r in Hreach.
    exists j. split; [lia|]. split; [exact Hreach|]. split.
    + intros j' Hj'. specialize (Hbefore j' Hj').
      rewrite Z.sub_0_r in Hbefore. exact Hbefore.
    + rewrite find_slot_index, Hj. apply shl_int_1. lia.
Qed.

(** Where the estimate at the higher rank is defined, the estimate at the
    lower rank is defined too and is not larger. *)
Lemma calculate_percentile_mono_defined (h : hist) (p1 p2 v2 : Z) :
  0 <= p1 <= p2 -> p2 <= 100 ->
  calculate_percentile h p2 = Defined v2 ->
  exists v1, calculate_percentile h p1 = Defined v1 /\ v1 <= v2.
Proof.
  intros Hp1 Hp2. unfold calculate_percentile.
  change (Z.to_nat MAX_SLOTS) with 64%nat.
  set (total := sum_slots 64 h 0 0).
  assert (Hrange : 0 <= total < 2 ^ 32) by (apply sum_slots_range; lia).
  destruct (Z.eqb_spec total 0) as [|Hne].
  - intros [= <-]. exists 0. split; [reflexivity | lia].
  - destruct (target_count_defined total p1 Hrange) as [-> Ht1]; [lia|].
    destruct (target_count_defined total p2 Hrange) as [-> Ht2]; [lia|].
    cbn [mbind c_result_bind]. rewrite !find_slot_index.
    assert (Hle : Z.quot (total * p1) 100 <= Z.quot (total * p2) 100)
      by (apply Z.quot_le_mono; nia).
    destruct (find_index_reaches 64 h 0 0 (Z.quot (total * p2) 100))
      as [j2 Hj2]; [lia | fold total; lia |].
    destruct (find_index_mono _ _ _ _ _ _ _ Hle Hj2) as (j1 & Hj1 & Hj).
    pose proof (find_index_range _ _ _ _ _ _ Hj1) as Hr1.
    rewrite Hj1, Hj2, !shl_int_1 by lia.
    destruct (Z.ltb_spec j2 31) as [H2|H2]; [|discriminate].
    intros [= <-]. destruct (Z.ltb_spec j1 31); [|lia].
    exists (2 ^ j1). split; [reflexivity|]. apply Z.pow_le_mono_r; lia.
Qed.

(** The limit of [1 << i] on [int], on histograms written by hand (the
    callbacks never fill a bucket above 19).  With two samples in bucket 31
    both ranks the agent asks for select that bucket, where [1 << 31]
    overflows; the same histogram one bucket lower gives [2^30]. *)
Lemma calculate_percentile_bucket_31 :
  calculate_percentile (hist_of_counts [(31%nat, 2)]) 50 = UB /\
  calculate_percentile (hist_of_counts [(31%nat, 2)]) 99 = UB /\
  calculate_percentile (hist_of_counts [(30%nat, 2)]) 50 = Defined (2 ^ 30) /\
  calculate_percentile new_hist 50 = Defined 0.
Proof. repeat split; vm_compute; reflexivity. Qed.

(** On such a hand-written histogram the estimate at a higher rank can be
    undefined where the one at a lower rank is not: with one sample in
    bucket 30 and one in bucket 31 the median is [2^30], while rank 100
    selects bucket 31. *)
Lemma calculate_percentile_rank_100_undefined :
  calculate_percentile (hist_of_counts [(30%nat, 1); (31%nat, 1)]) 50
  = Defined (2 ^ 30) /\
  calculate_percentile (hist_of_counts [(30%nat, 1); (31%nat, 1)]) 100 = UB.
Proof. split; vm_compute; reflexivity. Qed.

End percentile_facts.

(** ** Node counters under the instrumentation callbacks *)

Section counter_facts.

Lemma counters_le_refl (m : node_metrics) : counters_le m m.
Proof. unfold counters_le. lia. Qed.

Lemma publish_node_metrics (h : helpers) (e : telemetry_event) (s : bpf_maps) :
  node_metrics_map (publish h e s) = node_metrics_map s.
Proof. unfold publish. destruct (ringbuf_room h); reflexivity. Qed.

(** An entry that exists survives the create-on-miss sequence for any key,
    and the sequence returns it when the key is its own. *)
Lemma lookup_or_create_keeps (m nm : gmap Z node_metrics) (k node_id : Z)
    (v found : node_metrics) :
  m !! k = Some v ->
  lookup_or_create MAX_NODES new_metrics m node_id = Some (found, nm) ->
  nm !! k = Some v /\ (node_id = k -> found = v).
Proof.
  intros Hk. rewrite lookup_or_create_spec.
  destruct (m !! node_id) as [w|] eqn:Hn.
  - intros [= <- <-]. split; [exact Hk|]. intros ->. congruence.
  - destruct (Z.of_nat (size m) <? MAX_NODES); [|discriminate].
    intros [= <- <-]. assert (node_id <> k) by congruence.
    split; [|contradiction]. by rewrite lookup_insert_ne.
Qed.

Lemma rtt_ms_range (srtt_us : Z) : 0 <= u32 (Z.shiftr srtt_us 3) / 1000 < 2 ^ 32.
Proof.
  pose proof (u32_range (Z.shiftr srtt_us 3)) as Hr.
  split; [apply Z.div_pos; lia|].
  apply Z.div_lt_upper_bound; lia.
Qed.

(** Under the three network callbacks an existing node entry stays in the
    table and none of its counters decreases, as long as no counter is at
    the 64-bit limit. *)
Lemma network_callbacks_keep_counters (c : callback) (s s' : bpf_maps)
    (k : Z) (m : node_metrics) :
  network_callback c = true ->
  invoke c s = Some s' ->
  node_metrics_map s !! k = Some m ->
  counters_below_limit m ->
  exists m', node_metrics_map s' !! k = Some m' /\ counters_le m m'.
Proof.
  intros Hc Hinv Hk (Hsum & Hcnt & Hre & Hdr).
  assert (Hsame : forall s0 : bpf_maps,
            node_metrics_map s0 !! k = Some m ->
            exists m', node_metrics_map s0 !! k = Some m' /\ counters_le m m')
    by (intros s0 H0; exists m; split; [exact H0 | apply counters_le_refl]).
  assert (Hupd : forall (nm : gmap Z node_metrics) node_id found upd,
            nm !! k = Some m -> (node_id = k -> found = m) ->
            (found = m -> counters_le m upd) ->
            exists m', <[node_id := upd]> nm !! k = Some m' /\ counters_le m m').
  { intros nm node_id found upd Hnm Hfound Hle.
    destruct (Z.eq_dec node_id k) as [->|Hne].
    - exists upd. split; [apply lookup_insert_eq | auto].
    - exists m. split; [by rewrite lookup_insert_ne | apply counters_le_refl]. }
  destruct c as [sk h|h|reason h| |]; try discriminate; cbn [invoke] in Hinv.
  - (* trace_tcp_ack *)
    unfold trace_tcp_ack in Hinv.
    destruct sk as [[srtt_us|]|]; try (injection Hinv as <-; auto).
    pose proof (rtt_ms_range srtt_us) as Hms.
    destruct (lookup_or_create MAX_NODES new_hist (rtt_hist_map s) (get_node_id h))
      as [[hs hm]|]; [|injection Hinv as <-; auto].
    destruct (value_to_slot (u32 (Z.shiftr srtt_us 3) / 1000)) as [slot|];
      [|discriminate].
    cbn [mbind option_bind set_rtt_hist_map node_metrics_map] in Hinv.
    destruct (lookup_or_create MAX_NODES new_metrics (node_metrics_map s)
                (get_node_id h)) as [[found nm]|] eqn:Hloc.
    + destruct (lookup_or_create_keeps _ _ _ _ _ _ Hk Hloc) as [Hnm Hfound].
      injection Hinv as <-.
      destruct (prandom_u32 h mod 100 =? 0);
        rewrite ?publish_node_metrics;
        cbn [set_node_metrics_map node_metrics_map];
        (eapply Hupd; [exact Hnm | exact Hfound |]);
        intros ->; unfold counters_le; cbn;
        rewrite !u64_small by lia; lia.
    + injection Hinv as <-. apply Hsame. exact Hk.
  - (* trace_tcp_retrans *)
    injection Hinv as <-. unfold trace_tcp_retrans.
    destruct (lookup_or_create MAX_NODES new_metrics (node_metrics_map s)
                (get_node_id h)) as [[found nm]|] eqn:Hloc; [|auto].
    destruct (lookup_or_create_keeps _ _ _ _ _ _ Hk Hloc) as [Hnm Hfound].
    rewrite publish_node_metrics. cbn [set_node_metrics_map node_metrics_map].
    eapply Hupd; [exact Hnm | exact Hfound |].
    intros ->. unfold counters_le. cbn. rewrite !u64_small by lia. lia.
  - (* trace_skb_drop *)
    injection Hinv as <-. unfold trace_skb_drop.
    cbn [set_drop_reason_map node_metrics_map].
    destruct (lookup_or_create MAX_NODES new_metrics (node_metrics_map s)
                (get_node_id h)) as [[found nm]|] eqn:Hloc; [|auto].
    destruct (lookup_or_create_keeps _ _ _ _ _ _ Hk Hloc) as [Hnm Hfound].
    destruct (prandom_u32 h mod 10 =? 0);
      rewrite ?publish_node_metrics;
      cbn [set_node_metrics_map node_metrics_map];
      (eapply Hupd; [exact Hnm | exact Hfound |]);
      intros ->; unfold counters_le; cbn;
      rewrite !u64_small by lia; lia.
Qed.

(** C3: the counters of a node entry are not safe from the scheduler
    callbacks, which use [node_metrics_map] under process ids as well.
    - After one ACK on processor 1 (RTT 10 ms) node 1 holds [rtt_sum = 10],
      [rtt_count = 1]; a wake-up of process 1 then overwrites the entry:
      [rtt_sum] becomes the wake-up time and the other fields whatever lay
      next to it, so the sum of the deltas applied is gone.
    - After one retransmission on processor 0, a switch to process 0 on
      that processor deletes the entry of node 0; a second retransmission
      leaves [retrans_count = 1] although two increments were applied. *)
Theorem sched_callbacks_clobber_node_counters :
  (s ← run [tcp_ack (Some (Some 80000)) (helpers_on 1 1000000000)] empty_maps;
   m ← node_metrics_map s !! 1; Some (rtt_sum m, rtt_count m))
  = Some (10, 1) /\
  (forall adjacent,
     (s ← run [tcp_ack (Some (Some 80000)) (helpers_on 1 1000000000);
               sched_wakeup 1 adjacent (helpers_on 1 2000000000)] empty_maps;
      m ← node_metrics_map s !! 1; Some (rtt_sum m, rtt_count m))
     = Some (2000000000, rtt_count adjacent)) /\
  (s ← run [tcp_retransmit_skb (helpers_on 0 1000000000)] empty_maps;
   m ← node_metrics_map s !! 0; Some (retrans_count m))
  = Some 1 /\
  (s ← run [tcp_retransmit_skb (helpers_on 0 1000000000);
            sched_switch 0 (helpers_on 0 2000000000)] empty_maps;
   Some (node_metrics_map s !! 0))
  = Some None /\
  (s ← run [tcp_retransmit_skb (helpers_on 0 1000000000);
            sched_switch 0 (helpers_on 0 2000000000);
            tcp_retransmit_skb (helpers_on 0 3000000000)] empty_maps;
   m ← node_metrics_map s !! 0; Some (retrans_count m))
  = Some 1.
Proof.
  split; [vm_compute; reflexivity|].
  split; [intros adjacent; vm_compute; reflexivity|].
  repeat split; vm_compute; reflexivity.
Qed.

End counter_facts.

(** ** Rates *)

Section rate_facts.

Lemma Qdiv_Z_pos (a b : Z) : 0 < a -> 0 < b -> (0 < inject_Z a / inject_Z b)%Q.
Proof.
  intros Ha Hb. destruct b as [|b|b]; try lia.
  unfold Qlt, Qdiv, Qmult, Qinv, inject_Z. simpl. lia.
Qed.

Lemma Qdiv_Z_zero (b : Z) : (inject_Z 0 / inject_Z b == 0)%Q.
Proof. unfold Qdiv. apply Qmult_0_l. Qed.

(** C4, as stated, fails for a counter that has decreased: with the drop
    counter going from 3 down to 1 over 2 seconds the rate is
    [(2^64 - 2) / 2], not [(1 - 3) / 2 = -1]. *)
Lemma rate_not_the_difference_counterexample :
  drop_rate
    (fst (read_node_metrics (metrics_init "edge")
            {| prev_retrans := 0; prev_drops := 3; prev_time := 100 |}
            (Some {| rtt_sum := 0; rtt_count := 0; retrans_count := 0;
                     drop_count := 1; runqlat_sum := 0; runqlat_count := 0;
                     cpu_util := 0; timestamp := 0 |})
            102))
  = Fin (18446744073709551614 # 2) /\
  ~ double_is
      (drop_rate
         (fst (read_node_metrics (metrics_init "edge")
                 {| prev_retrans := 0; prev_drops := 3; prev_time := 100 |}
                 (Some {| rtt_sum := 0; rtt_count := 0; retrans_count := 0;
                          drop_count := 1; runqlat_sum := 0; runqlat_count := 0;
                          cpu_util := 0; timestamp := 0 |})
                 102)))
      (inject_Z (1 - 3) / inject_Z (102 - 100)).
Proof. split; [vm_compute; reflexivity | vm_compute; discriminate]. Qed.

(** C4, amended: against a previous snapshot ([prev_time > 0]) and with
    [elapsed = current_time - prev_time > 0], each rate is
    [(current - previous) / elapsed] when the counter has not decreased,
    so 0 when it has not changed, and [(current - previous + 2^64) /
    elapsed] when it has decreased, the difference being taken on unsigned
    64-bit integers.  With [elapsed <= 0] (or no previous snapshot) both
    rates keep their previous values and nothing is divided. *)
Theorem rate_from_snapshots
    (metrics : prometheus_metrics) (st : statics) (node_data : node_metrics)
    (current_time : Z) :
  0 <= prev_retrans st < 2 ^ 64 -> 0 <= retrans_count node_data < 2 ^ 64 ->
  0 <= prev_drops st < 2 ^ 64 -> 0 <= drop_count node_data < 2 ^ 64 ->
  let elapsed := current_time - prev_time st in
  let metrics' :=
    fst (read_node_metrics metrics st (Some node_data) current_time) in
  (0 < prev_time st -> 0 < elapsed ->
     (prev_retrans st <= retrans_count node_data ->
        double_is (tcp_retrans_rate metrics')
          (inject_Z (retrans_count node_data - prev_retrans st)
           / inject_Z elapsed)) /\
     (retrans_count node_data < prev_retrans st ->
        double_is (tcp_retrans_rate metrics')
          (inject_Z (retrans_count node_data - prev_retrans st + 2 ^ 64)
           / inject_Z elapsed)) /\
     (prev_drops st <= drop_count node_data ->
        double_is (drop_rate metrics')
          (inject_Z (drop_count node_data - prev_drops st)
           / inject_Z elapsed)) /\
     (drop_count node_data < prev_drops st ->
        double_is (drop_rate metrics')
          (inject_Z (drop_count node_data - prev_drops st + 2 ^ 64)
           / inject_Z elapsed)) /\
     (retrans_count node_data = prev_retrans st ->
        double_is (tcp_retrans_rate metrics') 0) /\
     (drop_count node_data = prev_drops st ->
        double_is (drop_rate metrics') 0)) /\
  (prev_time st <= 0 \/ elapsed <= 0 ->
     tcp_retrans_rate metrics' = tcp_retrans_rate metrics /\
     drop_rate metrics' = drop_rate metrics).
Proof.
  intros Hpr Hcr Hpd Hcd elapsed metrics'.
  subst metrics'. unfold read_node_metrics. fold elapsed.
  split.
  - intros Hprev Hel.
    destruct (Z.ltb_spec 0 (prev_time st)); [|lia].
    destruct (Z.ltb_spec 0 elapsed); [|lia].
    assert (Hzero : forall b, (inject_Z (u64 0) / inject_Z b == 0)%Q)
      by (intros b; apply Qdiv_Z_zero).
    destruct (0 <? runqlat_count node_data);
      cbn [fst tcp_retrans_rate drop_rate];
      (split; [|split; [|split; [|split; [|split]]]]);
      intros Hmono; cbn [double_is];
      try (rewrite u64_small by lia; reflexivity);
      try (rewrite u64_borrow by lia; reflexivity);
      rewrite Hmono, Z.sub_diag; apply Hzero.
  - intros Hno. cbn [fst].
    destruct (Z.ltb_spec 0 (prev_time st)).
    + destruct (Z.ltb_spec 0 elapsed); [lia|].
      destruct (0 <? runqlat_count node_data); split; reflexivity.
    + destruct (0 <? runqlat_count node_data); split; reflexivity.
Qed.

Lemma rate_from_snapshots_witness :
  double_is
    (tcp_retrans_rate
       (fst (read_node_metrics (metrics_init "edge")
               {| prev_retrans := 10; prev_drops := 0; prev_time := 100 |}
               (Some {| rtt_sum := 0; rtt_count := 0; retrans_count := 60;
                        drop_count := 0; runqlat_sum := 0; runqlat_count := 0;
                        cpu_util := 0; timestamp := 0 |})
               105)))
    (inject_Z (60 - 10) / inject_Z (105 - 100)).
Proof.
  refine (proj1 (proj1
    (rate_from_snapshots (metrics_init "edge")
       {| prev_retrans := 10; prev_drops := 0; prev_time := 100 |}
       {| rtt_sum := 0; rtt_count := 0; retrans_count := 60;
          drop_count := 0; runqlat_sum := 0; runqlat_count := 0;
          cpu_util := 0; timestamp := 0 |}
       105 _ _ _ _) _ _) _); simpl; lia.
Defined.

(** C5, as stated, fails: with the counter going from 10 down to 5 over 5
    seconds the rate is [(2^64 - 5) / 5], a large positive number, not a
    negative one. *)
Lemma rate_after_decrease_counterexample :
  tcp_retrans_rate
    (fst (read_node_metrics (metrics_init "edge")
            {| prev_retrans := 10; prev_drops := 0; prev_time := 100 |}
            (Some {| rtt_sum := 0; rtt_count := 0; retrans_count := 5;
                     drop_count := 0; runqlat_sum := 0; runqlat_count := 0;
                     cpu_util := 0; timestamp := 0 |})
            105))
  = Fin (18446744073709551611 # 5) /\
  ~ double_neg (Fin (18446744073709551611 # 5)).
Proof. split; [vm_compute; reflexivity | vm_compute; discriminate]. Qed.

(** C5, amended: when the current count is strictly below the previous one
    and [elapsed > 0], the unsigned subtraction wraps around and the rate
    is [(current - previous + 2^64) / elapsed]: positive, never negative. *)
Theorem rate_after_decrease_wraps
    (metrics : prometheus_metrics) (st : statics) (node_data : node_metrics)
    (current_time : Z) :
  0 < prev_time st -> 0 < current_time - prev_time st ->
  0 <= retrans_count node_data < prev_retrans st -> prev_retrans st < 2 ^ 64 ->
  let elapsed := current_time - prev_time st in
  let rate :=
    tcp_retrans_rate
      (fst (read_node_metrics metrics st (Some node_data) current_time)) in
  rate = Fin (inject_Z (retrans_count node_data - prev_retrans st + 2 ^ 64)
              / inject_Z elapsed) /\
  (exists q, rate = Fin q /\ (0 < q)%Q) /\
  ~ double_neg rate.
Proof.
  intros Hprev Hel Hdec Hmax elapsed rate.
  assert (Hrate : rate
            = Fin (inject_Z (retrans_count node_data - prev_retrans st + 2 ^ 64)
                   / inject_Z elapsed)).
  { subst rate. unfold read_node_metrics. fold elapsed.
    destruct (Z.ltb_spec 0 (prev_time st)); [|lia].
    destruct (Z.ltb_spec 0 elapsed); [|unfold elapsed in *; lia].
    cbn [fst]. rewrite u64_borrow by lia.
    destruct (0 <? runqlat_count node_data); reflexivity. }
  assert (Hpos : (0 < inject_Z (retrans_count node_data - prev_retrans st + 2 ^ 64)
                      / inject_Z elapsed)%Q)
    by (apply Qdiv_Z_pos; unfold elapsed; lia).
  split; [exact Hrate|]. split.
  - eexists. split; [exact Hrate | exact Hpos].
  - rewrite Hrate. cbn [double_neg]. intros Hneg.
    apply (Qlt_irrefl 0). eapply Qlt_trans; eassumption.
Qed.

Lemma rate_after_decrease_wraps_witness :
  ~ double_neg
    (tcp_retrans_rate
       (fst (read_node_metrics (metrics_init "edge")
               {| prev_retrans := 10; prev_drops := 0; prev_time := 100 |}
               (Some {| rtt_sum := 0; rtt_count := 0; retrans_count := 5;
                        drop_count := 0; runqlat_sum := 0; runqlat_count := 0;
                        cpu_util := 0; timestamp := 0 |})
               105))).
Proof.
  refine (proj2 (proj2
    (rate_after_decrease_wraps (metrics_init "edge")
       {| prev_retrans := 10; prev_drops := 0; prev_time := 100 |}
       {| rtt_sum := 0; rtt_count := 0; retrans_count := 5;
          drop_count := 0; runqlat_sum := 0; runqlat_count := 0;
          cpu_util := 0; timestamp := 0 |}
       105 _ _ _ _))); simpl; lia.
Defined.

End rate_facts.

(** ** CPU utilization *)

Section cpu_facts.

(** C8, as stated, fails: the reader keeps no earlier sample, so the very
    first call already returns the utilization since boot; with 100 busy
    and 100 idle ticks that is 50, not 0. *)
Lemma cpu_first_call_counterexample :
  double_is (get_cpu_utilization (fscanf_ok 50 0 50 100 0 0 0)) 50 /\
  ~ double_is (get_cpu_utilization (fscanf_ok 50 0 50 100 0 0 0)) 0.
Proof. split; vm_compute; [reflexivity | discriminate]. Qed.

(** C8, amended: the reader returns [100 * busy / total] computed from the
    cumulative counters of one reading of [/proc/stat]
    ([total] the sum of the seven fields, [busy = total - idle - iowait]),
    a number in [0, 100] whenever the sum is positive and fits 64 bits; it
    takes no earlier sample into account, so a first call is like any
    other.  When the file cannot be opened or the line cannot be parsed it
    returns 0. *)
Theorem cpu_utilization_single_reading (user nice system idle iowait irq softirq : Z) :
  0 <= user -> 0 <= nice -> 0 <= system -> 0 <= idle -> 0 <= iowait ->
  0 <= irq -> 0 <= softirq ->
  let total := user + nice + system + idle + iowait + irq + softirq in
  0 < total < 2 ^ 64 ->
  get_cpu_utilization fopen_failed = Fin 0 /\
  get_cpu_utilization fscanf_failed = Fin 0 /\
  exists q,
    get_cpu_utilization (fscanf_ok user nice system idle iowait irq softirq)
    = Fin q /\
    (q == inject_Z (total - idle - iowait) / inject_Z total * 100)%Q /\
    (0 <= q <= 100)%Q.
Proof.
  intros Hu Hn Hs Hi Hw Hq Hf total Ht.
  split; [reflexivity|]. split; [reflexivity|].
  unfold get_cpu_utilization.
  rewrite (u64_small (user + nice)) by lia.
  rewrite (u64_small (user + nice + system)) by lia.
  rewrite (u64_small (user + nice + system + idle)) by lia.
  rewrite (u64_small (user + nice + system + idle + iowait)) by lia.
  rewrite (u64_small (user + nice + system + idle + iowait + irq)) by lia.
  rewrite (u64_small (user + nice + system + idle + iowait + irq + softirq))
    by (fold total; lia).
  fold total.
  rewrite (u64_small (total - idle)) by (unfold total; lia).
  rewrite (u64_small (total - idle - iowait)) by (unfold total; lia).
  destruct (Z.eqb_spec total 0) as [|_]; [lia|].
  eexists. split; [reflexivity|]. split; [reflexivity|].
  assert (Hb : 0 <= total - idle - iowait <= total) by (unfold total; lia).
  revert Hb. generalize (total - idle - iowait). intros busy Hb.
  destruct total as [|p|p]; try lia.
  unfold Qle, Qdiv, Qmult, Qinv, inject_Z. simpl. lia.
Qed.

Lemma cpu_utilization_single_reading_witness :
  exists q,
    get_cpu_utilization (fscanf_ok 50 0 50 100 0 0 0) = Fin q /\
    (q == inject_Z (200 - 100 - 0) / inject_Z 200 * 100)%Q /\
    (0 <= q <= 100)%Q.
Proof.
  refine (proj2 (proj2
    (cpu_utilization_single_reading 50 0 50 100 0 0 0 _ _ _ _ _ _ _ _)));
    simpl; lia.
Defined.

End cpu_facts.

(** ** Ticks and the collection loop *)

Section loop_facts.

(** C6, as stated, fails: in the second tick below both tables have no
    entry for node 0, and the exporter still receives the six gauges of the
    node, the first two with the percentiles of the tick before. *)
Lemma missing_snapshot_counterexample :
  match
    main_loop None
      [iteration_at 1000 tables_with_histogram (fscanf_ok 50 0 50 100 0 0 0);
       iteration_at 1005 empty_maps fopen_failed]
      (main_init "edge")
  with
  | Defined (Running s) => map (map gauge_value) (exported s)
  | _ => []
  end
  = [ [Fin 4; Fin 4; Fin 0; Fin 0; Fin 0; Fin (10000 # 200)];
      [Fin 4; Fin 4; Fin 0; Fin 0; Fin 0; Fin 0] ].
Proof. vm_compute. reflexivity. Qed.

End loop_facts.

(** ** Further properties of the bucket index *)

Section value_to_slot_more.

Lemma value_to_slot_some (value : Z) :
  exists slot,
    value_to_slot value = Some slot /\ 0 <= slot <= 63 /\
    (0 <=? slot) && (slot <? MAX_SLOTS) = true.
Proof.
  assert (Hguard : forall slot, 0 <= slot <= 63 ->
            (0 <=? slot) && (slot <? MAX_SLOTS) = true).
  { intros slot Hs. unfold MAX_SLOTS.
    destruct (Z.leb_spec 0 slot); [|lia].
    destruct (Z.ltb_spec slot 64); [reflexivity | lia]. }
  destruct (Z.lt_trichotomy value 0) as [Hneg|[->|Hpos]].
  - exists 0. split; [|split; [lia | apply Hguard; lia]].
    unfold value_to_slot. destruct (Z.eqb_spec value 0); [lia|].
    change (Z.to_nat MAX_SLOTS) with (S 63). cbn [value_to_slot_loop].
    destruct (Z.ltb_spec 1 value); [lia | reflexivity].
  - exists 0. split; [reflexivity | split; [lia | apply Hguard; lia]].
  - pose proof (Z.log2_nonneg value).
    exists (Z.min 63 (Z.log2 value)).
    split; [apply value_to_slot_log2; lia|].
    split; [lia | apply Hguard; lia].
Qed.

(** X1: for every argument the halving loop ends and the bucket index lies
    in [0, 63], so the range guard of [trace_tcp_ack] in front of the
    histogram update always passes. *)
Theorem value_to_slot_in_range (value : Z) :
  exists slot,
    value_to_slot value = Some slot /\ 0 <= slot <= 63 /\
    (0 <=? slot) && (slot <? MAX_SLOTS) = true.
Proof. apply value_to_slot_some. Qed.

(** X2: the bucket index is monotone in the sample value. *)
Theorem value_to_slot_monotone (v1 v2 : Z) :
  0 <= v1 <= v2 ->
  exists s1 s2,
    value_to_slot v1 = Some s1 /\ value_to_slot v2 = Some s2 /\ s1 <= s2.
Proof.
  intros [H1 H12].
  destruct (Z.eq_dec v1 0) as [->|Hne].
  - destruct (value_to_slot_some v2) as (s2 & Hs2 & Hr & _).
    exists 0, s2. split; [reflexivity|]. split; [exact Hs2 | lia].
  - exists (Z.min 63 (Z.log2 v1)), (Z.min 63 (Z.log2 v2)).
    split; [apply value_to_slot_log2; lia|].
    split; [apply value_to_slot_log2; lia|].
    pose proof (Z.log2_le_mono v1 v2 H12). lia.
Qed.

Lemma value_to_slot_monotone_witness :
  exists s1 s2,
    value_to_slot 7 = Some s1 /\ value_to_slot 1000 = Some s2 /\ s1 <= s2.
Proof. apply (value_to_slot_monotone 7 1000). lia. Defined.

End value_to_slot_more.

(** ** Percentiles of histograms without high buckets *)

Section percentile_more.

Lemma u32_small (z : Z) : 0 <= z < 2 ^ 32 -> u32 z = z.
Proof. intros H. unfold u32. apply Z.mod_small. exact H. Qed.

Lemma sum_slots_snoc (n : nat) (h : hist) :
  forall i total,
    sum_slots (S n) h i total
    = u32 (sum_slots n h i total + slot_at h (i + Z.of_nat n)).
Proof.
  induction n as [|n IH]; intros i total.
  - cbn [sum_slots]. rewrite Z.add_0_r. reflexivity.
  - change (sum_slots (S (S n)) h i total)
      with (sum_slots (S n) h (i + 1) (u32 (total + slot_at h i))).
    rewrite IH. cbn [sum_slots]. do 2 f_equal. f_equal. lia.
Qed.

(** The bucket the second loop stops at is never an empty one above
    bucket 0. *)
Lemma stop_bucket_low (h : hist) (bound target j : Z) :
  0 < bound ->
  (forall i, bound <= i < MAX_SLOTS -> slot_at h i = 0) ->
  0 <= j <= 63 ->
  target <= sum_slots (S (Z.to_nat j)) h 0 0 ->
  (forall j', 0 <= j' < j -> sum_slots (S (Z.to_nat j')) h 0 0 < target) ->
  j < bound.
Proof.
  intros Hb Hzero Hj Hreach Hbefore.
  destruct (Z.lt_ge_cases j bound) as [|Hge]; [assumption|exfalso].
  rewrite sum_slots_snoc in Hreach. rewrite Z.add_0_l, Z2Nat.id in Hreach by lia.
  rewrite Hzero, Z.add_0_r in Hreach by (unfold MAX_SLOTS; lia).
  specialize (Hbefore (j - 1)).
  replace (S (Z.to_nat (j - 1))) with (Z.to_nat j) in Hbefore by lia.
  assert (Hr : 0 <= sum_slots (Z.to_nat j) h 0 0 < 2 ^ 32)
    by (apply sum_slots_range; lia).
  rewrite u32_small in Hreach by exact Hr. lia.
Qed.

Lemma calculate_percentile_low_defined (h : hist) (percentile : Z) :
  (forall i, 31 <= i < MAX_SLOTS -> slot_at h i = 0) ->
  0 <= percentile <= 100 ->
  exists v,
    calculate_percentile h percentile = Defined v /\
    (sum_slots 64 h 0 0 = 0 -> v = 0) /\
    (sum_slots 64 h 0 0 <> 0 -> exists j, 0 <= j <= 30 /\ v = 2 ^ j).
Proof.
  intros Hzero Hp.
  destruct (calculate_percentile_spec h percentile Hp) as [Hempty Hfull].
  destruct (Z.eq_dec (sum_slots 64 h 0 0) 0) as [H0|Hne].
  - exists 0. split; [apply Hempty, H0|]. split; [reflexivity | contradiction].
  - destruct (Hfull Hne) as (j & Hj & Hreach & Hbefore & Hres).
    assert (Hlow : j < 31)
      by (eapply (stop_bucket_low h 31); [lia | eassumption..]).
    destruct (Z.ltb_spec j 31); [|lia].
    exists (2 ^ j). split; [exact Hres|]. split; [contradiction|].
    intros _. exists j. split; [lia | reflexivity].
Qed.

(** X3: on a histogram whose buckets 31 to 63 are empty the estimate is
    defined for every rank between 0 and 100, and it is 0 or a power of two
    [2^j] with [j <= 30]; it is 0 only when the 32-bit total is 0. *)
Theorem calculate_percentile_low_buckets (h : hist) (percentile : Z) :
  (forall i, 31 <= i < MAX_SLOTS -> slot_at h i = 0) ->
  0 <= percentile <= 100 ->
  exists v,
    calculate_percentile h percentile = Defined v /\
    (sum_slots 64 h 0 0 = 0 -> v = 0) /\
    (sum_slots 64 h 0 0 <> 0 -> exists j, 0 <= j <= 30 /\ v = 2 ^ j).
Proof. apply calculate_percentile_low_defined. Qed.

Lemma calculate_percentile_low_buckets_witness :
  exists v,
    calculate_percentile (hist_of_counts [(2%nat, 3); (5%nat, 1)]) 99
    = Defined v /\
    (sum_slots 64 (hist_of_counts [(2%nat, 3); (5%nat, 1)]) 0 0 <> 0 ->
     exists j, 0 <= j <= 30 /\ v = 2 ^ j).
Proof.
  destruct (calculate_percentile_low_buckets
              (hist_of_counts [(2%nat, 3); (5%nat, 1)]) 99)
    as (v & Hv & _ & Hpow).
  - intros i Hi. unfold MAX_SLOTS in Hi.
    assert (Hc : exists n, (n < 33)%nat /\ i = 31 + Z.of_nat n)
      by (exists (Z.to_nat (i - 31)); lia).
    destruct Hc as (n & Hn & ->).
    do 33 (destruct n as [|n]; [reflexivity|]). lia.
  - lia.
  - exists v. split; [exact Hv | exact Hpow].
Defined.

Lemma calculate_percentile_low_buckets_monotone_aux (h : hist) (p1 p2 : Z) :
  (forall i, 31 <= i < MAX_SLOTS -> slot_at h i = 0) ->
  0 <= p1 <= p2 -> p2 <= 100 ->
  exists v1 v2,
    calculate_percentile h p1 = Defined v1 /\
    calculate_percentile h p2 = Defined v2 /\ v1 <= v2.
Proof.
  intros Hzero Hp1 Hp2.
  destruct (calculate_percentile_low_defined h p2 Hzero) as (v2 & Hv2 & _);
    [lia|].
  destruct (calculate_percentile_mono_defined h p1 p2 v2 Hp1 Hp2 Hv2)
    as (v1 & Hv1 & Hle).
  exists v1, v2. auto.
Qed.

(** X4: on such a histogram the estimate is monotone in the rank, with both
    estimates defined. *)
Theorem calculate_percentile_low_buckets_monotone (h : hist) (p1 p2 : Z) :
  (forall i, 31 <= i < MAX_SLOTS -> slot_at h i = 0) ->
  0 <= p1 <= p2 -> p2 <= 100 ->
  exists v1 v2,
    calculate_percentile h p1 = Defined v1 /\
    calculate_percentile h p2 = Defined v2 /\ v1 <= v2.
Proof. apply calculate_percentile_low_buckets_monotone_aux. Qed.

Lemma calculate_percentile_low_buckets_monotone_witness :
  exists v1 v2,
    calculate_percentile (hist_of_counts [(2%nat, 3); (5%nat, 1)]) 50
    = Defined v1 /\
    calculate_percentile (hist_of_counts [(2%nat, 3); (5%nat, 1)]) 99
    = Defined v2 /\ v1 <= v2.
Proof.
  apply (calculate_percentile_low_buckets_monotone
           (hist_of_counts [(2%nat, 3); (5%nat, 1)]) 50 99); [|lia|lia].
  intros i Hi. unfold MAX_SLOTS in Hi.
  assert (Hc : exists n, (n < 33)%nat /\ i = 31 + Z.of_nat n)
    by (exists (Z.to_nat (i - 31)); lia).
  destruct Hc as (n & Hn & ->).
  do 33 (destruct n as [|n]; [reflexivity|]). lia.
Defined.

(** X5: while [total * percentile] is below 100 the target count is 0 and
    the first bucket already reaches it: the estimate of a non-empty
    histogram is then 1, wherever its samples lie.  With a single sample
    this is the case for every rank below 100. *)
Theorem calculate_percentile_small_target (h : hist) (percentile : Z) :
  sum_slots 64 h 0 0 <> 0 ->
  0 <= percentile ->
  sum_slots 64 h 0 0 * percentile < 100 ->
  calculate_percentile h percentile = Defined 1.
Proof.
  intros Hne Hp Hsmall. unfold calculate_percentile.
  change (Z.to_nat MAX_SLOTS) with 64%nat.
  set (total := sum_slots 64 h 0 0) in *.
  assert (Hrange : 0 <= total < 2 ^ 32) by (apply sum_slots_range; lia).
  destruct (Z.eqb_spec total 0); [contradiction|].
  assert (Hq : Z.quot (total * percentile) 100 = 0)
    by (apply Z.quot_small; nia).
  unfold double_to_u32. rewrite Hq.
  change ((0 <=? 0) && (0 <? 2 ^ 32)) with true. cbv iota.
  cbn [mbind c_result_bind].
  change (find_slot 64 h 0 0 0)
    with (if 0 <=? u32 (0 + slot_at h 0) then shl_int 1 0
          else find_slot 63 h (0 + 1) (u32 (0 + slot_at h 0)) 0).
  pose proof (u32_range (0 + slot_at h 0)).
  destruct (Z.leb_spec 0 (u32 (0 + slot_at h 0))); [reflexivity | lia].
Qed.

Lemma calculate_percentile_small_target_witness :
  calculate_percentile (hist_of_counts [(12%nat, 1)]) 99 = Defined 1.
Proof.
  apply calculate_percentile_small_target; vm_compute; congruence.
Defined.

End percentile_more.

(** ** What the callbacks keep true of the tables *)

Section table_invariants.

Lemma get_node_id_range (h : helpers) : 0 <= get_node_id h < 8.
Proof. unfold get_node_id. apply Z.mod_pos_bound. lia. Qed.

Lemma invoke_total (c : callback) (s : bpf_maps) :
  exists s', invoke c s = Some s'.
Proof.
  destruct c as [sk h|h|reason h|pid adjacent h|next_pid h]; cbn [invoke];
    try (eexists; reflexivity).
  unfold trace_tcp_ack. destruct sk as [[srtt_us|]|]; try (eexists; reflexivity).
  destruct (lookup_or_create MAX_NODES new_hist (rtt_hist_map s) (get_node_id h))
    as [[hs hm]|]; [|eexists; reflexivity].
  destruct (value_to_slot_some (u32 (Z.shiftr srtt_us 3) / 1000))
    as (slot & -> & _).
  cbn [mbind option_bind].
  destruct (lookup_or_create MAX_NODES new_metrics _ (get_node_id h))
    as [[metrics nm]|]; eexists; reflexivity.
Qed.

(** A property kept by every well-formed invocation holds after any
    well-formed trace, and the trace always runs to its end. *)
Lemma run_invariant (good : callback -> Prop) (P : bpf_maps -> Prop) :
  (forall c s s', good c -> P s -> invoke c s = Some s' -> P s') ->
  forall cs s, Forall good cs -> P s ->
    exists s', run cs s = Some s' /\ P s'.
Proof.
  intros Hstep cs. induction cs as [|c cs IH]; intros s Hwf HP; cbn [run].
  - exists s. split; [reflexivity | exact HP].
  - apply Forall_cons in Hwf as [Hc Hcs].
    destruct (invoke_total c s) as [s1 Hs1]. rewrite Hs1.
    cbn [mbind option_bind]. apply IH; [exact Hcs|]. eapply Hstep; eassumption.
Qed.

Lemma publish_rtt_hist (h : helpers) (e : telemetry_event) (s : bpf_maps) :
  rtt_hist_map (publish h e s) = rtt_hist_map s.
Proof. unfold publish. destruct (ringbuf_room h); reflexivity. Qed.

Lemma publish_drop_reason (h : helpers) (e : telemetry_event) (s : bpf_maps) :
  drop_reason_map (publish h e s) = drop_reason_map s.
Proof. unfold publish. destruct (ringbuf_room h); reflexivity. Qed.

(** The histogram table after an ACK whose RTT could be read: unchanged
    when the node's histogram can be neither found nor created, otherwise
    the node's histogram with one more sample in [slot]. *)
Lemma trace_tcp_ack_rtt_hist (srtt_us : Z) (h : helpers) (s s' : bpf_maps) :
  trace_tcp_ack (Some (Some srtt_us)) h s = Some s' ->
  match lookup_or_create MAX_NODES new_hist (rtt_hist_map s) (get_node_id h) with
  | None => rtt_hist_map s' = rtt_hist_map s
  | Some (hs, hm) =>
      exists slot,
        value_to_slot (u32 (Z.shiftr srtt_us 3) / 1000) = Some slot /\
        rtt_hist_map s' = <[get_node_id h := hist_add hs slot]> hm
  end.
Proof.
  unfold trace_tcp_ack.
  destruct (lookup_or_create MAX_NODES new_hist (rtt_hist_map s) (get_node_id h))
    as [[hs hm]|]; [|intros [= <-]; reflexivity].
  destruct (value_to_slot_some (u32 (Z.shiftr srtt_us 3) / 1000))
    as (slot & Hslot & _ & Hguard).
  rewrite Hslot. cbn [mbind option_bind]. rewrite Hguard.
  intros Hs'. exists slot. split; [reflexivity|].
  destruct (lookup_or_create MAX_NODES new_metrics _ (get_node_id h))
    as [[metrics nm]|]; [|injection Hs' as <-; reflexivity].
  destruct (prandom_u32 h mod 100 =? 0); injection Hs' as <-;
    rewrite ?publish_rtt_hist; reflexivity.
Qed.

(** The histogram table is touched by [trace_tcp_ack] only. *)
Lemma invoke_rtt_hist_other (c : callback) (s s' : bpf_maps) :
  (forall srtt_us h, c <> tcp_ack (Some (Some srtt_us)) h) ->
  invoke c s = Some s' -> rtt_hist_map s' = rtt_hist_map s.
Proof.
  intros Hc.
  destruct c as [sk h|h|reason h|pid adjacent h|next_pid h]; cbn [invoke].
  - destruct sk as [[srtt_us|]|]; [exfalso; eapply Hc; reflexivity| |];
      intros [= <-]; reflexivity.
  - intros [= <-]. unfold trace_tcp_retrans.
    destruct (lookup_or_create _ _ _ _) as [[metrics nm]|]; [|reflexivity].
    rewrite publish_rtt_hist. reflexivity.
  - intros [= <-]. unfold trace_skb_drop.
    destruct (lookup_or_create _ _ _ _) as [[metrics nm]|]; [|reflexivity].
    destruct (prandom_u32 h mod 10 =? 0); rewrite ?publish_rtt_hist;
      reflexivity.
  - intros [= <-]. reflexivity.
  - intros [= <-]. unfold trace_sched_switch.
    destruct (node_metrics_map s !! next_pid); [|reflexivity].
    destruct (lookup_or_create _ _ _ _) as [[metrics nm]|]; reflexivity.
Qed.

Lemma new_hist_shape (bound : Z) : hist_shape bound new_hist.
Proof.
  split; [apply length_replicate|].
  intros i Hi. unfold slot_at, new_hist, MAX_SLOTS in *. cbn [slots].
  apply lookup_total_replicate_2. lia.
Qed.

Lemma hist_add_shape (bound slot : Z) (hs : hist) :
  0 <= slot < bound -> hist_shape bound hs -> hist_shape bound (hist_add hs slot).
Proof.
  intros Hslot [Hlen Hzero]. split.
  - unfold hist_add. cbn [slots]. rewrite length_alter. exact Hlen.
  - intros i Hi. unfold slot_at, hist_add. cbn [slots].
    rewrite list_lookup_total_alter_ne by lia. apply Hzero, Hi.
Qed.

Lemma hist_table_step (c : callback) (s s' : bpf_maps) :
  callback_wf c -> hist_table_ok s -> invoke c s = Some s' -> hist_table_ok s'.
Proof.
  intros Hwf Hok Hinv.
  destruct c as [[[srtt_us|]|] h|h|reason h|pid adjacent h|next_pid h];
    try (assert (Hsame : rtt_hist_map s' = rtt_hist_map s)
           by (eapply invoke_rtt_hist_other; [|exact Hinv]; intros; discriminate);
         intros k hs' Hk; rewrite Hsame in Hk; exact (Hok _ _ Hk)).
  cbn [invoke] in Hinv. cbn [callback_wf] in Hwf.
  pose proof (trace_tcp_ack_rtt_hist _ _ _ _ Hinv) as Hh.
  rewrite lookup_or_create_spec in Hh.
  destruct (trace_tcp_ack_slot_bound srtt_us Hwf) as (slot0 & Hslot0 & Hr0).
  pose proof (get_node_id_range h) as Hnode.
  intros k hs' Hk.
  destruct (rtt_hist_map s !! get_node_id h) as [hs|] eqn:Hfound.
  - destruct Hh as (slot & Hslot & Hmap). rewrite Hmap in Hk.
    assert (slot = slot0) by congruence. subst slot0.
    destruct (Z.eq_dec (get_node_id h) k) as [<-|Hne].
    + rewrite lookup_insert_eq in Hk. injection Hk as <-.
      split; [exact Hnode|]. apply hist_add_shape; [lia|].
      apply (Hok _ _ Hfound).
    + rewrite lookup_insert_ne in Hk by exact Hne. apply (Hok _ _ Hk).
  - destruct (Z.of_nat (size (rtt_hist_map s)) <? MAX_NODES).
    + destruct Hh as (slot & Hslot & Hmap). rewrite Hmap in Hk.
      assert (slot = slot0) by congruence. subst slot0.
      destruct (Z.eq_dec (get_node_id h) k) as [<-|Hne].
      * rewrite lookup_insert_eq in Hk. injection Hk as <-.
        split; [exact Hnode|]. apply hist_add_shape; [lia|].
        apply new_hist_shape.
      * rewrite !lookup_insert_ne in Hk by exact Hne. apply (Hok _ _ Hk).
    + rewrite Hh in Hk. apply (Hok _ _ Hk).
Qed.

(** X6: whatever the callbacks do, the histogram table only ever holds
    histograms of 64 slots under the node ids 0 to 7, with buckets 20 to 63
    empty (an RTT is a 32-bit count of eighths of a microsecond, so below
    [2^20] ms); and a trace of callbacks always runs to its end. *)
Theorem rtt_hist_table_shape (cs : list callback) :
  Forall callback_wf cs ->
  exists s,
    run cs empty_maps = Some s /\
    forall k hs, rtt_hist_map s !! k = Some hs -> 0 <= k < 8 /\ hist_shape 20 hs.
Proof.
  intros Hwf. apply (run_invariant callback_wf hist_table_ok hist_table_step cs);
    [exact Hwf|].
  intros k hs Hk. cbn in Hk. rewrite lookup_empty in Hk. discriminate.
Qed.

Lemma rtt_hist_table_shape_witness :
  exists s,
    run [tcp_ack (Some (Some 80000)) (helpers_on 1 1000);
         sched_wakeup 1 new_metrics (helpers_on 1 2000)] empty_maps = Some s /\
    forall k hs, rtt_hist_map s !! k = Some hs -> 0 <= k < 8 /\ hist_shape 20 hs.
Proof.
  apply rtt_hist_table_shape.
  repeat constructor; cbn; lia.
Defined.

Lemma hist_shape_weaken (hs : hist) :
  hist_shape 20 hs -> forall i, 31 <= i < MAX_SLOTS -> slot_at hs i = 0.
Proof. intros [_ Hzero] i Hi. apply Hzero. lia. Qed.

(** X7: a tick never runs into the [int] overflow of [1 << i] on tables
    that the callbacks have produced: [update_metrics] is defined for
    every node id, and the two RTT gauges it leaves are ordered,
    [rtt_p50_ms <= rtt_p99_ms], when the node has a histogram. *)
Theorem update_metrics_defined_after_run (cs : list callback)
    (metrics : prometheus_metrics) (st : statics) (node_id : Z) (env : tick_env) :
  Forall callback_wf cs ->
  exists s metrics' st',
    run cs empty_maps = Some s /\
    update_metrics metrics st s node_id env = Defined (metrics', st') /\
    (is_Some (rtt_hist_map s !! node_id) ->
     exists p50 p99,
       rtt_p50_ms metrics' = Fin (inject_Z p50) /\
       rtt_p99_ms metrics' = Fin (inject_Z p99) /\ p50 <= p99).
Proof.
  intros Hwf.
  destruct (run_invariant callback_wf hist_table_ok hist_table_step cs
              empty_maps Hwf)
    as (s & Hrun & Hok).
  { intros k hs Hk. cbn in Hk. rewrite lookup_empty in Hk. discriminate. }
  exists s. unfold update_metrics.
  destruct (read_node_metrics metrics st (node_metrics_map s !! node_id)
              (time_first env)) as [metrics1 st1].
  destruct (rtt_hist_map s !! node_id) as [hs|] eqn:Hhist; cbn [read_rtt_hist].
  - destruct (Hok _ _ Hhist) as [_ Hshape].
    destruct (calculate_percentile_low_buckets_monotone_aux hs 50 99
                (hist_shape_weaken hs Hshape)) as (p50 & p99 & -> & -> & Hle);
      [lia | lia |].
    cbn [mbind mret c_result_bind c_result_ret].
    eexists _, _. split; [exact Hrun|]. split; [reflexivity|].
    intros _. exists p50, p99. cbn. auto.
  - cbn [mbind mret c_result_bind c_result_ret].
    eexists _, _. split; [exact Hrun|]. split; [reflexivity|].
    intros [x Hx]. discriminate.
Qed.

Lemma update_metrics_defined_after_run_witness :
  exists s metrics' st',
    run [tcp_ack (Some (Some 80000)) (helpers_on 0 1000)] empty_maps = Some s /\
    update_metrics (metrics_init "edge") statics_init s 0
      {| time_first := 1000; proc_stat := fopen_failed; time_last := 1000 |}
    = Defined (metrics', st') /\
    (is_Some (rtt_hist_map s !! 0) ->
     exists p50 p99,
       rtt_p50_ms metrics' = Fin (inject_Z p50) /\
       rtt_p99_ms metrics' = Fin (inject_Z p99) /\ p50 <= p99).
Proof.
  apply update_metrics_defined_after_run.
  repeat constructor; cbn; lia.
Defined.

Lemma lookup_or_create_size {V} (max_entries : Z) (zero : V)
    (m m' : gmap Z V) (k : Z) (v : V) :
  Z.of_nat (size m) <= max_entries ->
  lookup_or_create max_entries zero m k = Some (v, m') ->
  m' !! k = Some v /\
  Z.of_nat (size m') <= max_entries /\
  forall v', Z.of_nat (size (<[k := v']> m')) <= max_entries.
Proof.
  intros Hsize. rewrite lookup_or_create_spec.
  destruct (m !! k) as [w|] eqn:Hk.
  - intros [= <- <-]. split; [exact Hk|]. split; [exact Hsize|].
    intros v'. rewrite map_size_insert_Some by eauto. exact Hsize.
  - destruct (Z.ltb_spec (Z.of_nat (size m)) max_entries) as [Hroom|];
      [|discriminate].
    intros [= <- <-]. split; [apply lookup_insert_eq|].
    assert (Hnew : Z.of_nat (size (<[k := zero]> m)) <= max_entries)
      by (rewrite map_size_insert_None by exact Hk; lia).
    split; [exact Hnew|].
    intros v'. rewrite map_size_insert_Some; [exact Hnew|].
    rewrite lookup_insert_eq. eauto.
Qed.

Lemma bpf_map_update_elem_size {V} (max_entries : Z) (m : gmap Z V) (k : Z) (v : V) :
  Z.of_nat (size m) <= max_entries ->
  Z.of_nat (size (bpf_map_update_elem max_entries m k v)) <= max_entries.
Proof.
  intros Hsize. unfold bpf_map_update_elem.
  destruct (m !! k) as [w|] eqn:Hk.
  - rewrite map_size_insert_Some by eauto. exact Hsize.
  - destruct (Z.ltb_spec (Z.of_nat (size m)) max_entries); [|exact Hsize].
    rewrite map_size_insert_None by exact Hk. lia.
Qed.

Lemma tables_bounded_step (c : callback) (s s' : bpf_maps) :
  True -> tables_bounded s -> invoke c s = Some s' -> tables_bounded s'.
Proof.
  intros _ (Hn & Hh & Hd) Hinv. unfold tables_bounded.
  destruct c as [sk h|h|reason h|pid adjacent h|next_pid h]; cbn [invoke] in Hinv.
  - unfold trace_tcp_ack in Hinv.
    destruct sk as [[srtt_us|]|]; try (injection Hinv as <-; auto).
    destruct (lookup_or_create MAX_NODES new_hist (rtt_hist_map s) (get_node_id h))
      as [[hs hm]|] eqn:Hloc; [|injection Hinv as <-; auto].
    destruct (lookup_or_create_size _ _ _ _ _ _ Hh Hloc) as (_ & Hhm & Hins).
    destruct (value_to_slot (u32 (Z.shiftr srtt_us 3) / 1000)) as [slot|];
      [|discriminate].
    cbn [mbind option_bind] in Hinv.
    assert (Hhm' : Z.of_nat (size (if (0 <=? slot) && (slot <? MAX_SLOTS)
                                   then <[get_node_id h := hist_add hs slot]> hm
                                   else hm)) <= MAX_NODES)
      by (destruct ((0 <=? slot) && (slot <? MAX_SLOTS)); auto).
    cbn [set_rtt_hist_map node_metrics_map] in Hinv.
    destruct (lookup_or_create MAX_NODES new_metrics (node_metrics_map s)
                (get_node_id h)) as [[metrics nm]|] eqn:Hlocm.
    + destruct (lookup_or_create_size _ _ _ _ _ _ Hn Hlocm) as (_ & _ & Hinsm).
      destruct (prandom_u32 h mod 100 =? 0); injection Hinv as <-;
        rewrite ?publish_node_metrics, ?publish_rtt_hist, ?publish_drop_reason;
        cbn; auto.
    + injection Hinv as <-. cbn. auto.
  - injection Hinv as <-. unfold trace_tcp_retrans.
    destruct (lookup_or_create MAX_NODES new_metrics (node_metrics_map s)
                (get_node_id h)) as [[metrics nm]|] eqn:Hlocm; [|auto].
    destruct (lookup_or_create_size _ _ _ _ _ _ Hn Hlocm) as (_ & _ & Hinsm).
    rewrite publish_node_metrics, publish_rtt_hist, publish_drop_reason.
    cbn. auto.
  - injection Hinv as <-. unfold trace_skb_drop.
    assert (Hd' : Z.of_nat (size match drop_reason_map s !! reason with
                                 | Some count =>
                                     <[reason := u64 (count + 1)]> (drop_reason_map s)
                                 | None =>
                                     bpf_map_update_elem 64 (drop_reason_map s) reason 1
                                 end) <= 64).
    { destruct (drop_reason_map s !! reason) eqn:Hr.
      - rewrite map_size_insert_Some by eauto. exact Hd.
      - apply bpf_map_update_elem_size, Hd. }
    cbn [set_drop_reason_map node_metrics_map].
    destruct (lookup_or_create MAX_NODES new_metrics (node_metrics_map s)
                (get_node_id h)) as [[metrics nm]|] eqn:Hlocm; [|cbn; auto].
    destruct (lookup_or_create_size _ _ _ _ _ _ Hn Hlocm) as (_ & _ & Hinsm).
    destruct (prandom_u32 h mod 10 =? 0);
      rewrite ?publish_node_metrics, ?publish_rtt_hist, ?publish_drop_reason;
      cbn; auto.
  - injection Hinv as <-. unfold trace_sched_wakeup. cbn.
    split; [apply bpf_map_update_elem_size, Hn | auto].
  - injection Hinv as <-. unfold trace_sched_switch.
    destruct (node_metrics_map s !! next_pid) as [w|]; [|auto].
    destruct (lookup_or_create MAX_NODES new_metrics (node_metrics_map s)
                (get_node_id h)) as [[metrics nm]|] eqn:Hlocm; [|auto].
    destruct (lookup_or_create_size _ _ _ _ _ _ Hn Hlocm) as (_ & _ & Hinsm).
    cbn. split; [|auto].
    specialize (Hinsm (with_runqlat metrics
                         (u32 (u64 (ktime_get_ns h - rtt_sum w) / 1000000))
                         (ktime_get_ns h))).
    rewrite map_size_delete.
    destruct (_ !! next_pid); cbn; unfold with_runqlat in Hinsm; lia.
Qed.

(** X8: no callback ever takes a table beyond its [max_entries]: from
    tables within 256 node records, 256 histograms and 64 drop reasons,
    every trace runs to its end and leaves them within these limits. *)
Theorem tables_stay_bounded (cs : list callback) (s : bpf_maps) :
  tables_bounded s ->
  exists s', run cs s = Some s' /\ tables_bounded s'.
Proof.
  intros Hs.
  apply (run_invariant (fun _ => True) tables_bounded tables_bounded_step cs s);
    [|exact Hs].
  apply Forall_forall. auto.
Qed.

Lemma tables_stay_bounded_witness :
  exists s',
    run [kfree_skb 2 (helpers_on 3 1000); sched_wakeup 700 new_metrics (helpers_on 3 2000)]
      empty_maps = Some s' /\
    tables_bounded s'.
Proof.
  apply tables_stay_bounded. unfold tables_bounded. cbn.
  rewrite !map_size_empty. unfold MAX_NODES. lia.
Defined.

Lemma publish_events (h : helpers) (e : telemetry_event) (s : bpf_maps) :
  events (publish h e s) = events s ++ (if ringbuf_room h then [e] else []).
Proof.
  unfold publish. destruct (ringbuf_room h); cbn; [reflexivity|].
  symmetry. apply app_nil_r.
Qed.

(** What one invocation appends to the ring buffer: nothing, or one
    record of type 1, 2 or 3 from the invoking node. *)
Lemma invoke_events (c : callback) (s s' : bpf_maps) :
  invoke c s = Some s' ->
  exists new, events s' = events s ++ new /\ Forall event_ok new /\
              (length new <= 1)%nat /\
              (network_callback c = false -> new = []).
Proof.
  assert (Hnil : forall s0 : bpf_maps, events s0 = events s ->
            exists new, events s0 = events s ++ new /\ Forall event_ok new /\
                        (length new <= 1)%nat /\
                        (network_callback c = false -> new = [])).
  { intros s0 H0. exists []. rewrite app_nil_r. cbn. auto. }
  assert (Hpub : forall h e (s0 : bpf_maps), events s0 = events s ->
            event_ok e -> network_callback c = true ->
            exists new, events (publish h e s0) = events s ++ new /\
                        Forall event_ok new /\
                        (length new <= 1)%nat /\
                        (network_callback c = false -> new = [])).
  { intros h e s0 H0 He Hc. rewrite publish_events, H0.
    eexists. split; [reflexivity|].
    split; [destruct (ringbuf_room h); auto|].
    split; [destruct (ringbuf_room h); cbn; lia | congruence]. }
  destruct c as [sk h|h|reason h|pid adjacent h|next_pid h]; cbn [invoke].
  - unfold trace_tcp_ack.
    destruct sk as [[srtt_us|]|]; try (intros [= <-]; auto).
    destruct (lookup_or_create MAX_NODES new_hist (rtt_hist_map s) (get_node_id h))
      as [[hs hm]|]; [|intros [= <-]; auto].
    destruct (value_to_slot (u32 (Z.shiftr srtt_us 3) / 1000)) as [slot|];
      [|discriminate].
    cbn [mbind option_bind].
    destruct (lookup_or_create MAX_NODES new_metrics _ (get_node_id h))
      as [[metrics nm]|]; [|intros [= <-]; auto].
    destruct (prandom_u32 h mod 100 =? 0); intros [= <-]; [|auto].
    apply Hpub; [reflexivity | | reflexivity].
    split; [cbn; auto | apply get_node_id_range].
  - intros [= <-]. unfold trace_tcp_retrans.
    destruct (lookup_or_create MAX_NODES new_metrics _ (get_node_id h))
      as [[metrics nm]|]; [|auto].
    apply Hpub; [reflexivity | | reflexivity].
    split; [cbn; auto | apply get_node_id_range].
  - intros [= <-]. unfold trace_skb_drop.
    destruct (lookup_or_create MAX_NODES new_metrics _ (get_node_id h))
      as [[metrics nm]|]; [|auto].
    destruct (prandom_u32 h mod 10 =? 0); [|auto].
    apply Hpub; [reflexivity | | reflexivity].
    split; [cbn; auto | apply get_node_id_range].
  - intros [= <-]. auto.
  - intros [= <-]. unfold trace_sched_switch.
    destruct (node_metrics_map s !! next_pid) as [w|]; [|auto].
    destruct (lookup_or_create MAX_NODES new_metrics _ (get_node_id h))
      as [[metrics nm]|]; auto.
Qed.

Lemma event_ok_handled (e : telemetry_event) :
  event_ok e ->
  exists line, handle_event e = (Some line, 0) /\
               forall node value, line <> debug_runqlat node value.
Proof.
  intros [[H|[H|H]] _]; unfold handle_event; rewrite H;
    eexists; (split; [reflexivity | discriminate]).
Qed.

(** X9: the ring buffer is append-only under the callbacks, at most one
    record per invocation, and every record added has type 1, 2 or 3 and a
    node id from 0 to 7.  [handle_event] therefore prints a line for each
    of them and never the run-queue line of type 4, which no callback
    publishes. *)
Theorem published_events (cs : list callback) :
  forall s,
  exists s' new,
    run cs s = Some s' /\
    events s' = events s ++ new /\
    (length new <= length cs)%nat /\
    Forall event_ok new /\
    Forall (fun e => exists line, handle_event e = (Some line, 0) /\
                       forall node value, line <> debug_runqlat node value) new.
Proof.
  induction cs as [|c cs IH]; intros s; cbn [run].
  - exists s, []. rewrite app_nil_r. repeat split; auto.
  - destruct (invoke_total c s) as [s1 Hs1]. rewrite Hs1.
    cbn [mbind option_bind].
    destruct (invoke_events c s s1 Hs1) as (new1 & He1 & Hok1 & Hlen1 & _).
    destruct (IH s1) as (s' & new & Hrun & He & Hlen & Hok & Hh).
    exists s', (new1 ++ new). split; [exact Hrun|].
    split; [rewrite He, He1, app_assoc; reflexivity|].
    split; [rewrite length_app; cbn [length]; lia|].
    split; [apply Forall_app; auto|].
    apply Forall_app. split; [|exact Hh].
    eapply Forall_impl; [exact Hok1|]. apply event_ok_handled.
Qed.

End table_invariants.

(** ** What one invocation does to the tables *)

Section callback_effects.

(** When the key is present, or absent with room left, the create-on-miss
    sequence yields the stored value or the fresh one, and a later store
    under the key gives the same table as a store into the original. *)
Lemma lookup_or_create_default {V} (max_entries : Z) (zero : V)
    (m : gmap Z V) (k : Z) :
  is_Some (m !! k) \/ Z.of_nat (size m) < max_entries ->
  exists m',
    lookup_or_create max_entries zero m k = Some (default zero (m !! k), m') /\
    forall v, <[k := v]> m' = <[k := v]> m.
Proof.
  intros Hk. rewrite lookup_or_create_spec.
  destruct (m !! k) as [w|] eqn:Hlook.
  - exists m. split; reflexivity.
  - destruct Hk as [[w Hw]|Hroom]; [discriminate|].
    destruct (Z.ltb_spec (Z.of_nat (size m)) max_entries); [|lia].
    exists (<[k := zero]> m). split; [reflexivity|].
    intros v. apply insert_insert_eq.
Qed.

Lemma lookup_or_create_full {V} (max_entries : Z) (zero : V)
    (m : gmap Z V) (k : Z) :
  m !! k = None -> max_entries <= Z.of_nat (size m) ->
  lookup_or_create max_entries zero m k = None.
Proof.
  intros Hk Hfull. rewrite lookup_or_create_spec, Hk.
  destruct (Z.ltb_spec (Z.of_nat (size m)) max_entries); [lia | reflexivity].
Qed.

Lemma rtt_ms_slot (srtt_us : Z) :
  0 <= srtt_us < 2 ^ 32 ->
  let rtt_ms := Z.shiftr srtt_us 3 / 1000 in
  u32 (Z.shiftr srtt_us 3) / 1000 = rtt_ms /\
  0 <= rtt_ms < 2 ^ 20 /\
  value_to_slot rtt_ms = Some (if rtt_ms =? 0 then 0 else Z.log2 rtt_ms) /\
  0 <= (if rtt_ms =? 0 then 0 else Z.log2 rtt_ms) <= 19.
Proof.
  intros Hs rtt_ms.
  assert (Hsh : 0 <= Z.shiftr srtt_us 3 < 2 ^ 29).
  { rewrite Z.shiftr_div_pow2 by lia. split; [apply Z.div_pos; lia|].
    apply Z.div_lt_upper_bound; lia. }
  assert (Hms : 0 <= rtt_ms < 2 ^ 20).
  { unfold rtt_ms. split; [apply Z.div_pos; lia|].
    apply Z.div_lt_upper_bound; lia. }
  split; [unfold u32; rewrite Z.mod_small by lia; reflexivity|].
  split; [exact Hms|].
  destruct (Z.eqb_spec rtt_ms 0) as [->|Hne].
  - split; [reflexivity | lia].
  - assert (Z.log2 rtt_ms < 20) by (apply Z.log2_lt_pow2; lia).
    pose proof (Z.log2_nonneg rtt_ms).
    split; [|lia]. rewrite value_to_slot_log2 by lia. f_equal. lia.
Qed.

Lemma trace_tcp_ack_effect (srtt_us : Z) (h : helpers) (s : bpf_maps) :
  0 <= srtt_us < 2 ^ 32 ->
  is_Some (rtt_hist_map s !! get_node_id h)
    \/ Z.of_nat (size (rtt_hist_map s)) < MAX_NODES ->
  is_Some (node_metrics_map s !! get_node_id h)
    \/ Z.of_nat (size (node_metrics_map s)) < MAX_NODES ->
  (forall hs, rtt_hist_map s !! get_node_id h = Some hs ->
              length (slots hs) = Z.to_nat MAX_SLOTS) ->
  let rtt_ms := Z.shiftr srtt_us 3 / 1000 in
  let slot := if rtt_ms =? 0 then 0 else Z.log2 rtt_ms in
  let hs := default new_hist (rtt_hist_map s !! get_node_id h) in
  let m := default new_metrics (node_metrics_map s !! get_node_id h) in
  exists s',
    trace_tcp_ack (Some (Some srtt_us)) h s = Some s' /\
    rtt_hist_map s' = <[get_node_id h := hist_add hs slot]> (rtt_hist_map s) /\
    slot_at (hist_add hs slot) slot = u32 (slot_at hs slot + 1) /\
    (forall i, 0 <= i -> i <> slot -> slot_at (hist_add hs slot) i = slot_at hs i) /\
    node_metrics_map s'
    = <[get_node_id h := with_rtt m rtt_ms (ktime_get_ns h)]> (node_metrics_map s) /\
    drop_reason_map s' = drop_reason_map s /\
    events s'
    = events s ++
      (if (prandom_u32 h mod 100 =? 0) && ringbuf_room h
       then [{| ev_node_id := get_node_id h; ev_event_type := 1;
                ev_value := rtt_ms; ev_timestamp := ktime_get_ns2 h;
                ev_extra_data := 0 |}]
       else []).
Proof.
  intros Hsrtt Hhist Hnode Hlen rtt_ms slot hs m.
  destruct (rtt_ms_slot srtt_us Hsrtt) as (Hrtt & Hms & Hslot & Hrange).
  fold rtt_ms in Hrtt, Hms, Hslot, Hrange. fold slot in Hslot, Hrange.
  destruct (lookup_or_create_default MAX_NODES new_hist _ _ Hhist)
    as (hm & Hloc & Hins).
  destruct (lookup_or_create_default MAX_NODES new_metrics _ _ Hnode)
    as (nm & Hlocm & Hinsm).
  fold hs in Hloc. fold m in Hlocm.
  assert (Hguard : (0 <=? slot) && (slot <? MAX_SLOTS) = true).
  { unfold MAX_SLOTS. destruct (Z.leb_spec 0 slot); [|lia].
    destruct (Z.ltb_spec slot 64); [reflexivity | lia]. }
  assert (Hhs : length (slots hs) = Z.to_nat MAX_SLOTS).
  { unfold hs. destruct (rtt_hist_map s !! get_node_id h) as [hs0|] eqn:Hh.
    - apply Hlen. reflexivity.
    - apply length_replicate. }
  unfold trace_tcp_ack. rewrite Hloc, Hrtt, Hslot.
  cbn [mbind option_bind]. rewrite Hguard.
  cbn [set_rtt_hist_map node_metrics_map]. rewrite Hlocm.
  eexists. split; [reflexivity|].
  rewrite Hins.
  split; [destruct (prandom_u32 h mod 100 =? 0);
          rewrite ?publish_rtt_hist; reflexivity|].
  split.
  { unfold slot_at, hist_add. cbn [slots].
    rewrite list_lookup_total_alter_eq; [reflexivity|].
    rewrite Hhs. unfold MAX_SLOTS. lia. }
  split.
  { intros i Hi Hne. unfold slot_at, hist_add. cbn [slots].
    apply list_lookup_total_alter_ne. lia. }
  split; [destruct (prandom_u32 h mod 100 =? 0);
          rewrite ?publish_node_metrics; cbn [set_node_metrics_map node_metrics_map];
          apply Hinsm|].
  split; [destruct (prandom_u32 h mod 100 =? 0);
          rewrite ?publish_drop_reason; reflexivity|].
  destruct (prandom_u32 h mod 100 =? 0); cbn [andb].
  - rewrite publish_events. reflexivity.
  - cbn. symmetry. apply app_nil_r.
Qed.

(** X10: an ACK whose smoothed RTT can be read, on a node whose histogram
    and record exist or can still be created, counts the sample once in
    each table: bucket [floor (log2 rtt_ms)] (bucket 0 for 0 ms) of the
    node's histogram goes up by one and no other bucket changes, [rtt_sum]
    grows by [rtt_ms] and [rtt_count] by one; the drop reasons are left
    alone, and the ring buffer gets one record of type 1 when the random
    draw is a multiple of 100 and the buffer has room. *)
Theorem trace_tcp_ack_observes (srtt_us : Z) (h : helpers) (s : bpf_maps) :
  0 <= srtt_us < 2 ^ 32 ->
  is_Some (rtt_hist_map s !! get_node_id h)
    \/ Z.of_nat (size (rtt_hist_map s)) < MAX_NODES ->
  is_Some (node_metrics_map s !! get_node_id h)
    \/ Z.of_nat (size (node_metrics_map s)) < MAX_NODES ->
  (forall hs, rtt_hist_map s !! get_node_id h = Some hs ->
              length (slots hs) = Z.to_nat MAX_SLOTS) ->
  let rtt_ms := Z.shiftr srtt_us 3 / 1000 in
  let slot := if rtt_ms =? 0 then 0 else Z.log2 rtt_ms in
  let hs := default new_hist (rtt_hist_map s !! get_node_id h) in
  let m := default new_metrics (node_metrics_map s !! get_node_id h) in
  exists s',
    trace_tcp_ack (Some (Some srtt_us)) h s = Some s' /\
    rtt_hist_map s' = <[get_node_id h := hist_add hs slot]> (rtt_hist_map s) /\
    slot_at (hist_add hs slot) slot = u32 (slot_at hs slot + 1) /\
    (forall i, 0 <= i -> i <> slot -> slot_at (hist_add hs slot) i = slot_at hs i) /\
    node_metrics_map s'
    = <[get_node_id h := with_rtt m rtt_ms (ktime_get_ns h)]> (node_metrics_map s) /\
    drop_reason_map s' = drop_reason_map s /\
    events s'
    = events s ++
      (if (prandom_u32 h mod 100 =? 0) && ringbuf_room h
       then [{| ev_node_id := get_node_id h; ev_event_type := 1;
                ev_value := rtt_ms; ev_timestamp := ktime_get_ns2 h;
                ev_extra_data := 0 |}]
       else []).
Proof. apply trace_tcp_ack_effect. Qed.

Lemma trace_tcp_ack_observes_witness :
  exists s',
    trace_tcp_ack (Some (Some 80000)) (helpers_on 1 1000) empty_maps = Some s' /\
    node_metrics_map s'
    = <[1 := with_rtt new_metrics 10 1000]> (node_metrics_map empty_maps).
Proof.
  destruct (trace_tcp_ack_observes 80000 (helpers_on 1 1000) empty_maps)
    as (s' & Hs' & _ & _ & _ & Hn & _).
  - lia.
  - right. cbn. rewrite map_size_empty. unfold MAX_NODES. lia.
  - right. cbn. rewrite map_size_empty. unfold MAX_NODES. lia.
  - intros hs Hhs. cbn in Hhs. rewrite lookup_empty in Hhs. discriminate.
  - exists s'. split; [exact Hs' | exact Hn].
Defined.

Lemma trace_tcp_retrans_effect (h : helpers) (s : bpf_maps) :
  is_Some (node_metrics_map s !! get_node_id h)
    \/ Z.of_nat (size (node_metrics_map s)) < MAX_NODES ->
  let m := default new_metrics (node_metrics_map s !! get_node_id h) in
  trace_tcp_retrans h s
  = {| node_metrics_map :=
         <[get_node_id h := with_retrans m (ktime_get_ns h)]> (node_metrics_map s);
       rtt_hist_map := rtt_hist_map s;
       drop_reason_map := drop_reason_map s;
       events :=
         events s ++
         (if ringbuf_room h
          then [{| ev_node_id := get_node_id h; ev_event_type := 2;
                   ev_value := 1; ev_timestamp := ktime_get_ns2 h;
                   ev_extra_data := 0 |}]
          else []) |}.
Proof.
  intros Hnode m.
  destruct (lookup_or_create_default MAX_NODES new_metrics _ _ Hnode)
    as (nm & Hlocm & Hinsm).
  fold m in Hlocm. unfold trace_tcp_retrans. rewrite Hlocm, Hinsm.
  unfold publish. destruct (ringbuf_room h); cbn.
  - reflexivity.
  - rewrite app_nil_r. reflexivity.
Qed.

(** X11: a retransmission on a node whose record exists or can still be
    created adds one to [retrans_count], stamps the record and leaves its
    other counters and the other tables alone; the event is not sampled:
    one record of type 2 is published whenever the buffer has room. *)
Theorem trace_tcp_retrans_counts (h : helpers) (s : bpf_maps) :
  is_Some (node_metrics_map s !! get_node_id h)
    \/ Z.of_nat (size (node_metrics_map s)) < MAX_NODES ->
  let m := default new_metrics (node_metrics_map s !! get_node_id h) in
  trace_tcp_retrans h s
  = {| node_metrics_map :=
         <[get_node_id h := with_retrans m (ktime_get_ns h)]> (node_metrics_map s);
       rtt_hist_map := rtt_hist_map s;
       drop_reason_map := drop_reason_map s;
       events :=
         events s ++
         (if ringbuf_room h
          then [{| ev_node_id := get_node_id h; ev_event_type := 2;
                   ev_value := 1; ev_timestamp := ktime_get_ns2 h;
                   ev_extra_data := 0 |}]
          else []) |}.
Proof. apply trace_tcp_retrans_effect. Qed.

Lemma trace_tcp_retrans_counts_witness :
  node_metrics_map (trace_tcp_retrans (helpers_on 0 1000) empty_maps) !! 0
  = Some (with_retrans new_metrics 1000).
Proof.
  rewrite trace_tcp_retrans_counts.
  - cbn. apply lookup_insert_eq.
  - right. cbn. rewrite map_size_empty. unfold MAX_NODES. lia.
Defined.

Lemma trace_skb_drop_effect (reason : Z) (h : helpers) (s : bpf_maps) :
  is_Some (drop_reason_map s !! reason)
    \/ Z.of_nat (size (drop_reason_map s)) < 64 ->
  is_Some (node_metrics_map s !! get_node_id h)
    \/ Z.of_nat (size (node_metrics_map s)) < MAX_NODES ->
  let m := default new_metrics (node_metrics_map s !! get_node_id h) in
  let count :=
    match drop_reason_map s !! reason with
    | Some c => u64 (c + 1)
    | None => 1
    end in
  trace_skb_drop reason h s
  = {| node_metrics_map :=
         <[get_node_id h := with_drop m (ktime_get_ns h)]> (node_metrics_map s);
       rtt_hist_map := rtt_hist_map s;
       drop_reason_map := <[reason := count]> (drop_reason_map s);
       events :=
         events s ++
         (if (prandom_u32 h mod 10 =? 0) && ringbuf_room h
          then [{| ev_node_id := get_node_id h; ev_event_type := 3;
                   ev_value := 1; ev_timestamp := ktime_get_ns2 h;
                   ev_extra_data := reason |}]
          else []) |}.
Proof.
  intros Hreason Hnode m count.
  destruct (lookup_or_create_default MAX_NODES new_metrics _ _ Hnode)
    as (nm & Hlocm & Hinsm).
  fold m in Hlocm. unfold trace_skb_drop.
  cbn [set_drop_reason_map node_metrics_map]. rewrite Hlocm, Hinsm.
  assert (Hdm : match drop_reason_map s !! reason with
                | Some c => <[reason := u64 (c + 1)]> (drop_reason_map s)
                | None => bpf_map_update_elem 64 (drop_reason_map s) reason 1
                end = <[reason := count]> (drop_reason_map s)).
  { unfold count, bpf_map_update_elem.
    destruct (drop_reason_map s !! reason) as [c|] eqn:Hr; [reflexivity|].
    destruct Hreason as [[c Hc]|Hroom]; [discriminate|].
    destruct (Z.ltb_spec (Z.of_nat (size (drop_reason_map s))) 64);
      [reflexivity | lia]. }
  rewrite Hdm. unfold publish.
  destruct (prandom_u32 h mod 10 =? 0); [destruct (ringbuf_room h)|]; cbn;
    rewrite ?app_nil_r; reflexivity.
Qed.

(** X12: a dropped packet, on a node whose record exists or can still be
    created and with a reason that is known or can still be added, adds
    one to the reason's count (starting it at 1) and one to the node's
    [drop_count]; one record of type 3 carrying the reason is published
    when the random draw is a multiple of 10 and the buffer has room. *)
Theorem trace_skb_drop_counts (reason : Z) (h : helpers) (s : bpf_maps) :
  is_Some (drop_reason_map s !! reason)
    \/ Z.of_nat (size (drop_reason_map s)) < 64 ->
  is_Some (node_metrics_map s !! get_node_id h)
    \/ Z.of_nat (size (node_metrics_map s)) < MAX_NODES ->
  let m := default new_metrics (node_metrics_map s !! get_node_id h) in
  let count :=
    match drop_reason_map s !! reason with
    | Some c => u64 (c + 1)
    | None => 1
    end in
  trace_skb_drop reason h s
  = {| node_metrics_map :=
         <[get_node_id h := with_drop m (ktime_get_ns h)]> (node_metrics_map s);
       rtt_hist_map := rtt_hist_map s;
       drop_reason_map := <[reason := count]> (drop_reason_map s);
       events :=
         events s ++
         (if (prandom_u32 h mod 10 =? 0) && ringbuf_room h
          then [{| ev_node_id := get_node_id h; ev_event_type := 3;
                   ev_value := 1; ev_timestamp := ktime_get_ns2 h;
                   ev_extra_data := reason |}]
          else []) |}.
Proof. apply trace_skb_drop_effect. Qed.

Lemma trace_skb_drop_counts_witness :
  drop_reason_map (trace_skb_drop 2 (helpers_on 3 1000) empty_maps) !! 2 = Some 1.
Proof.
  rewrite trace_skb_drop_counts.
  - cbn. apply lookup_insert_eq.
  - right. cbn. rewrite map_size_empty. lia.
  - right. cbn. rewrite map_size_empty. unfold MAX_NODES. lia.
Defined.

(** X13: once the reason table holds 64 reasons, a drop with a further
    reason is not recorded there at all, while the node's [drop_count]
    still counts it: the per-reason counts then sum to less than the
    drops. *)
Theorem trace_skb_drop_reason_table_full (reason : Z) (h : helpers) (s : bpf_maps) :
  drop_reason_map s !! reason = None ->
  64 <= Z.of_nat (size (drop_reason_map s)) ->
  is_Some (node_metrics_map s !! get_node_id h)
    \/ Z.of_nat (size (node_metrics_map s)) < MAX_NODES ->
  let m := default new_metrics (node_metrics_map s !! get_node_id h) in
  drop_reason_map (trace_skb_drop reason h s) = drop_reason_map s /\
  node_metrics_map (trace_skb_drop reason h s) !! get_node_id h
  = Some (with_drop m (ktime_get_ns h)).
Proof.
  intros Hr Hfull Hnode m.
  destruct (lookup_or_create_default MAX_NODES new_metrics _ _ Hnode)
    as (nm & Hlocm & Hinsm).
  fold m in Hlocm. unfold trace_skb_drop.
  cbn [set_drop_reason_map node_metrics_map]. rewrite Hlocm, Hinsm, Hr.
  unfold bpf_map_update_elem. rewrite Hr.
  destruct (Z.ltb_spec (Z.of_nat (size (drop_reason_map s))) 64); [lia|].
  destruct (prandom_u32 h mod 10 =? 0);
    rewrite ?publish_drop_reason, ?publish_node_metrics; cbn;
    (split; [reflexivity | apply lookup_insert_eq]).
Qed.

Lemma trace_skb_drop_reason_table_full_witness :
  drop_reason_map
    (trace_skb_drop 64 (helpers_on 0 1000)
       (set_drop_reason_map empty_maps
          (list_to_map (map (fun r => (Z.of_nat r, 1)) (seq 0 64)))))
  = list_to_map (map (fun r => (Z.of_nat r, 1)) (seq 0 64)).
Proof.
  refine (proj1 (trace_skb_drop_reason_table_full 64 (helpers_on 0 1000)
                   (set_drop_reason_map empty_maps
                      (list_to_map (map (fun r => (Z.of_nat r, 1)) (seq 0 64))))
                   _ _ _)).
  - vm_compute. reflexivity.
  - vm_compute. discriminate.
  - right. cbn. rewrite map_size_empty. unfold MAX_NODES. lia.
Defined.

(** X14: once the node table holds 256 entries and the node has none, its
    network callbacks record nothing for it: a retransmission leaves every
    table and the ring buffer as they were, and a drop or an ACK leaves the
    node table and the ring buffer as they were. *)
Theorem node_table_full_drops_updates (h : helpers) (s : bpf_maps) :
  node_metrics_map s !! get_node_id h = None ->
  MAX_NODES <= Z.of_nat (size (node_metrics_map s)) ->
  trace_tcp_retrans h s = s /\
  (forall reason,
     node_metrics_map (trace_skb_drop reason h s) = node_metrics_map s /\
     events (trace_skb_drop reason h s) = events s) /\
  (forall sk, exists s',
     trace_tcp_ack sk h s = Some s' /\
     node_metrics_map s' = node_metrics_map s /\ events s' = events s).
Proof.
  intros Hnone Hfull.
  pose proof (lookup_or_create_full MAX_NODES new_metrics _ _ Hnone Hfull) as Hloc.
  split; [unfold trace_tcp_retrans; rewrite Hloc; reflexivity|].
  split.
  - intros reason. unfold trace_skb_drop.
    cbn [set_drop_reason_map node_metrics_map]. rewrite Hloc. split; reflexivity.
  - intros sk. unfold trace_tcp_ack.
    destruct sk as [[srtt_us|]|]; try (eexists; repeat split; reflexivity).
    destruct (lookup_or_create MAX_NODES new_hist (rtt_hist_map s) (get_node_id h))
      as [[hs hm]|]; [|eexists; repeat split; reflexivity].
    destruct (value_to_slot_some (u32 (Z.shiftr srtt_us 3) / 1000))
      as (slot & -> & _).
    cbn [mbind option_bind set_rtt_hist_map node_metrics_map]. rewrite Hloc.
    eexists. repeat split; reflexivity.
Qed.

Lemma node_table_full_drops_updates_witness :
  trace_tcp_retrans (helpers_on 0 2000)
    (set_node_metrics_map empty_maps
       (list_to_map (map (fun pid => (Z.of_nat pid + 8, new_metrics)) (seq 0 256))))
  = set_node_metrics_map empty_maps
      (list_to_map (map (fun pid => (Z.of_nat pid + 8, new_metrics)) (seq 0 256))).
Proof.
  refine (proj1 (node_table_full_drops_updates (helpers_on 0 2000)
                   (set_node_metrics_map empty_maps
                      (list_to_map (map (fun pid => (Z.of_nat pid + 8, new_metrics))
                                      (seq 0 256))))
                   _ _)).
  - vm_compute. reflexivity.
  - vm_compute. discriminate.
Defined.

(** X15: the intended use of the wake-up stash.  For a process id that is
    not in the node table and differs from the node id of the processor it
    is switched in on, a wake-up at [ts1] followed by the switch at [ts2]
    adds the waiting time in whole milliseconds to the node's
    [runqlat_sum] and one to its [runqlat_count], stamps the record with
    [ts2], and removes the stash again, so that the node table ends up as
    it was except for that node's record. *)
Theorem wakeup_then_switch (pid : Z) (adjacent : node_metrics)
    (h1 h2 : helpers) (s : bpf_maps) :
  node_metrics_map s !! pid = None ->
  pid <> get_node_id h2 ->
  0 <= ktime_get_ns h1 <= ktime_get_ns h2 -> ktime_get_ns h2 < 2 ^ 64 ->
  (is_Some (node_metrics_map s !! get_node_id h2)
   /\ Z.of_nat (size (node_metrics_map s)) < MAX_NODES)
  \/ Z.of_nat (size (node_metrics_map s)) + 1 < MAX_NODES ->
  let m := default new_metrics (node_metrics_map s !! get_node_id h2) in
  let latency_ms := u32 ((ktime_get_ns h2 - ktime_get_ns h1) / 1000000) in
  trace_sched_switch pid h2 (trace_sched_wakeup pid adjacent h1 s)
  = set_node_metrics_map s
      (<[get_node_id h2 := with_runqlat m latency_ms (ktime_get_ns h2)]>
         (node_metrics_map s)).
Proof.
  intros Hpid Hne Hts Hmax Hroom m latency_ms.
  assert (Hsize : Z.of_nat (size (node_metrics_map s)) < MAX_NODES)
    by (destruct Hroom as [[_ H]|H]; lia).
  unfold trace_sched_wakeup, bpf_map_update_elem. rewrite Hpid.
  destruct (Z.ltb_spec (Z.of_nat (size (node_metrics_map s))) MAX_NODES)
    as [_|Hge]; [|lia].
  unfold trace_sched_switch.
  cbn [set_node_metrics_map node_metrics_map rtt_hist_map drop_reason_map events].
  rewrite lookup_insert_eq. cbn [rtt_sum].
  rewrite u64_small by lia.
  set (stashed := <[pid := _]> (node_metrics_map s)).
  assert (Hnode : is_Some (stashed !! get_node_id h2)
                  \/ Z.of_nat (size stashed) < MAX_NODES).
  { unfold stashed. rewrite lookup_insert_ne by exact Hne.
    rewrite map_size_insert_None by exact Hpid.
    destruct Hroom as [[H _]|H]; [left; exact H | right; lia]. }
  destruct (lookup_or_create_default MAX_NODES new_metrics _ _ Hnode)
    as (nm & Hlocm & Hinsm).
  assert (Hm : default new_metrics (stashed !! get_node_id h2) = m)
    by (unfold stashed, m; rewrite lookup_insert_ne by exact Hne; reflexivity).
  rewrite Hm in Hlocm. rewrite Hlocm, Hinsm.
  unfold set_node_metrics_map, with_runqlat. f_equal.
  unfold stashed. rewrite insert_insert_ne by congruence.
  rewrite delete_insert_eq. apply delete_id.
  rewrite lookup_insert_ne by congruence. exact Hpid.
Qed.

Lemma wakeup_then_switch_witness :
  trace_sched_switch 700 (helpers_on 2 5000000)
    (trace_sched_wakeup 700 new_metrics (helpers_on 2 1000000) empty_maps)
  = set_node_metrics_map empty_maps
      (<[2 := with_runqlat new_metrics 4 5000000]> (node_metrics_map empty_maps)).
Proof.
  apply (wakeup_then_switch 700 new_metrics (helpers_on 2 1000000)
           (helpers_on 2 5000000) empty_maps).
  - reflexivity.
  - vm_compute. discriminate.
  - cbn. lia.
  - cbn. lia.
  - right. cbn. rewrite map_size_empty. unfold MAX_NODES. lia.
Defined.

End callback_effects.

(** ** Ticks in sequence *)

Section tick_facts.

(** What a defined call of [update_metrics] returns, block by block. *)
Lemma update_metrics_blocks (metrics metrics' : prometheus_metrics)
    (st st' : statics) (maps : bpf_maps) (node_id : Z) (env : tick_env) :
  update_metrics metrics st maps node_id env = Defined (metrics', st') ->
  let r := read_node_metrics metrics st (node_metrics_map maps !! node_id)
             (time_first env) in
  st' = snd r /\
  tcp_retrans_rate metrics' = tcp_retrans_rate (fst r) /\
  drop_rate metrics' = drop_rate (fst r) /\
  runqlat_p95_ms metrics' = runqlat_p95_ms (fst r) /\
  node_name metrics' = node_name metrics /\
  cpu_utilization metrics' = get_cpu_utilization (proc_stat env) /\
  last_update metrics' = time_last env.
Proof.
  unfold update_metrics.
  assert (Hname : node_name (fst (read_node_metrics metrics st
                    (node_metrics_map maps !! node_id) (time_first env)))
                  = node_name metrics).
  { unfold read_node_metrics.
    destruct (node_metrics_map maps !! node_id) as [d|]; [|reflexivity].
    destruct (0 <? prev_time st); [destruct (0 <? time_first env - prev_time st)|];
      destruct (0 <? runqlat_count d); reflexivity. }
  destruct (read_node_metrics metrics st (node_metrics_map maps !! node_id)
              (time_first env)) as [metrics1 st1].
  cbn [fst snd] in *. unfold read_rtt_hist.
  destruct (rtt_hist_map maps !! node_id) as [hs|].
  - destruct (calculate_percentile hs 50) as [p50|]; [|discriminate].
    destruct (calculate_percentile hs 99) as [p99|]; [|discriminate].
    cbn. intros [= <- <-]. cbn. auto 10.
  - cbn. intros [= <- <-]. cbn. auto 10.
Qed.

(** X16: two ticks in a row.  The first tick of a run (no baseline yet,
    [prev_time = 0]) leaves both rates as they were and only records the
    counters as baseline; the tick after it reports, for counters that
    have not decreased, their increase divided by the seconds between the
    two ticks, e.g. 10 to 60 retransmissions over 5 seconds give 10 per
    second. *)
Theorem two_ticks_rate (metrics m1 m2 : prometheus_metrics) (st st1 st2 : statics)
    (maps1 maps2 : bpf_maps) (node_id : Z) (env1 env2 : tick_env)
    (d1 d2 : node_metrics) :
  node_metrics_map maps1 !! node_id = Some d1 ->
  node_metrics_map maps2 !! node_id = Some d2 ->
  update_metrics metrics st maps1 node_id env1 = Defined (m1, st1) ->
  update_metrics m1 st1 maps2 node_id env2 = Defined (m2, st2) ->
  0 < time_first env1 < time_first env2 ->
  0 <= retrans_count d1 <= retrans_count d2 -> retrans_count d2 < 2 ^ 64 ->
  0 <= drop_count d1 <= drop_count d2 -> drop_count d2 < 2 ^ 64 ->
  (prev_time st = 0 ->
   tcp_retrans_rate m1 = tcp_retrans_rate metrics /\
   drop_rate m1 = drop_rate metrics) /\
  double_is (tcp_retrans_rate m2)
    (inject_Z (retrans_count d2 - retrans_count d1)
     / inject_Z (time_first env2 - time_first env1)) /\
  double_is (drop_rate m2)
    (inject_Z (drop_count d2 - drop_count d1)
     / inject_Z (time_first env2 - time_first env1)).
Proof.
  intros Hd1 Hd2 Hu1 Hu2 Ht Hr Hrmax Hd Hdmax.
  apply update_metrics_blocks in Hu1. apply update_metrics_blocks in Hu2.
  cbn zeta in Hu1, Hu2. rewrite Hd1 in Hu1. rewrite Hd2 in Hu2.
  destruct Hu1 as (Hst1 & Hr1 & Hdr1 & _).
  destruct Hu2 as (_ & Hr2 & Hdr2 & _).
  split.
  - intros H0. rewrite Hr1, Hdr1. unfold read_node_metrics. rewrite H0.
    change (0 <? 0) with false. cbv iota.
    destruct (0 <? runqlat_count d1); split; reflexivity.
  - assert (Hprev : prev_retrans st1 = retrans_count d1 /\
                    prev_drops st1 = drop_count d1 /\
                    prev_time st1 = time_first env1).
    { rewrite Hst1. unfold read_node_metrics. cbn. auto. }
    destruct Hprev as (Hp1 & Hp2 & Hp3).
    rewrite Hr2, Hdr2. unfold read_node_metrics. rewrite Hp1, Hp2, Hp3.
    destruct (Z.ltb_spec 0 (time_first env1)); [|lia].
    destruct (Z.ltb_spec 0 (time_first env2 - time_first env1)); [|lia].
    destruct (0 <? runqlat_count d2); cbn [fst tcp_retrans_rate drop_rate double_is];
      rewrite !u64_small by lia; split; reflexivity.
Qed.

Lemma two_ticks_rate_witness :
  exists m1 st1 m2 st2,
    update_metrics (metrics_init "edge") statics_init
      (set_node_metrics_map empty_maps {[ 0 := with_retrans new_metrics 1 ]})
      0 {| time_first := 1000; proc_stat := fopen_failed; time_last := 1000 |}
    = Defined (m1, st1) /\
    update_metrics m1 st1
      (set_node_metrics_map empty_maps
         {[ 0 := with_retrans (with_retrans new_metrics 1) 1 ]})
      0 {| time_first := 1005; proc_stat := fopen_failed; time_last := 1005 |}
    = Defined (m2, st2) /\
    double_is (tcp_retrans_rate m2) (inject_Z (2 - 1) / inject_Z (1005 - 1000)).
Proof.
  pose (maps1 := set_node_metrics_map empty_maps {[ 0 := with_retrans new_metrics 1 ]}).
  pose (maps2 := set_node_metrics_map empty_maps
                   {[ 0 := with_retrans (with_retrans new_metrics 1) 1 ]}).
  pose (env1 := {| time_first := 1000; proc_stat := fopen_failed; time_last := 1000 |}).
  pose (env2 := {| time_first := 1005; proc_stat := fopen_failed; time_last := 1005 |}).
  assert (H1 : exists m1 st1,
            update_metrics (metrics_init "edge") statics_init maps1 0 env1
            = Defined (m1, st1)) by (eexists _, _; vm_compute; reflexivity).
  destruct H1 as (m1 & st1 & H1).
  assert (H2 : exists m2 st2, update_metrics m1 st1 maps2 0 env2 = Defined (m2, st2)).
  { pose proof H1 as H1'. vm_compute in H1'. injection H1' as <- <-.
    eexists _, _. vm_compute. reflexivity. }
  destruct H2 as (m2 & st2 & H2).
  exists m1, st1, m2, st2. split; [exact H1|]. split; [exact H2|].
  refine (proj1 (proj2 (two_ticks_rate (metrics_init "edge") m1 m2 statics_init
                          st1 st2 maps1 maps2 0 env1 env2
                          (with_retrans new_metrics 1)
                          (with_retrans (with_retrans new_metrics 1) 1)
                          eq_refl eq_refl H1 H2 _ _ _ _ _)));
    vm_compute; repeat split; (reflexivity || discriminate).
Defined.

(** X17: the gauge exported as the 95th percentile of the run-queue latency
    is the mean [runqlat_sum / runqlat_count] of the node's record, and a
    record without samples leaves the gauge at its previous value instead
    of dividing by zero. *)
Theorem runqlat_gauge_is_mean (metrics metrics' : prometheus_metrics)
    (st st' : statics) (maps : bpf_maps) (node_id : Z) (env : tick_env)
    (d : node_metrics) :
  node_metrics_map maps !! node_id = Some d ->
  update_metrics metrics st maps node_id env = Defined (metrics', st') ->
  (0 < runqlat_count d ->
   runqlat_p95_ms metrics'
   = Fin (inject_Z (runqlat_sum d) / inject_Z (runqlat_count d))) /\
  (runqlat_count d <= 0 -> runqlat_p95_ms metrics' = runqlat_p95_ms metrics).
Proof.
  intros Hd Hu. apply update_metrics_blocks in Hu. cbn zeta in Hu.
  rewrite Hd in Hu. destruct Hu as (_ & _ & _ & Hq & _). rewrite Hq.
  unfold read_node_metrics.
  split; intros Hc.
  - destruct (Z.ltb_spec 0 (runqlat_count d)); [|lia]. reflexivity.
  - destruct (Z.ltb_spec 0 (runqlat_count d)); [lia|].
    destruct (0 <? prev_time st);
      [destruct (0 <? time_first env - prev_time st)|]; reflexivity.
Qed.

Lemma runqlat_gauge_is_mean_witness :
  exists metrics' st',
    update_metrics (metrics_init "edge") statics_init
      (set_node_metrics_map empty_maps
         {[ 2 := with_runqlat (with_runqlat new_metrics 4 5) 8 9 ]})
      2 {| time_first := 1000; proc_stat := fopen_failed; time_last := 1000 |}
    = Defined (metrics', st') /\
    runqlat_p95_ms metrics' = Fin (inject_Z 12 / inject_Z 2).
Proof.
  pose (maps := set_node_metrics_map empty_maps
                  {[ 2 := with_runqlat (with_runqlat new_metrics 4 5) 8 9 ]}).
  pose (env := {| time_first := 1000; proc_stat := fopen_failed; time_last := 1000 |}).
  assert (Hu : exists metrics' st',
            update_metrics (metrics_init "edge") statics_init maps 2 env
            = Defined (metrics', st')) by (eexists _, _; vm_compute; reflexivity).
  destruct Hu as (metrics' & st' & Hu). exists metrics', st'.
  split; [exact Hu|].
  refine (proj1 (runqlat_gauge_is_mean (metrics_init "edge") metrics'
                   statics_init st' maps 2 env
                   (with_runqlat (with_runqlat new_metrics 4 5) 8 9)
                   eq_refl Hu) _).
  vm_compute. reflexivity.
Defined.

End tick_facts.

(** ** The loop as a whole *)

Section loop_more.

(** The ways one evaluation of the loop can end. *)
Lemma loop_body_cases (signal : option Z) (it : iteration) (s : main_state)
    (o : outcome) :
  loop_body signal it s = Defined o ->
  (o = Exited s /\ exiting signal (clock s) = true) \/
  (exists s', o = Exited s' /\ exiting signal (clock s) = false /\
     exported s' = exported s /\
     last_metrics_update s' = last_metrics_update s /\
     (err s' = 0 \/
      (err s' = poll_result it /\ poll_result it < 0 /\
       poll_result it <> - EINTR))) \/
  (exists s', o = Running s' /\ exiting signal (clock s) = false /\
     err s' = poll_result it /\ 0 <= poll_result it /\
     ((exported s' = exported s /\
       last_metrics_update s' = last_metrics_update s) \/
      (exists record, exported s' = exported s ++ [record] /\
         last_metrics_update s' = now it /\
         5 <= now it - last_metrics_update s))).
Proof.
  unfold loop_body.
  destruct (exiting signal (clock s)) eqn:Hex.
  { intros [= <-]. left. auto. }
  destruct (blocking signal (clock s + poll_entry it) (poll_wait it))
    as [clock1 interrupted].
  destruct (Z.eqb_spec (if interrupted then - EINTR else poll_result it) (- EINTR))
    as [He|Hne].
  { intros [= <-]. right. left. eexists. split; [reflexivity|]. cbn. auto. }
  assert (interrupted = false) by (destruct interrupted; congruence).
  subst interrupted.
  destruct (Z.ltb_spec (poll_result it) 0) as [Hneg|Hpos].
  { intros [= <-]. right. left. eexists. split; [reflexivity|]. cbn. auto 10. }
  destruct (blocking signal (clock1 + work it) 1000) as [clock2 b].
  destruct (Z.leb_spec 5 (now it - last_metrics_update s)) as [Hdue|Hearly].
  - destruct (update_metrics (main_metrics s) (main_statics s) (tables it) 0
                (tick it)) as [[metrics st]|]; [|discriminate].
    cbn. intros [= <-]. right. right. eexists. split; [reflexivity|]. cbn.
    repeat split; auto. right. eexists. auto.
  - cbn. intros [= <-]. right. right. eexists. split; [reflexivity|]. cbn.
    repeat split; auto.
Qed.

(** X18: without a signal and without a failing poll the loop never ends:
    no list of iterations whose polls all succeed takes it out of the
    loop. *)
Theorem loop_runs_until_signal (its : list iteration) :
  forall (s s' : main_state),
    Forall (fun it => 0 <= poll_result it) its ->
    main_loop None its s <> Defined (Exited s').
Proof.
  induction its as [|it its IH]; intros s s' Hpoll; cbn [main_loop].
  - discriminate.
  - apply Forall_cons in Hpoll as [Hit Hits].
    destruct (loop_body None it s) as [o|] eqn:Hbody; [|discriminate].
    cbn [mbind c_result_bind].
    destruct (loop_body_cases _ _ _ _ Hbody)
      as [[_ Hex]|[(s1 & -> & _ & _ & _ & Herr)|(s1 & -> & _)]].
    + discriminate.
    + destruct Herr as [Herr|(_ & Hneg & _)]; [|lia].
      exfalso. revert Hbody. unfold loop_body. cbn [exiting blocking].
      destruct (Z.eqb_spec (poll_result it) (- EINTR)) as [He|_];
        [unfold EINTR in He; lia|].
      destruct (Z.ltb_spec (poll_result it) 0); [lia|].
      destruct (5 <=? now it - last_metrics_update s);
        [destruct (update_metrics _ _ _ _ _) as [[metrics st]|]|];
        cbn; discriminate.
    + apply IH. exact Hits.
Qed.

Lemma loop_runs_until_signal_witness :
  main_loop None
    [iteration_at 1000 empty_maps fopen_failed;
     iteration_at 1001 empty_maps fopen_failed]
    (main_init "edge")
  <> Defined (Exited (main_init "edge")).
Proof.
  apply loop_runs_until_signal. repeat constructor; cbn; lia.
Defined.

Lemma exit_status_nonneg (s : main_state) : 0 <= err s -> exit_status s = 0.
Proof.
  intros H. unfold exit_status. destruct (Z.ltb_spec (err s) 0); [lia|reflexivity].
Qed.

(** A run continues after a prefix that leaves the loop running. *)
Lemma main_loop_app (signal : option Z) (pre rest : list iteration) :
  forall s s1,
    main_loop signal pre s = Defined (Running s1) ->
    main_loop signal (pre ++ rest) s = main_loop signal rest s1.
Proof.
  induction pre as [|it pre IH]; intros s s1; cbn [main_loop app].
  - intros [= <-]. reflexivity.
  - destruct (loop_body signal it s) as [[s2|s2]|];
      cbn [mbind c_result_bind]; try discriminate.
    apply IH.
Qed.

(** A poll that returns a negative value ends the loop on the spot, with
    that value in [err] unless it is [-EINTR]. *)
Lemma poll_failure_exits (signal : option Z) (it : iteration) (s : main_state) :
  exiting signal (clock s) = false ->
  snd (blocking signal (clock s + poll_entry it) (poll_wait it)) = false ->
  poll_result it < 0 ->
  loop_body signal it s
  = Defined (Exited {| clock := fst (blocking signal (clock s + poll_entry it)
                                       (poll_wait it));
                       main_metrics := main_metrics s;
                       main_statics := main_statics s;
                       last_metrics_update := last_metrics_update s;
                       exported := exported s;
                       err := if poll_result it =? - EINTR then 0
                              else poll_result it |}).
Proof.
  intros Hex Hint Hneg. unfold loop_body. rewrite Hex.
  destruct (blocking signal (clock s + poll_entry it) (poll_wait it))
    as [clock1 interrupted].
  cbn [fst snd] in *. subst interrupted.
  destruct (Z.eqb_spec (poll_result it) (- EINTR)); [reflexivity|].
  destruct (Z.ltb_spec (poll_result it) 0); [reflexivity | lia].
Qed.

(** A loop whose polls all succeed can end on the signal only, and then
    the status is 0. *)
Lemma exit_status_on_signal (signal : option Z) (its : list iteration) :
  forall (s s' : main_state),
    0 <= err s \/ exiting signal (clock s) = false ->
    Forall (fun it => 0 <= poll_result it) its ->
    main_loop signal its s = Defined (Exited s') ->
    exit_status s' = 0.
Proof.
  induction its as [|it its IH]; intros s s' Hs Hpoll; cbn [main_loop].
  - discriminate.
  - apply Forall_cons in Hpoll as [Hit Hits].
    destruct (loop_body signal it s) as [o|] eqn:Hbody; [|discriminate].
    cbn [mbind c_result_bind].
    destruct (loop_body_cases _ _ _ _ Hbody)
      as [[-> Hex]|[(s1 & -> & _ & _ & _ & Herr)|(s1 & -> & _ & Herr & Hpos & _)]].
    + intros [= <-]. apply exit_status_nonneg.
      destruct Hs as [Hs|Hs]; [exact Hs | congruence].
    + intros [= <-]. destruct Herr as [Herr|(_ & Hneg & _)]; [|lia].
      apply exit_status_nonneg. lia.
    + intros Hrest. apply (IH s1 s'); [left; lia | exact Hits | exact Hrest].
Qed.

(** X19: the exit status after the loop.  When, after any number of
    iterations, a poll that is not interrupted returns a negative value,
    the loop ends at that poll with nothing more exported, and the process
    exits with the positive error number, [-err], or with 0 when the value
    is [-EINTR].  A run in which every later poll succeeds can only end on
    the signal, and then the status is 0. *)
Theorem exit_status_of_loop (signal : option Z) (pre : list iteration)
    (it : iteration) (post : list iteration) (s s1 : main_state) :
  main_loop signal pre s = Defined (Running s1) ->
  exiting signal (clock s1) = false ->
  snd (blocking signal (clock s1 + poll_entry it) (poll_wait it)) = false ->
  poll_result it < 0 ->
  exists s',
    main_loop signal (pre ++ it :: post) s = Defined (Exited s') /\
    exported s' = exported s1 /\
    err s' = (if poll_result it =? - EINTR then 0 else poll_result it) /\
    exit_status s'
    = (if poll_result it =? - EINTR then 0 else - poll_result it) /\
    (poll_result it <> - EINTR -> 0 < exit_status s') /\
    forall its s2,
      Forall (fun i => 0 <= poll_result i) its ->
      main_loop signal (pre ++ its) s = Defined (Exited s2) ->
      exit_status s2 = 0.
Proof.
  intros Hpre Hex Hint Hneg.
  eexists. split.
  { rewrite (main_loop_app _ _ _ _ _ Hpre). cbn [main_loop].
    rewrite (poll_failure_exits _ _ _ Hex Hint Hneg). reflexivity. }
  cbn [exported err]. split; [reflexivity|]. split; [reflexivity|].
  unfold exit_status. cbn [err].
  destruct (Z.eqb_spec (poll_result it) (- EINTR)) as [He|Hne].
  - split; [reflexivity|]. split; [contradiction|].
    intros its s2 Hits. rewrite (main_loop_app _ _ _ _ _ Hpre).
    apply exit_status_on_signal; [right; exact Hex | exact Hits].
  - destruct (Z.ltb_spec (poll_result it) 0); [|lia].
    split; [reflexivity|]. split; [lia|].
    intros its s2 Hits. rewrite (main_loop_app _ _ _ _ _ Hpre).
    apply exit_status_on_signal; [right; exact Hex | exact Hits].
Qed.

Lemma exit_status_of_loop_witness :
  exists s',
    main_loop None
      [iteration_at 1000 empty_maps fopen_failed; iteration_failing 9 1001]
      (main_init "edge") = Defined (Exited s') /\
    exit_status s' = 9.
Proof.
  destruct (exit_status_of_loop None
              [iteration_at 1000 empty_maps fopen_failed]
              (iteration_failing 9 1001) [] (main_init "edge")
              (state_after [iteration_at 1000 empty_maps fopen_failed]))
    as (s' & Hrun & _ & _ & Hstatus & _);
    [vm_compute; reflexivity | reflexivity | reflexivity | cbn; lia |].
  exists s'. split; [exact Hrun | exact Hstatus].
Defined.

(** X20: ticks are at least five seconds of [time()] apart: over any run,
    five times the number of records exported is at most the advance of
    [last_metrics_update], and the records exported before the run stay a
    prefix of the exported list. *)
Theorem ticks_five_seconds_apart (signal : option Z) (its : list iteration) :
  forall (s : main_state) (o : outcome),
    main_loop signal its s = Defined o ->
    exported s `prefix_of` exported (state_of o) /\
    5 * (Z.of_nat (length (exported (state_of o))) - Z.of_nat (length (exported s)))
    <= last_metrics_update (state_of o) - last_metrics_update s.
Proof.
  induction its as [|it its IH]; intros s o; cbn [main_loop].
  - intros [= <-]. cbn. split; [reflexivity | lia].
  - destruct (loop_body signal it s) as [o1|] eqn:Hbody; [|discriminate].
    cbn [mbind c_result_bind].
    destruct (loop_body_cases _ _ _ _ Hbody)
      as [[-> _]|[(s1 & -> & _ & Hout & Hlast & _)|(s1 & -> & _ & _ & _ & Htick)]].
    + intros [= <-]. cbn. split; [reflexivity | lia].
    + intros [= <-]. cbn. rewrite Hout, Hlast. split; [reflexivity | lia].
    + intros Hrest. destruct (IH s1 o Hrest) as [Hpre Hfive].
      destruct Htick as [[Hout Hlast]|(record & Hout & Hlast & Hdue)].
      * rewrite Hout, Hlast in *. auto.
      * rewrite Hout in Hpre, Hfive. rewrite length_app in Hfive.
        cbn [length] in Hfive. split; [|lia].
        eapply prefix_app_l. exact Hpre.
Qed.

Lemma ticks_five_seconds_apart_witness :
  exists o,
    main_loop None
      [iteration_at 1000 empty_maps fopen_failed;
       iteration_at 1001 empty_maps fopen_failed;
       iteration_at 1006 empty_maps fopen_failed]
      (main_init "edge") = Defined o /\
    5 * (Z.of_nat (length (exported (state_of o))) - 0)
    <= last_metrics_update (state_of o) - 0.
Proof.
  assert (Hrun : exists o,
            main_loop None
              [iteration_at 1000 empty_maps fopen_failed;
               iteration_at 1001 empty_maps fopen_failed;
               iteration_at 1006 empty_maps fopen_failed]
              (main_init "edge") = Defined o)
    by (eexists; vm_compute; reflexivity).
  destruct Hrun as [o Ho]. exists o. split; [exact Ho|].
  exact (proj2 (ticks_five_seconds_apart None _ (main_init "edge") o Ho)).
Defined.

Lemma export_record (metrics : prometheus_metrics) :
  record_of_node (node_name metrics) (export_prometheus_metrics metrics).
Proof. split; [reflexivity | repeat constructor]. Qed.

(** What one evaluation of the loop does to the node name and the
    output. *)
Lemma loop_body_output (signal : option Z) (it : iteration) (s : main_state)
    (o : outcome) :
  loop_body signal it s = Defined o ->
  node_name (main_metrics (state_of o)) = node_name (main_metrics s) /\
  exists new,
    exported (state_of o) = exported s ++ new /\
    Forall (record_of_node (node_name (main_metrics s))) new.
Proof.
  assert (Hnil : forall s0 : main_state,
            node_name (main_metrics s0) = node_name (main_metrics s) ->
            exported s0 = exported s ->
            node_name (main_metrics s0) = node_name (main_metrics s) /\
            exists new, exported s0 = exported s ++ new /\
              Forall (record_of_node (node_name (main_metrics s))) new).
  { intros s0 Hn He. split; [exact Hn|]. exists []. rewrite app_nil_r. auto. }
  unfold loop_body.
  destruct (exiting signal (clock s)); [intros [= <-]; apply Hnil; reflexivity|].
  destruct (blocking signal (clock s + poll_entry it) (poll_wait it))
    as [clock1 interrupted].
  destruct ((if interrupted then - EINTR else poll_result it) =? - EINTR);
    [intros [= <-]; apply Hnil; reflexivity|].
  destruct ((if interrupted then - EINTR else poll_result it) <? 0);
    [intros [= <-]; apply Hnil; reflexivity|].
  destruct (blocking signal (clock1 + work it) 1000) as [clock2 b].
  destruct (5 <=? now it - last_metrics_update s).
  - destruct (update_metrics (main_metrics s) (main_statics s) (tables it) 0
                (tick it)) as [[metrics st]|] eqn:Hu; [|discriminate].
    apply update_metrics_blocks in Hu. destruct Hu as (_ & _ & _ & _ & Hname & _).
    cbn. intros [= <-]. cbn. split; [exact Hname|].
    exists [export_prometheus_metrics metrics]. split; [reflexivity|].
    constructor; [|constructor]. rewrite <- Hname. apply export_record.
  - cbn. intros [= <-]. apply Hnil; reflexivity.
Qed.

(** X23: the node name given at start is never changed by the loop, and
    every record it hands to the exporter consists of the six gauges in
    their fixed order, each labelled with that node name. *)
Theorem exported_records_labelled (signal : option Z) (its : list iteration) :
  forall (s : main_state) (o : outcome),
    main_loop signal its s = Defined o ->
    node_name (main_metrics (state_of o)) = node_name (main_metrics s) /\
    exists new,
      exported (state_of o) = exported s ++ new /\
      Forall (record_of_node (node_name (main_metrics s))) new.
Proof.
  induction its as [|it its IH]; intros s o; cbn [main_loop].
  - intros [= <-]. cbn. split; [reflexivity|]. exists [].
    rewrite app_nil_r. auto.
  - destruct (loop_body signal it s) as [o1|] eqn:Hbody; [|discriminate].
    cbn [mbind c_result_bind].
    destruct (loop_body_output _ _ _ _ Hbody) as (Hn1 & new1 & He1 & Hr1).
    destruct o1 as [s1|s1]; cbn [state_of] in Hn1, He1.
    + intros Hrest. destruct (IH s1 o Hrest) as (Hn & new & He & Hr).
      split; [congruence|]. exists (new1 ++ new).
      split; [rewrite He, He1, app_assoc; reflexivity|].
      apply Forall_app. split; [exact Hr1|]. rewrite <- Hn1. exact Hr.
    + intros [= <-]. cbn [state_of]. split; [exact Hn1|].
      exists new1. auto.
Qed.

Lemma exported_records_labelled_witness :
  exists o,
    main_loop None
      [iteration_at 1000 tables_with_histogram (fscanf_ok 50 0 50 100 0 0 0);
       iteration_at 1005 empty_maps fopen_failed]
      (main_init "edge") = Defined o /\
    node_name (main_metrics (state_of o)) = "edge"%string.
Proof.
  assert (Hrun : exists o,
            main_loop None
              [iteration_at 1000 tables_with_histogram (fscanf_ok 50 0 50 100 0 0 0);
               iteration_at 1005 empty_maps fopen_failed]
              (main_init "edge") = Defined o)
    by (eexists; vm_compute; reflexivity).
  destruct Hrun as [o Ho]. exists o. split; [exact Ho|].
  exact (proj1 (exported_records_labelled None _ (main_init "edge") o Ho)).
Defined.

(** X21: [main] releases what it has created, once: on every path the
    skeleton is destroyed exactly once if it was opened and never
    otherwise, and the ring buffer is freed exactly once if it was created;
    every start-up failure gives exit status 1, and after a complete
    start-up the status is the one of the loop. *)
Theorem main_releases_once (st : startup) (final : main_state) :
  let started :=
    (setrlimit_ret st =? 0) && opened st && (load_err st =? 0)
    && (attach_err st =? 0) && rb_created st in
  count_occ action_eq_dec (snd (main st final)) skel_destroy
  = (if (setrlimit_ret st =? 0) && opened st then 1%nat else 0%nat) /\
  count_occ action_eq_dec (snd (main st final)) rb_free
  = (if started then 1%nat else 0%nat) /\
  fst (main st final) = (if started then exit_status final else 1).
Proof.
  destruct st as [rl op le ae rb]. unfold main, setup_ebpf.
  cbn [setrlimit_ret opened load_err attach_err rb_created].
  destruct (rl =? 0); [|cbn; auto].
  destruct op; [|cbn; auto].
  destruct (le =? 0); [|cbn; auto].
  destruct (ae =? 0); [|cbn; auto].
  destruct rb; cbn; auto.
Qed.

End loop_more.

(** ** Network callbacks one after the other: no update is lost *)

Section no_lost_updates.

Lemma keys_small_size {V} (m : gmap Z V) :
  (forall k, is_Some (m !! k) -> 0 <= k < 8) -> Z.of_nat (size m) <= 8.
Proof.
  intros Hk. rewrite <- size_dom.
  assert (Hsub : dom m ⊆ (list_to_set [0; 1; 2; 3; 4; 5; 6; 7] : gset Z)).
  { intros k Hin. apply elem_of_dom in Hin. apply Hk in Hin.
    apply elem_of_list_to_set. rewrite !elem_of_cons.
    assert (Hc : k = 0 \/ k = 1 \/ k = 2 \/ k = 3 \/ k = 4 \/ k = 5
                 \/ k = 6 \/ k = 7) by lia.
    tauto. }
  apply subseteq_size in Hsub.
  change (size (list_to_set [0; 1; 2; 3; 4; 5; 6; 7] : gset Z)) with 8%nat in Hsub.
  lia.
Qed.

Lemma insert_is_Some_inv {V} (m : gmap Z V) (i k : Z) (v : V) :
  is_Some (<[i := v]> m !! k) -> k = i \/ is_Some (m !! k).
Proof.
  destruct (Z.eq_dec k i) as [->|Hne]; [auto|].
  rewrite lookup_insert_ne by congruence. auto.
Qed.

Lemma default_some {A} (z x : A) : default z (Some x) = x.
Proof. reflexivity. Qed.

Lemma count_if_app {A} (p : A -> bool) (l1 l2 : list A) :
  count_if p (l1 ++ l2) = count_if p l1 + count_if p l2.
Proof. induction l1 as [|x l1 IH]; cbn [count_if app]; lia. Qed.

Lemma count_if_bounds {A} (p : A -> bool) (l : list A) :
  0 <= count_if p l <= Z.of_nat (length l).
Proof.
  induction l as [|x l IH]; cbn [count_if length]; [lia|].
  destruct (p x); lia.
Qed.

Lemma total_app (l1 l2 : list Z) : total (l1 ++ l2) = total l1 + total l2.
Proof. unfold total. induction l1 as [|x l1 IH]; cbn; lia. Qed.

Lemma rtt_samples_app (k : Z) (l1 l2 : list callback) :
  rtt_samples k (l1 ++ l2) = rtt_samples k l1 ++ rtt_samples k l2.
Proof. apply flat_map_app. Qed.

Lemma rtt_samples_snoc (k : Z) (pre : list callback) (c : callback) :
  rtt_samples k (pre ++ [c]) = rtt_samples k pre ++ rtt_sample k c.
Proof. rewrite rtt_samples_app. cbn. rewrite app_nil_r. reflexivity. Qed.

Lemma count_if_snoc {A} (p : A -> bool) (l : list A) (x : A) :
  count_if p (l ++ [x]) = count_if p l + (if p x then 1 else 0).
Proof. rewrite count_if_app. cbn. lia. Qed.

Lemma u64_add_l (a b : Z) : u64 (u64 a + b) = u64 (a + b).
Proof. unfold u64. apply Zplus_mod_idemp_l. Qed.

Lemma u32_add_l (a b : Z) : u32 (u32 a + b) = u32 (a + b).
Proof. unfold u32. apply Zplus_mod_idemp_l. Qed.

(** A callback that adds nothing for node [k] leaves its tally valid. *)
Lemma node_tally_skip (k : Z) (pre : list callback) (c : callback)
    (m : node_metrics) (hs : hist) :
  rtt_sample k c = [] -> is_retrans k c = false -> is_drop k c = false ->
  node_tally k pre m hs -> node_tally k (pre ++ [c]) m hs.
Proof.
  intros Hs Hr Hd (H1 & H2 & H3 & H4 & H5). unfold node_tally.
  rewrite rtt_samples_snoc, Hs, app_nil_r, !count_if_snoc, Hr, Hd, !Z.add_0_r.
  auto.
Qed.

Lemma tally_step (pre : list callback) (c : callback) (s s' : bpf_maps) :
  callback_wf c -> network_callback c = true ->
  tally_ok pre s -> invoke c s = Some s' -> tally_ok (pre ++ [c]) s'.
Proof.
  intros Hwf Hnet (Hkn & Hkh & Hlen & Htally) Hinv.
  assert (Hroomn : forall k : Z,
            is_Some (node_metrics_map s !! k)
            \/ Z.of_nat (size (node_metrics_map s)) < MAX_NODES)
    by (intros k; right; pose proof (keys_small_size _ Hkn); unfold MAX_NODES; lia).
  assert (Hroomh : forall k : Z,
            is_Some (rtt_hist_map s !! k)
            \/ Z.of_nat (size (rtt_hist_map s)) < MAX_NODES)
    by (intros k; right; pose proof (keys_small_size _ Hkh); unfold MAX_NODES; lia).
  assert (Hsame : forall s0 : bpf_maps,
            node_metrics_map s0 = node_metrics_map s ->
            rtt_hist_map s0 = rtt_hist_map s ->
            (forall k, rtt_sample k c = [] /\ is_retrans k c = false
                       /\ is_drop k c = false) ->
            tally_ok (pre ++ [c]) s0).
  { intros s0 Hn0 Hh0 Hnone. unfold tally_ok. rewrite Hn0, Hh0.
    split; [exact Hkn|]. split; [exact Hkh|]. split; [exact Hlen|].
    intros k. destruct (Hnone k) as (Ha & Hb & Hc).
    apply node_tally_skip; auto. }
  destruct c as [sk h|h|reason h|pid adjacent h|next_pid h]; try discriminate;
    cbn [invoke] in Hinv.
  - (* trace_tcp_ack *)
    destruct sk as [[srtt_us|]|];
      try (injection Hinv as <-; apply Hsame; auto; fail).
    cbn [callback_wf] in Hwf.
    destruct (trace_tcp_ack_effect srtt_us h s Hwf (Hroomh _) (Hroomn _)
                (Hlen (get_node_id h)))
      as (s1 & Hs1 & Hh & Hslot & Hother & Hn & _).
    assert (s1 = s') by congruence. subst s1. clear Hs1 Hinv.
    destruct (rtt_ms_slot srtt_us Hwf) as (Hrtt & Hms & _ & Hrange).
    cbn zeta in Hrtt, Hms, Hrange.
    set (rtt_ms := Z.shiftr srtt_us 3 / 1000) in *.
    set (slot := if rtt_ms =? 0 then 0 else Z.log2 rtt_ms) in *.
    pose proof (get_node_id_range h) as Hnode.
    unfold tally_ok. rewrite Hh, Hn.
    split; [intros k [Hk|Hk]%insert_is_Some_inv; [lia | auto]|].
    split; [intros k [Hk|Hk]%insert_is_Some_inv; [lia | auto]|].
    split.
    { intros k hs'. destruct (Z.eq_dec (get_node_id h) k) as [<-|Hne].
      - rewrite lookup_insert_eq. intros [= <-]. unfold hist_add. cbn [slots].
        rewrite length_alter.
        destruct (rtt_hist_map s !! get_node_id h) as [hs0|] eqn:Hh0;
          [apply (Hlen _ _ Hh0) | apply length_replicate].
      - rewrite lookup_insert_ne by exact Hne. apply Hlen. }
    intros k. destruct (Z.eq_dec (get_node_id h) k) as [<-|Hne].
    + rewrite !lookup_insert_eq, !default_some.
      destruct (Htally (get_node_id h)) as (H1 & H2 & H3 & H4 & H5).
      unfold node_tally.
      rewrite rtt_samples_snoc, !count_if_snoc. cbn [rtt_sample is_retrans is_drop].
      rewrite Z.eqb_refl, Hrtt, !Z.add_0_r.
      rewrite length_app, total_app. cbn [length total fold_right].
      unfold with_rtt. cbn [rtt_count rtt_sum retrans_count drop_count].
      rewrite H1, H2, !u64_add_l.
      split; [f_equal; fold (total (rtt_samples (get_node_id h) pre)); lia|].
      split; [f_equal; fold (total (rtt_samples (get_node_id h) pre)); lia|].
      split; [exact H3|]. split; [exact H4|].
      intros i Hi. rewrite count_if_snoc.
      assert (Hb : bucket rtt_ms = slot) by reflexivity. rewrite Hb.
      destruct (Z.eqb_spec slot i) as [<-|Hsi].
      * rewrite Hslot, H5 by (unfold MAX_SLOTS; lia). rewrite u32_add_l.
        reflexivity.
      * rewrite Hother by lia. rewrite H5 by exact Hi. f_equal. lia.
    + rewrite !lookup_insert_ne by exact Hne.
      apply node_tally_skip; [| reflexivity | reflexivity | apply Htally].
      cbn [rtt_sample]. destruct (Z.eqb_spec (get_node_id h) k); [contradiction|].
      reflexivity.
  - (* trace_tcp_retrans *)
    injection Hinv as <-. rewrite (trace_tcp_retrans_effect h s (Hroomn _)).
    pose proof (get_node_id_range h) as Hnode.
    unfold tally_ok. cbn [node_metrics_map rtt_hist_map].
    split; [intros k [Hk|Hk]%insert_is_Some_inv; [lia | auto]|].
    split; [exact Hkh|]. split; [exact Hlen|].
    intros k. destruct (Z.eq_dec (get_node_id h) k) as [<-|Hne].
    + rewrite lookup_insert_eq, default_some.
      destruct (Htally (get_node_id h)) as (H1 & H2 & H3 & H4 & H5).
      unfold node_tally.
      rewrite rtt_samples_snoc, !count_if_snoc. cbn [rtt_sample is_retrans is_drop].
      rewrite Z.eqb_refl, app_nil_r, Z.add_0_r.
      unfold with_retrans. cbn [rtt_count rtt_sum retrans_count drop_count].
      rewrite H3, u64_add_l. auto.
    + rewrite lookup_insert_ne by exact Hne.
      apply node_tally_skip; [reflexivity | | reflexivity | apply Htally].
      cbn [is_retrans]. destruct (Z.eqb_spec (get_node_id h) k); [contradiction|].
      reflexivity.
  - (* trace_skb_drop *)
    injection Hinv as <-.
    assert (Heff : node_metrics_map (trace_skb_drop reason h s)
                   = <[get_node_id h :=
                         with_drop (default new_metrics
                                      (node_metrics_map s !! get_node_id h))
                           (ktime_get_ns h)]> (node_metrics_map s) /\
                   rtt_hist_map (trace_skb_drop reason h s) = rtt_hist_map s).
    { destruct (lookup_or_create_default MAX_NODES new_metrics _ _
                  (Hroomn (get_node_id h))) as (nm & Hlocm & Hinsm).
      unfold trace_skb_drop. cbn [set_drop_reason_map node_metrics_map].
      rewrite Hlocm, Hinsm.
      destruct (prandom_u32 h mod 10 =? 0);
        rewrite ?publish_node_metrics, ?publish_rtt_hist; cbn; auto. }
    destruct Heff as [Hn Hh].
    pose proof (get_node_id_range h) as Hnode.
    unfold tally_ok. rewrite Hn, Hh.
    split; [intros k [Hk|Hk]%insert_is_Some_inv; [lia | auto]|].
    split; [exact Hkh|]. split; [exact Hlen|].
    intros k. destruct (Z.eq_dec (get_node_id h) k) as [<-|Hne].
    + rewrite lookup_insert_eq, default_some.
      destruct (Htally (get_node_id h)) as (H1 & H2 & H3 & H4 & H5).
      unfold node_tally.
      rewrite rtt_samples_snoc, !count_if_snoc. cbn [rtt_sample is_retrans is_drop].
      rewrite Z.eqb_refl, app_nil_r, Z.add_0_r.
      unfold with_drop. cbn [rtt_count rtt_sum retrans_count drop_count].
      rewrite H4, u64_add_l. auto.
    + rewrite lookup_insert_ne by exact Hne.
      apply node_tally_skip; [reflexivity | reflexivity | | apply Htally].
      cbn [is_drop]. destruct (Z.eqb_spec (get_node_id h) k); [contradiction|].
      reflexivity.
Qed.

Lemma tally_run (cs : list callback) :
  forall (pre : list callback) (s : bpf_maps),
    Forall callback_wf cs -> forallb network_callback cs = true ->
    tally_ok pre s ->
    exists s', run cs s = Some s' /\ tally_ok (pre ++ cs) s'.
Proof.
  induction cs as [|c cs IH]; intros pre s Hwf Hnet Hok; cbn [run].
  - exists s. rewrite app_nil_r. auto.
  - apply Forall_cons in Hwf as [Hc Hcs].
    cbn [forallb] in Hnet. apply andb_true_iff in Hnet as [Hn Hns].
    destruct (invoke_total c s) as [s1 Hs1]. rewrite Hs1.
    cbn [mbind option_bind].
    destruct (IH (pre ++ [c]) s1 Hcs Hns (tally_step pre c s s1 Hc Hn Hok Hs1))
      as (s' & Hrun & Hok').
    exists s'. split; [exact Hrun|].
    rewrite <- app_assoc in Hok'. exact Hok'.
Qed.

Lemma tally_empty : tally_ok [] empty_maps.
Proof.
  unfold tally_ok. cbn [empty_maps node_metrics_map rtt_hist_map].
  split; [intros k [x Hx]; rewrite lookup_empty in Hx; discriminate|].
  split; [intros k [x Hx]; rewrite lookup_empty in Hx; discriminate|].
  split; [intros k hs Hx; rewrite lookup_empty in Hx; discriminate|].
  intros k. rewrite !lookup_empty. cbn [default]. unfold node_tally. cbn.
  repeat split. intros i Hi. unfold slot_at, new_hist. cbn [slots].
  apply lookup_total_replicate_2. unfold MAX_SLOTS in *. lia.
Qed.

Lemma rtt_samples_bounds (k : Z) (cs : list callback) :
  Forall callback_wf cs ->
  (length (rtt_samples k cs) <= length cs)%nat /\
  0 <= total (rtt_samples k cs) <= 2 ^ 20 * Z.of_nat (length cs).
Proof.
  induction cs as [|c cs IH]; intros Hwf; [cbn; lia|].
  apply Forall_cons in Hwf as [Hc Hcs]. destruct (IH Hcs) as [Hl Ht].
  change (rtt_samples k (c :: cs)) with (rtt_sample k c ++ rtt_samples k cs).
  rewrite length_app, total_app. cbn [length].
  destruct c as [[[srtt_us|]|] h|h|reason h|pid adjacent h|next_pid h];
    cbn [rtt_sample length total fold_right app]; try lia.
  destruct (get_node_id h =? k); cbn [length total fold_right]; [|lia].
  cbn [callback_wf] in Hc.
  destruct (rtt_ms_slot srtt_us Hc) as (Hrtt & Hms & _). cbn zeta in Hrtt, Hms.
  rewrite Hrtt. lia.
Qed.

(** X22: invocations that do not overlap lose no update.  After any trace
    of fewer than [2^32] ACK, retransmission and drop callbacks, each run
    to its end before the next one starts, from empty tables, every node's
    record holds exactly the number of its readable ACKs in [rtt_count],
    the sum of their RTTs in [rtt_sum], the number of its retransmissions
    in [retrans_count] and of its drops in [drop_count], and every bucket
    of its histogram holds the number of its samples whose [floor (log2)]
    is that bucket.  (Nothing is said here of invocations that interleave
    on processors sharing a node id.) *)
Theorem network_updates_not_lost (cs : list callback) (k : Z) :
  Forall callback_wf cs ->
  forallb network_callback cs = true ->
  Z.of_nat (length cs) < 2 ^ 32 ->
  exists s,
    run cs empty_maps = Some s /\
    let m := default new_metrics (node_metrics_map s !! k) in
    let hs := default new_hist (rtt_hist_map s !! k) in
    rtt_count m = Z.of_nat (length (rtt_samples k cs)) /\
    rtt_sum m = total (rtt_samples k cs) /\
    retrans_count m = count_if (is_retrans k) cs /\
    drop_count m = count_if (is_drop k) cs /\
    forall i, 0 <= i < MAX_SLOTS ->
      slot_at hs i = count_if (fun v => bucket v =? i) (rtt_samples k cs).
Proof.
  intros Hwf Hnet Hlen.
  destruct (tally_run cs [] empty_maps Hwf Hnet tally_empty) as (s & Hrun & Hok).
  exists s. split; [exact Hrun|]. cbn [app] in Hok.
  destruct Hok as (_ & _ & _ & Htally).
  destruct (Htally k) as (H1 & H2 & H3 & H4 & H5).
  destruct (rtt_samples_bounds k cs Hwf) as [Hsl Hst].
  pose proof (count_if_bounds (is_retrans k) cs).
  pose proof (count_if_bounds (is_drop k) cs).
  cbn zeta. rewrite H1, H2, H3, H4.
  rewrite !u64_small by lia.
  repeat split. intros i Hi. rewrite H5 by exact Hi.
  pose proof (count_if_bounds (fun v => bucket v =? i) (rtt_samples k cs)).
  unfold u32. apply Z.mod_small. lia.
Qed.

Lemma network_updates_not_lost_witness :
  exists s,
    run [tcp_ack (Some (Some 80000)) (helpers_on 1 1000);
         tcp_retransmit_skb (helpers_on 1 2000);
         tcp_ack (Some (Some 160000)) (helpers_on 9 3000)] empty_maps = Some s /\
    rtt_sum (default new_metrics (node_metrics_map s !! 1)) = 30.
Proof.
  destruct (network_updates_not_lost
              [tcp_ack (Some (Some 80000)) (helpers_on 1 1000);
               tcp_retransmit_skb (helpers_on 1 2000);
               tcp_ack (Some (Some 160000)) (helpers_on 9 3000)] 1)
    as (s & Hrun & _ & Hsum & _).
  - repeat constructor; cbn; lia.
  - reflexivity.
  - cbn. lia.
  - exists s. split; [exact Hrun | exact Hsum].
Defined.

End no_lost_updates.

(** ** The percentile estimate on the histograms of the table *)

Section percentile_of_table.

(** Every histogram found in the table after a trace of callbacks has its
    buckets 20 to 63 empty. *)
Lemma run_hist_table (cs : list callback) (s : bpf_maps) :
  Forall callback_wf cs -> run cs empty_maps = Some s -> hist_table_ok s.
Proof.
  intros Hwf Hrun.
  destruct (run_invariant callback_wf hist_table_ok hist_table_step cs
              empty_maps Hwf) as (s' & Hrun' & Hok).
  { intros k hs Hk. cbn in Hk. rewrite lookup_empty in Hk. discriminate. }
  rewrite Hrun in Hrun'. injection Hrun' as <-. exact Hok.
Qed.



(** C7: on every histogram that the function can be handed (every entry
    of the histogram table after any trace of callbacks) the estimate is
    defined at every rank and does not decrease as the rank grows. *)
Theorem calculate_percentile_monotone_on_table (cs : list callback)
    (s : bpf_maps) (k : Z) (h : hist) (p1 p2 : Z) :
  Forall callback_wf cs ->
  run cs empty_maps = Some s ->
  rtt_hist_map s !! k = Some h ->
  0 <= p1 <= p2 -> p2 <= 100 ->
  exists v1 v2,
    calculate_percentile h p1 = Defined v1 /\
    calculate_percentile h p2 = Defined v2 /\ v1 <= v2.
Proof.
  intros Hwf Hrun Hk Hp1 Hp2.
  destruct (run_hist_table cs s Hwf Hrun k h Hk) as [_ Hshape].
  apply calculate_percentile_low_buckets_monotone_aux;
    [apply hist_shape_weaken, Hshape | exact Hp1 | exact Hp2].
Qed.

Lemma calculate_percentile_monotone_on_table_witness :
  exists v1 v2,
    calculate_percentile (hist_of_counts [(3%nat, 1); (9%nat, 3)]) 25
    = Defined v1 /\
    calculate_percentile (hist_of_counts [(3%nat, 1); (9%nat, 3)]) 99
    = Defined v2 /\ v1 <= v2.
Proof.
  apply (calculate_percentile_monotone_on_table trace_third
           (tables_after trace_third) 0);
    [repeat constructor; cbn; lia | vm_compute; reflexivity
    | vm_compute; reflexivity | lia | lia].
Defined.

End percentile_of_table.

(** ** Ticks that cannot read a table *)

Section failed_lookups.

(** A tick on tables whose histogram for the node, if any, has its buckets
    31 to 63 empty: the call is defined, the percentile gauges are those of
    the histogram found, and they are left as they were when none is
    found. *)
Lemma update_metrics_percentiles (metrics : prometheus_metrics) (st : statics)
    (maps : bpf_maps) (node_id : Z) (env : tick_env) :
  (forall hs, rtt_hist_map maps !! node_id = Some hs ->
     forall i, 31 <= i < MAX_SLOTS -> slot_at hs i = 0) ->
  exists metrics' st',
    update_metrics metrics st maps node_id env = Defined (metrics', st') /\
    (rtt_hist_map maps !! node_id = None ->
       rtt_p50_ms metrics' = rtt_p50_ms metrics /\
       rtt_p99_ms metrics' = rtt_p99_ms metrics) /\
    (forall hs, rtt_hist_map maps !! node_id = Some hs ->
       exists p50 p99,
         calculate_percentile hs 50 = Defined p50 /\
         calculate_percentile hs 99 = Defined p99 /\
         rtt_p50_ms metrics' = Fin (inject_Z p50) /\
         rtt_p99_ms metrics' = Fin (inject_Z p99)).
Proof.
  intros Hlow. unfold update_metrics.
  assert (Hkeep : rtt_p50_ms (fst (read_node_metrics metrics st
                    (node_metrics_map maps !! node_id) (time_first env)))
                  = rtt_p50_ms metrics /\
                  rtt_p99_ms (fst (read_node_metrics metrics st
                    (node_metrics_map maps !! node_id) (time_first env)))
                  = rtt_p99_ms metrics).
  { unfold read_node_metrics.
    destruct (node_metrics_map maps !! node_id) as [d|]; [|split; reflexivity].
    destruct (0 <? prev_time st); [destruct (0 <? time_first env - prev_time st)|];
      destruct (0 <? runqlat_count d); split; reflexivity. }
  destruct (read_node_metrics metrics st (node_metrics_map maps !! node_id)
              (time_first env)) as [metrics1 st1].
  cbn [fst] in Hkeep. destruct Hkeep as [H50 H99].
  destruct (rtt_hist_map maps !! node_id) as [hs|]; cbn [read_rtt_hist].
  - destruct (calculate_percentile_low_defined hs 50 (Hlow hs eq_refl))
      as (p50 & Hp50 & _); [lia|].
    destruct (calculate_percentile_low_defined hs 99 (Hlow hs eq_refl))
      as (p99 & Hp99 & _); [lia|].
    rewrite Hp50, Hp99. cbn [mbind mret c_result_bind c_result_ret].
    eexists _, _. split; [reflexivity|]. split; [discriminate|].
    intros hs' [= <-]. exists p50, p99. cbn. auto.
  - cbn [mbind mret c_result_bind c_result_ret].
    eexists _, _. split; [reflexivity|]. split; [cbn; auto|].
    discriminate.
Qed.

(** C6, amended: in every tick, a lookup of the node's entry that fails
    skips the update of the gauges computed from that table, and nothing
    else.  With no counter record the two rates and the run-queue latency
    keep their previous values and the rate baseline stays as it was; with
    no histogram the two percentiles keep their previous values; the
    gauges of a table that could be read are updated from it, CPU
    utilization and the time stamp are refreshed, and the exporter
    receives one whole record of six gauges, stale values included; the
    loop then goes on.  (The histogram, when there is one, is taken with
    its buckets 31 to 63 empty, as the callbacks leave it.) *)
Theorem failed_lookup_keeps_previous_values (it : iteration) (s : main_state) :
  (forall hs, rtt_hist_map (tables it) !! 0 = Some hs ->
     forall i, 31 <= i < MAX_SLOTS -> slot_at hs i = 0) ->
  0 <= poll_result it ->
  5 <= now it - last_metrics_update s ->
  exists s',
    loop_body None it s = Defined (Running s') /\
    exported s' = exported s ++ [export_prometheus_metrics (main_metrics s')] /\
    map gauge_value (export_prometheus_metrics (main_metrics s'))
    = [ rtt_p50_ms (main_metrics s'); rtt_p99_ms (main_metrics s');
        tcp_retrans_rate (main_metrics s'); drop_rate (main_metrics s');
        runqlat_p95_ms (main_metrics s'); cpu_utilization (main_metrics s') ] /\
    cpu_utilization (main_metrics s') = get_cpu_utilization (proc_stat (tick it)) /\
    last_update (main_metrics s') = time_last (tick it) /\
    (node_metrics_map (tables it) !! 0 = None ->
       tcp_retrans_rate (main_metrics s') = tcp_retrans_rate (main_metrics s) /\
       drop_rate (main_metrics s') = drop_rate (main_metrics s) /\
       runqlat_p95_ms (main_metrics s') = runqlat_p95_ms (main_metrics s) /\
       main_statics s' = main_statics s) /\
    (rtt_hist_map (tables it) !! 0 = None ->
       rtt_p50_ms (main_metrics s') = rtt_p50_ms (main_metrics s) /\
       rtt_p99_ms (main_metrics s') = rtt_p99_ms (main_metrics s)) /\
    (forall d, node_metrics_map (tables it) !! 0 = Some d ->
       let r := read_node_metrics (main_metrics s) (main_statics s) (Some d)
                  (time_first (tick it)) in
       tcp_retrans_rate (main_metrics s') = tcp_retrans_rate (fst r) /\
       drop_rate (main_metrics s') = drop_rate (fst r) /\
       runqlat_p95_ms (main_metrics s') = runqlat_p95_ms (fst r) /\
       main_statics s' = snd r) /\
    (forall hs, rtt_hist_map (tables it) !! 0 = Some hs ->
       exists p50 p99,
         calculate_percentile hs 50 = Defined p50 /\
         calculate_percentile hs 99 = Defined p99 /\
         rtt_p50_ms (main_metrics s') = Fin (inject_Z p50) /\
         rtt_p99_ms (main_metrics s') = Fin (inject_Z p99)).
Proof.
  intros Hlow Hpoll Hdue.
  destruct (update_metrics_percentiles (main_metrics s) (main_statics s)
              (tables it) 0 (tick it) Hlow)
    as (metrics' & st' & Hupd & Hnone & Hsome).
  destruct (update_metrics_blocks _ _ _ _ _ _ _ Hupd)
    as (Hst & Hretr & Hdrop & Hrunq & _ & Hcpu & Hlast).
  unfold loop_body. cbn [exiting blocking].
  destruct (Z.eqb_spec (poll_result it) (- EINTR)) as [He|_];
    [unfold EINTR in He; lia|].
  destruct (Z.ltb_spec (poll_result it) 0); [lia|].
  destruct (Z.leb_spec 5 (now it - last_metrics_update s)); [|lia].
  rewrite Hupd. cbn [mbind mret c_result_bind c_result_ret].
  eexists. split; [reflexivity|].
  cbn [exported main_metrics main_statics].
  split; [reflexivity|]. split; [reflexivity|].
  split; [exact Hcpu|]. split; [exact Hlast|]. split.
  { intros Hn. rewrite Hn in Hst, Hretr, Hdrop, Hrunq. cbn in Hst, Hretr, Hdrop, Hrunq.
    auto. }
  split; [exact Hnone|]. split; [|exact Hsome].
  intros d Hd. rewrite Hd in Hst, Hretr, Hdrop, Hrunq. auto.
Qed.

Lemma failed_lookup_keeps_previous_values_witness :
  exists s',
    loop_body None
      (iteration_at 1010 (tables_after trace_third) fopen_failed)
      (state_after
         [iteration_at 1000 (tables_after trace_first) fopen_failed;
          iteration_at 1005 (tables_after trace_second) fopen_failed])
    = Defined (Running s') /\
    map gauge_value (export_prometheus_metrics (main_metrics s'))
    = [Fin 512; Fin 512; Fin (5 # 5); Fin (0 # 5); Fin 0; Fin 0].
Proof.
  destruct (failed_lookup_keeps_previous_values
              (iteration_at 1010 (tables_after trace_third) fopen_failed)
              (state_after
                 [iteration_at 1000 (tables_after trace_first) fopen_failed;
                  iteration_at 1005 (tables_after trace_second) fopen_failed]))
    as (s' & Hrun & _ & Hvals & Hcpu & _ & Hnode & _ & _ & Hhist).
  - intros hs Hhs i Hi.
    assert (Hs : hs = hist_of_counts [(3%nat, 1); (9%nat, 3)])
      by (vm_compute in Hhs; injection Hhs as <-; vm_compute; reflexivity).
    subst hs. unfold MAX_SLOTS in Hi.
    assert (Hc : exists n, (n < 33)%nat /\ i = 31 + Z.of_nat n)
      by (exists (Z.to_nat (i - 31)); lia).
    destruct Hc as (n & Hn & ->).
    do 33 (destruct n as [|n]; [reflexivity|]). lia.
  - cbn. lia.
  - vm_compute. discriminate.
  - exists s'. split; [exact Hrun|]. rewrite Hvals.
    destruct Hnode as (-> & -> & -> & _); [vm_compute; reflexivity|].
    destruct (Hhist (hist_of_counts [(3%nat, 1); (9%nat, 3)]))
      as (p50 & p99 & Hp50 & Hp99 & -> & ->); [vm_compute; reflexivity|].
    vm_compute in Hp50. vm_compute in Hp99.
    injection Hp50 as <-. injection Hp99 as <-. rewrite Hcpu.
    vm_compute. reflexivity.
Defined.

End failed_lookups.

(** ** The signal and the loop *)

Section shutdown.

(** C9, as stated, fails.  In the first run the poll returns on its
    timeout at 101 ms and the signal is delivered at 102 ms, while the tick
    is being computed: it interrupts neither the poll nor the sleep, and
    the loop test that observes the flag comes 1001 ms after the signal.
    In the second run the signal is delivered at 1 ms, after the loop test
    and before the poll blocks: the poll runs for its whole timeout, then
    the tick and the sleep, and the loop ends 1102 ms after the signal.
    Both are more than ten poll timeouts. *)
Lemma shutdown_latency_counterexample :
  match
    main_loop (Some 102)
      [iteration_at 1000 empty_maps fopen_failed;
       iteration_at 1001 empty_maps fopen_failed]
      (main_init "edge")
  with
  | Defined (Exited s) => Some (clock s - 102, length (exported s))
  | _ => None
  end
  = Some (1001, 1%nat) /\
  match
    main_loop (Some 1)
      [iteration_at 1000 empty_maps fopen_failed;
       iteration_at 1001 empty_maps fopen_failed]
      (main_init "edge")
  with
  | Defined (Exited s) => Some (clock s - 1, length (exported s))
  | _ => None
  end
  = Some (1102, 1%nat) /\
  ~ 1001 <= 100.
Proof. split; [|split]; [vm_compute; reflexivity.. | lia]. Qed.

(** Once the signal has been delivered, the loop test leaves the loop and
    nothing else is done. *)
Lemma loop_test_after_signal (t : Z) (it : iteration) (s : main_state) :
  t <= clock s -> loop_body (Some t) it s = Defined (Exited s).
Proof.
  intros Hs. unfold loop_body, exiting.
  destruct (Z.leb_spec t (clock s)); [reflexivity | lia].
Qed.

(** One evaluation of the loop during which the signal is delivered at
    [t], against the same evaluation left alone. *)
Lemma loop_body_signal (t : Z) (it : iteration) (s s0 : main_state) :
  clock s < t ->
  0 <= poll_entry it -> 0 <= poll_wait it -> 0 <= work it ->
  loop_body None it s = Defined (Running s0) ->
  let poll_from := clock s + poll_entry it in
  let poll_to := poll_from + poll_wait it in
  let sleep_from := poll_to + work it in
  clock s0 = sleep_from + 1000 /\
  (poll_from < t < poll_to ->
     loop_body (Some t) it s
     = Defined (Exited {| clock := t; main_metrics := main_metrics s;
                          main_statics := main_statics s;
                          last_metrics_update := last_metrics_update s;
                          exported := exported s; err := 0 |})) /\
  (t <= poll_from \/ poll_to <= t ->
     loop_body (Some t) it s
     = Defined (Running {| clock := if (sleep_from <? t) && (t <? sleep_from + 1000)
                                    then t else sleep_from + 1000;
                           main_metrics := main_metrics s0;
                           main_statics := main_statics s0;
                           last_metrics_update := last_metrics_update s0;
                           exported := exported s0; err := err s0 |})) /\
  (exported s0 = exported s \/
   exported s0 = exported s ++ [export_prometheus_metrics (main_metrics s0)]).
Proof.
  intros Hs He Hw Hk Hrun poll_from poll_to sleep_from.
  revert Hrun. unfold loop_body. cbn [exiting blocking].
  destruct (Z.leb_spec t (clock s)); [lia|].
  destruct (Z.eqb_spec (poll_result it) (- EINTR)) as [|Hne]; [discriminate|].
  destruct (Z.ltb_spec (poll_result it) 0) as [|Hpos]; [discriminate|].
  fold poll_from. fold poll_to. fold sleep_from.
  destruct (if 5 <=? now it - last_metrics_update s
            then
              '(metrics, st) ←
                update_metrics (main_metrics s) (main_statics s) (tables it) 0
                  (tick it);
              mret (metrics, st, now it,
                    exported s ++ [export_prometheus_metrics metrics])
            else
              mret (main_metrics s, main_statics s, last_metrics_update s,
                    exported s))
    as [[[[metrics st] last] out]|] eqn:Htick; [|
      destruct ((poll_from <? t) && (t <? poll_to)); cbn; discriminate].
  cbn [mbind mret c_result_bind c_result_ret].
  intros [= <-]. cbn [clock main_metrics main_statics last_metrics_update
                       exported err].
  split; [reflexivity|]. split; [|split].
  - intros Hin.
    destruct (Z.ltb_spec poll_from t); [|lia].
    destruct (Z.ltb_spec t poll_to); [|lia]. reflexivity.
  - intros Hout.
    assert (Hb : (poll_from <? t) && (t <? poll_to) = false).
    { destruct (Z.ltb_spec poll_from t); destruct (Z.ltb_spec t poll_to);
        cbn; try reflexivity; lia. }
    rewrite Hb.
    destruct (Z.eqb_spec (poll_result it) (- EINTR)); [contradiction|].
    destruct (Z.ltb_spec (poll_result it) 0); [lia|].
    cbn [mbind mret c_result_bind c_result_ret].
    unfold sleep_from.
    destruct ((poll_to + work it <? t) && (t <? poll_to + work it + 1000));
      reflexivity.
  - revert Htick. destruct (5 <=? now it - last_metrics_update s).
    + destruct (update_metrics (main_metrics s) (main_statics s) (tables it) 0
                  (tick it)) as [[metrics' st']|]; [|discriminate].
      cbn. intros [= <- <- <- <-]. right. reflexivity.
    + cbn. intros [= <- <- <- <-]. left. reflexivity.
Qed.

(** A signal still to come leaves the iterations before it as they are. *)
Lemma main_loop_before_signal (pre : list iteration) :
  forall (s s1 : main_state),
    Forall (fun i => 0 <= poll_entry i /\ 0 <= poll_wait i /\ 0 <= work i) pre ->
    main_loop None pre s = Defined (Running s1) ->
    clock s <= clock s1 /\
    forall t, clock s1 < t -> main_loop (Some t) pre s = Defined (Running s1).
Proof.
  induction pre as [|it pre IH]; intros s s1 Hd; cbn [main_loop].
  - intros [= <-]. split; [lia | reflexivity].
  - apply Forall_cons in Hd as [(He & Hw & Hk) Hd].
    destruct (loop_body None it s) as [[s2|s2]|] eqn:Hbody;
      cbn [mbind c_result_bind]; try discriminate.
    intros Hrest. destruct (IH s2 s1 Hd Hrest) as [Hle Hsame].
    split.
    + assert (Hc : clock s < clock s2).
      { destruct (loop_body_signal (clock s + 1) it s s2) as [Hc _];
          [lia | assumption.. |]. lia. }
      lia.
    + intros t Ht.
      destruct (loop_body_signal t it s s2) as (Hc & _ & Hgo & _);
        [| assumption.. |].
      { destruct (loop_body_signal (clock s + 1) it s s2) as [Hc _];
          [lia | assumption.. |]. lia. }
      rewrite Hgo by lia.
      destruct (Z.ltb_spec t (clock s + poll_entry it + poll_wait it + work it
                              + 1000)); [lia|].
      rewrite andb_false_r. cbn [mbind c_result_bind].
      rewrite <- Hc. rewrite <- (Hsame t Ht). f_equal.
      destruct s2; reflexivity.
Qed.

(** C9, amended: the signal, delivered at [t] during an iteration of the
    loop, ends the loop at that iteration's poll or at the next loop test,
    whichever comes first.  A poll in progress is cut short: the loop is
    left at [t], before any tick.  Delivered after the loop test but before
    the poll blocks, or after the poll has returned, the signal is seen at
    the next loop test only: the iteration runs on, the tick in flight
    completes and its record goes to the exporter in full, and [sleep(1)],
    when the signal finds it in progress, returns at [t], but runs for its
    whole second when it is called after the signal.  The loop therefore
    ends within the poll timeout plus one second plus the running time of
    the rest of the body after the signal, not within one poll timeout;
    what the exporter has received is what it had plus, at most, the whole
    record of this tick. *)
Theorem shutdown_within_iteration (t : Z) (pre : list iteration)
    (it next : iteration) (post : list iteration) (s s1 s0 : main_state) :
  Forall (fun i => 0 <= poll_entry i /\ 0 <= poll_wait i /\ 0 <= work i) pre ->
  0 <= poll_entry it -> 0 <= poll_wait it -> 0 <= work it ->
  main_loop None pre s = Defined (Running s1) ->
  loop_body None it s1 = Defined (Running s0) ->
  clock s1 < t <= clock s0 ->
  let poll_from := clock s1 + poll_entry it in
  let poll_to := poll_from + poll_wait it in
  let sleep_from := poll_to + work it in
  exists s',
    main_loop (Some t) (pre ++ it :: next :: post) s = Defined (Exited s') /\
    t <= clock s' < t + poll_entry it + poll_wait it + work it + 1000 /\
    (poll_from < t < poll_to ->
       s' = {| clock := t; main_metrics := main_metrics s1;
               main_statics := main_statics s1;
               last_metrics_update := last_metrics_update s1;
               exported := exported s1; err := 0 |}) /\
    (t <= poll_from \/ poll_to <= t ->
       s' = {| clock := if sleep_from <? t then t else sleep_from + 1000;
               main_metrics := main_metrics s0;
               main_statics := main_statics s0;
               last_metrics_update := last_metrics_update s0;
               exported := exported s0; err := err s0 |}) /\
    (exported s0 = exported s1 \/
     exported s0 = exported s1 ++ [export_prometheus_metrics (main_metrics s0)]).
Proof.
  intros Hpre He Hw Hk Hrun Hbody Ht poll_from poll_to sleep_from.
  destruct (main_loop_before_signal pre s s1 Hpre Hrun) as [_ Hsame].
  destruct (loop_body_signal t it s1 s0 (proj1 Ht) He Hw Hk Hbody)
    as (Hc & Hcut & Hgo & Hrec).
  fold poll_from in Hc, Hcut, Hgo. fold poll_to in Hc, Hcut, Hgo.
  fold sleep_from in Hc, Hgo.
  rewrite (main_loop_app _ _ _ _ _ (Hsame t (proj1 Ht))). cbn [main_loop].
  destruct (Z_lt_le_dec poll_from t) as [Hafter|Hbefore];
    [destruct (Z_lt_le_dec t poll_to) as [Hin|Hlate]|].
  - rewrite (Hcut (conj Hafter Hin)). cbn [mbind c_result_bind mret c_result_ret].
    eexists. split; [reflexivity|]. cbn [clock].
    split; [lia|]. split; [reflexivity|]. split; [lia | exact Hrec].
  - rewrite (Hgo (or_intror Hlate)). cbn [mbind c_result_bind].
    rewrite loop_test_after_signal.
    + cbn [mbind c_result_bind mret c_result_ret].
      eexists. split; [reflexivity|]. cbn [clock].
      destruct (Z.ltb_spec sleep_from t); destruct (Z.ltb_spec t (sleep_from + 1000));
        cbn [andb]; (split; [lia|]); (split; [lia|]);
        (split; [intros _; f_equal; lia | exact Hrec]).
    + cbn [clock].
      destruct (Z.ltb_spec sleep_from t); destruct (Z.ltb_spec t (sleep_from + 1000));
        cbn [andb]; lia.
  - rewrite (Hgo (or_introl Hbefore)). cbn [mbind c_result_bind].
    rewrite loop_test_after_signal.
    + cbn [mbind c_result_bind mret c_result_ret].
      eexists. split; [reflexivity|]. cbn [clock].
      destruct (Z.ltb_spec sleep_from t); [lia|]. cbn [andb].
      split; [lia|]. split; [lia|]. split; [reflexivity | exact Hrec].
    + cbn [clock]. destruct (Z.ltb_spec sleep_from t); [lia|]. cbn [andb]. lia.
Qed.

Lemma shutdown_within_iteration_witness :
  exists s',
    main_loop (Some 1205)
      [iteration_at 1000 empty_maps fopen_failed;
       iteration_at 1005 tables_with_histogram fopen_failed;
       iteration_at 1006 empty_maps fopen_failed]
      (main_init "edge") = Defined (Exited s') /\
    clock s' = 2206 /\
    map (map gauge_value) (exported s')
    = [ [Fin 0; Fin 0; Fin 0; Fin 0; Fin 0; Fin 0];
        [Fin 4; Fin 4; Fin 0; Fin 0; Fin 0; Fin 0] ].
Proof.
  destruct (shutdown_within_iteration 1205
              [iteration_at 1000 empty_maps fopen_failed]
              (iteration_at 1005 tables_with_histogram fopen_failed)
              (iteration_at 1006 empty_maps fopen_failed) []
              (main_init "edge")
              (state_after [iteration_at 1000 empty_maps fopen_failed])
              (state_after
                 [iteration_at 1000 empty_maps fopen_failed;
                  iteration_at 1005 tables_with_histogram fopen_failed]))
    as (s' & Hrun & _ & _ & Hgo & _).
  - repeat constructor; cbn; lia.
  - cbn; lia.
  - cbn; lia.
  - cbn; lia.
  - vm_compute. reflexivity.
  - vm_compute. reflexivity.
  - vm_compute. split; [reflexivity | discriminate].
  - exists s'. split; [exact Hrun|].
    rewrite Hgo by (right; vm_compute; discriminate).
    split; vm_compute; reflexivity.
Defined.

End shutdown.
